(** * Konsole terminal display: screen image, diff update, scroll shift, selection

    A shallow embedding of the parts of [TerminalDisplay.cpp] that keep the
    displayed character image, reconcile it with the image of the screen
    window ([updateImage]), shift it on scrolling ([scrollImage]) and turn
    mouse positions into selections ([characterPosition], [extendSelection],
    [mouseDoubleClickEvent], [mouseTripleClickEvent]).

    Conventions.
    - C++ [int] values are integers of [Z]; the grids handled are far below
      2^31 cells and signed overflow is undefined in C++, so no wrap-around
      is modelled, with one exception: [characterPosition], which is handed
      any point whatever, computes as the compiled code does, modulo 2^32.
      [/] on [int] truncates towards zero: [Z.quot].
    - The image is the flat, row-major array [_image] of
      [_lines * _columns + 1] cells: a [list Character] indexed by [Z].
      Reading outside the list (undefined in C++) yields the blank cell;
      writing outside it is dropped.
    - A failed [assert] and a division by zero abort the call: the
      operations that can reach one return [option].
    - [_lineProperties] is a vector that the selection code indexes
      unchecked.  Here a row outside it reads as not wrapped; the
      statements about selection assume a vector that covers the rows
      read. *)

From Stdlib Require Import ZArith List Bool Lia.
Import ListNotations.
Open Scope Z_scope.

(** ** Cells *)

(** Modelled from the spec: [CharacterColor] is declared in a header that is
    not part of these sources; the spec calls it a colour reference.  Only
    its equality is used here. *)
Definition CharacterColor : Type := Z.

(** Modelled from the spec: the [Character] structure (section 3, Cell):
    a character code, a rendition bit set, a foreground and a background
    colour.  Character code 0 marks the continuation of a double-width
    cell. *)
Record Character : Type := mkCharacter {
  character : Z;
  rendition : Z;
  foregroundColor : CharacterColor;
  backgroundColor : CharacterColor
}.

(** Modelled from the spec: [operator==] / [operator!=] on [Character],
    declared beside the structure; cells are compared field by field. *)
Definition Character_eqb (a b : Character) : bool :=
  (character a =? character b) && (rendition a =? rendition b)
  && (foregroundColor a =? foregroundColor b)
  && (backgroundColor a =? backgroundColor b).

Definition Character_neqb (a b : Character) : bool := negb (Character_eqb a b).

(** Modelled from the spec: constants of the missing headers.  The default
    colours and rendition are those [clearImage] writes; the rendition and
    line-property flags are single bits. *)
Definition DEFAULT_FORE_COLOR : Z := 0.
Definition DEFAULT_BACK_COLOR : Z := 1.
Definition DEFAULT_RENDITION : Z := 0.
Definition RE_BLINK : Z := 2.
Definition LINE_WRAPPED : Z := 1.
Definition LINE_DOUBLEWIDTH : Z := 2.
Definition LINE_DOUBLEHEIGHT : Z := 4.

(** The cell [clearImage] writes everywhere: a space in default colours. *)
Definition blankCharacter : Character :=
  {| character := 32; rendition := DEFAULT_RENDITION;
     foregroundColor := DEFAULT_FORE_COLOR;
     backgroundColor := DEFAULT_BACK_COLOR |}.

(** [static inline bool isLineChar(Q_UINT16 c)] *)
Definition isLineChar (c : Z) : bool := Z.land c 65408 =? 9472.

(** ** Flat arrays *)

(** [a[i]]: element [i] of an array, with default [d] outside of it. *)
Definition zth {A : Type} (d : A) (l : list A) (i : Z) : A :=
  if i <? 0 then d else nth (Z.to_nat i) l d.

(** [img[i]] for an image. *)
Definition cell (img : list Character) (i : Z) : Character :=
  zth blankCharacter img i.

Definition len {A : Type} (l : list A) : Z := Z.of_nat (length l).

(** The indices [0 .. n-1]. *)
Definition indices (n : nat) : list Z := map Z.of_nat (seq 0 n).

(** [memmove(&dst[d], &src[s], n * sizeof(Character))] as seen in [dst]:
    cells [d .. d+n-1] of the result are cells [s .. s+n-1] of [src] as
    they were before the call, all other cells stay.  [memcpy] between two
    distinct arrays is the same function. *)
Definition copyCells (dst src : list Character) (d s n : Z) : list Character :=
  map (fun i => if (d <=? i) && (i <? d + n) then cell src (i - d + s)
                else cell dst i)
      (indices (length dst)).

Definition memmove (img : list Character) (d s n : Z) : list Character :=
  copyCells img img d s n.

Definition memcpy (dst src : list Character) (d s n : Z) : list Character :=
  copyCells dst src d s n.

(** [a[i] = v] on an array of flags. *)
Definition zset {A : Type} (l : list A) (i : Z) (v : A) : list A :=
  map (fun p => if fst p =? i then v else snd p)
      (combine (indices (length l)) l).

(** ** Toolkit values *)

Record QPoint : Type := mkQPoint { px : Z; py : Z }.

Definition QPoint_eqb (a b : QPoint) : bool :=
  (px a =? px b) && (py a =? py b).

(** [QRect(x, y, width, height)] *)
Record QRect : Type := mkQRect { rx : Z; ry : Z; rw : Z; rh : Z }.

(** [QRect::contains(QPoint)]: the pixel lies inside the rectangle. *)
Definition QRect_contains (r : QRect) (p : QPoint) : bool :=
  (rx r <=? px p) && (px p <? rx r + rw r)
  && (ry r <=? py p) && (py p <? ry r + rh r).

(** A [QRegion] built with [operator|=] from rectangles: the rectangles
    united so far, in the order in which they were added. *)
Definition QRegion : Type := list QRect.

Definition QRegion_unite (g : QRegion) (r : QRect) : QRegion := g ++ [r].

Inductive ScrollBarLocation : Type :=
  SCROLLBAR_NONE | SCROLLBAR_LEFT | SCROLLBAR_RIGHT.

(** The scroll bar widget: its range, value and width. *)
Record QScrollBar : Type := mkQScrollBar {
  sb_minimum : Z;
  sb_maximum : Z;
  sb_value : Z;
  sb_width : Z
}.

Inductive DragState : Type := diNone | diPending | diDragging.

Record DragInfo : Type := mkDragInfo {
  drag_state : DragState;
  drag_start : QPoint
}.

(** Modelled from the spec: the [ScreenWindow] class is not part of these
    sources.  The record holds what its getters return to the display
    (section 6, Input: the incoming image and its size, the scroll delta,
    the line attributes) and the arguments of the last [setSelectionStart]
    and [setSelectionEnd] calls, which is the selection the display has
    communicated to it. *)
Record ScreenWindow : Type := mkScreenWindow {
  scrollCount : Z;
  getImage : list Character;
  windowLines : Z;
  windowColumns : Z;
  currentLine : Z;
  lineCount : Z;
  getLineProperties : list Z;
  selectionStart : option (Z * Z * bool);
  selectionEnd : option (Z * Z)
}.

Definition resetScrollCount (w : ScreenWindow) : ScreenWindow :=
  {| scrollCount := 0; getImage := getImage w; windowLines := windowLines w;
     windowColumns := windowColumns w; currentLine := currentLine w;
     lineCount := lineCount w; getLineProperties := getLineProperties w;
     selectionStart := selectionStart w; selectionEnd := selectionEnd w |}.

Definition setSelectionStart (x y : Z) (columnMode : bool) (w : ScreenWindow)
  : ScreenWindow :=
  {| scrollCount := scrollCount w; getImage := getImage w;
     windowLines := windowLines w; windowColumns := windowColumns w;
     currentLine := currentLine w; lineCount := lineCount w;
     getLineProperties := getLineProperties w;
     selectionStart := Some (x, y, columnMode);
     selectionEnd := selectionEnd w |}.

Definition setSelectionEnd (x y : Z) (w : ScreenWindow) : ScreenWindow :=
  {| scrollCount := scrollCount w; getImage := getImage w;
     windowLines := windowLines w; windowColumns := windowColumns w;
     currentLine := currentLine w; lineCount := lineCount w;
     getLineProperties := getLineProperties w;
     selectionStart := selectionStart w; selectionEnd := Some (x, y) |}.

Definition clearSelection (w : ScreenWindow) : ScreenWindow :=
  {| scrollCount := scrollCount w; getImage := getImage w;
     windowLines := windowLines w; windowColumns := windowColumns w;
     currentLine := currentLine w; lineCount := lineCount w;
     getLineProperties := getLineProperties w;
     selectionStart := None; selectionEnd := None |}.

(** ** The display *)

(** The members of [TerminalDisplay] the modelled functions read or write,
    under their names in the class.  [contentsRect] is the frame's content
    rectangle and [scrollBarExtent] the style's [PM_ScrollBarExtent]. *)
Record TerminalDisplay : Type := mkTerminalDisplay {
  _screenWindow : ScreenWindow;
  contentsRect : QRect;
  scrollBarExtent : Z;
  _scrollBar : QScrollBar;
  _fontHeight : Z;
  _fontWidth : Z;
  _lines : Z;
  _columns : Z;
  _usedLines : Z;
  _usedColumns : Z;
  _contentHeight : Z;
  _contentWidth : Z;
  _image : option (list Character);
  _imageSize : Z;
  _lineProperties : list Z;
  _resizing : bool;
  _actSel : Z;
  _wordSelectionMode : bool;
  _lineSelectionMode : bool;
  _preserveLineBreaks : bool;
  _columnSelectionMode : bool;
  _iPntSel : QPoint;
  _pntSel : QPoint;
  _tripleSelBegin : QPoint;
  _scrollbarLocation : ScrollBarLocation;
  _wordCharacters : list Z;
  _hasBlinker : bool;
  _ctrlDrag : bool;
  _cutToBeginningOfLine : bool;
  _isFixedSize : bool;
  _possibleTripleClick : bool;
  _mouseMarks : bool;
  _rimX : Z;
  _rimY : Z;
  _bX : Z;
  _bY : Z;
  _imPreeditLength : Z;
  _imStart : Z;
  _imStartLine : Z;
  _imEnd : Z;
  _imSelStart : Z;
  _imSelEnd : Z;
  _isIMEdit : bool;
  _isIMSel : bool;
  dragInfo : DragInfo;
  _configureRequestPoint : QPoint
}.

(** Assignments to members: [set_x v d] is the display [d] after
    [_x = v]. *)
Definition set_screenWindow (v : ScreenWindow) (d : TerminalDisplay) : TerminalDisplay :=
  {| _screenWindow := v; contentsRect := contentsRect d;
     scrollBarExtent := scrollBarExtent d; _scrollBar := _scrollBar d;
     _fontHeight := _fontHeight d; _fontWidth := _fontWidth d;
     _lines := _lines d; _columns := _columns d; _usedLines := _usedLines d;
     _usedColumns := _usedColumns d; _contentHeight := _contentHeight d;
     _contentWidth := _contentWidth d; _image := _image d;
     _imageSize := _imageSize d; _lineProperties := _lineProperties d;
     _resizing := _resizing d; _actSel := _actSel d;
     _wordSelectionMode := _wordSelectionMode d;
     _lineSelectionMode := _lineSelectionMode d;
     _preserveLineBreaks := _preserveLineBreaks d;
     _columnSelectionMode := _columnSelectionMode d; _iPntSel := _iPntSel d;
     _pntSel := _pntSel d; _tripleSelBegin := _tripleSelBegin d;
     _scrollbarLocation := _scrollbarLocation d;
     _wordCharacters := _wordCharacters d; _hasBlinker := _hasBlinker d;
     _ctrlDrag := _ctrlDrag d;
     _cutToBeginningOfLine := _cutToBeginningOfLine d;
     _isFixedSize := _isFixedSize d;
     _possibleTripleClick := _possibleTripleClick d;
     _mouseMarks := _mouseMarks d; _rimX := _rimX d; _rimY := _rimY d;
     _bX := _bX d; _bY := _bY d; _imPreeditLength := _imPreeditLength d;
     _imStart := _imStart d; _imStartLine := _imStartLine d;
     _imEnd := _imEnd d; _imSelStart := _imSelStart d;
     _imSelEnd := _imSelEnd d; _isIMEdit := _isIMEdit d;
     _isIMSel := _isIMSel d; dragInfo := dragInfo d;
     _configureRequestPoint := _configureRequestPoint d |}.

Definition set_scrollBar (v : QScrollBar) (d : TerminalDisplay) : TerminalDisplay :=
  {| _screenWindow := _screenWindow d; contentsRect := contentsRect d;
     scrollBarExtent := scrollBarExtent d; _scrollBar := v;
     _fontHeight := _fontHeight d; _fontWidth := _fontWidth d;
     _lines := _lines d; _columns := _columns d; _usedLines := _usedLines d;
     _usedColumns := _usedColumns d; _contentHeight := _contentHeight d;
     _contentWidth := _contentWidth d; _image := _image d;
     _imageSize := _imageSize d; _lineProperties := _lineProperties d;
     _resizing := _resizing d; _actSel := _actSel d;
     _wordSelectionMode := _wordSelectionMode d;
     _lineSelectionMode := _lineSelectionMode d;
     _preserveLineBreaks := _preserveLineBreaks d;
     _columnSelectionMode := _columnSelectionMode d; _iPntSel := _iPntSel d;
     _pntSel := _pntSel d; _tripleSelBegin := _tripleSelBegin d;
     _scrollbarLocation := _scrollbarLocation d;
     _wordCharacters := _wordCharacters d; _hasBlinker := _hasBlinker d;
     _ctrlDrag := _ctrlDrag d;
     _cutToBeginningOfLine := _cutToBeginningOfLine d;
     _isFixedSize := _isFixedSize d;
     _possibleTripleClick := _possibleTripleClick d;
     _mouseMarks := _mouseMarks d; _rimX := _rimX d; _rimY := _rimY d;
     _bX := _bX d; _bY := _bY d; _imPreeditLength := _imPreeditLength d;
     _imStart := _imStart d; _imStartLine := _imStartLine d;
     _imEnd := _imEnd d; _imSelStart := _imSelStart d;
     _imSelEnd := _imSelEnd d; _isIMEdit := _isIMEdit d;
     _isIMSel := _isIMSel d; dragInfo := dragInfo d;
     _configureRequestPoint := _configureRequestPoint d |}.

Definition set_lines (v : Z) (d : TerminalDisplay) : TerminalDisplay :=
  {| _screenWindow := _screenWindow d; contentsRect := contentsRect d;
     scrollBarExtent := scrollBarExtent d; _scrollBar := _scrollBar d;
     _fontHeight := _fontHeight d; _fontWidth := _fontWidth d; _lines := v;
     _columns := _columns d; _usedLines := _usedLines d;
     _usedColumns := _usedColumns d; _contentHeight := _contentHeight d;
     _contentWidth := _contentWidth d; _image := _image d;
     _imageSize := _imageSize d; _lineProperties := _lineProperties d;
     _resizing := _resizing d; _actSel := _actSel d;
     _wordSelectionMode := _wordSelectionMode d;
     _lineSelectionMode := _lineSelectionMode d;
     _preserveLineBreaks := _preserveLineBreaks d;
     _columnSelectionMode := _columnSelectionMode d; _iPntSel := _iPntSel d;
     _pntSel := _pntSel d; _tripleSelBegin := _tripleSelBegin d;
     _scrollbarLocation := _scrollbarLocation d;
     _wordCharacters := _wordCharacters d; _hasBlinker := _hasBlinker d;
     _ctrlDrag := _ctrlDrag d;
     _cutToBeginningOfLine := _cutToBeginningOfLine d;
     _isFixedSize := _isFixedSize d;
     _possibleTripleClick := _possibleTripleClick d;
     _mouseMarks := _mouseMarks d; _rimX := _rimX d; _rimY := _rimY d;
     _bX := _bX d; _bY := _bY d; _imPreeditLength := _imPreeditLength d;
     _imStart := _imStart d; _imStartLine := _imStartLine d;
     _imEnd := _imEnd d; _imSelStart := _imSelStart d;
     _imSelEnd := _imSelEnd d; _isIMEdit := _isIMEdit d;
     _isIMSel := _isIMSel d; dragInfo := dragInfo d;
     _configureRequestPoint := _configureRequestPoint d |}.

Definition set_columns (v : Z) (d : TerminalDisplay) : TerminalDisplay :=
  {| _screenWindow := _screenWindow d; contentsRect := contentsRect d;
     scrollBarExtent := scrollBarExtent d; _scrollBar := _scrollBar d;
     _fontHeight := _fontHeight d; _fontWidth := _fontWidth d;
     _lines := _lines d; _columns := v; _usedLines := _usedLines d;
     _usedColumns := _usedColumns d; _contentHeight := _contentHeight d;
     _contentWidth := _contentWidth d; _image := _image d;
     _imageSize := _imageSize d; _lineProperties := _lineProperties d;
     _resizing := _resizing d; _actSel := _actSel d;
     _wordSelectionMode := _wordSelectionMode d;
     _lineSelectionMode := _lineSelectionMode d;
     _preserveLineBreaks := _preserveLineBreaks d;
     _columnSelectionMode := _columnSelectionMode d; _iPntSel := _iPntSel d;
     _pntSel := _pntSel d; _tripleSelBegin := _tripleSelBegin d;
     _scrollbarLocation := _scrollbarLocation d;
     _wordCharacters := _wordCharacters d; _hasBlinker := _hasBlinker d;
     _ctrlDrag := _ctrlDrag d;
     _cutToBeginningOfLine := _cutToBeginningOfLine d;
     _isFixedSize := _isFixedSize d;
     _possibleTripleClick := _possibleTripleClick d;
     _mouseMarks := _mouseMarks d; _rimX := _rimX d; _rimY := _rimY d;
     _bX := _bX d; _bY := _bY d; _imPreeditLength := _imPreeditLength d;
     _imStart := _imStart d; _imStartLine := _imStartLine d;
     _imEnd := _imEnd d; _imSelStart := _imSelStart d;
     _imSelEnd := _imSelEnd d; _isIMEdit := _isIMEdit d;
     _isIMSel := _isIMSel d; dragInfo := dragInfo d;
     _configureRequestPoint := _configureRequestPoint d |}.

Definition set_usedLines (v : Z) (d : TerminalDisplay) : TerminalDisplay :=
  {| _screenWindow := _screenWindow d; contentsRect := contentsRect d;
     scrollBarExtent := scrollBarExtent d; _scrollBar := _scrollBar d;
     _fontHeight := _fontHeight d; _fontWidth := _fontWidth d;
     _lines := _lines d; _columns := _columns d; _usedLines := v;
     _usedColumns := _usedColumns d; _contentHeight := _contentHeight d;
     _contentWidth := _contentWidth d; _image := _image d;
     _imageSize := _imageSize d; _lineProperties := _lineProperties d;
     _resizing := _resizing d; _actSel := _actSel d;
     _wordSelectionMode := _wordSelectionMode d;
     _lineSelectionMode := _lineSelectionMode d;
     _preserveLineBreaks := _preserveLineBreaks d;
     _columnSelectionMode := _columnSelectionMode d; _iPntSel := _iPntSel d;
     _pntSel := _pntSel d; _tripleSelBegin := _tripleSelBegin d;
     _scrollbarLocation := _scrollbarLocation d;
     _wordCharacters := _wordCharacters d; _hasBlinker := _hasBlinker d;
     _ctrlDrag := _ctrlDrag d;
     _cutToBeginningOfLine := _cutToBeginningOfLine d;
     _isFixedSize := _isFixedSize d;
     _possibleTripleClick := _possibleTripleClick d;
     _mouseMarks := _mouseMarks d; _rimX := _rimX d; _rimY := _rimY d;
     _bX := _bX d; _bY := _bY d; _imPreeditLength := _imPreeditLength d;
     _imStart := _imStart d; _imStartLine := _imStartLine d;
     _imEnd := _imEnd d; _imSelStart := _imSelStart d;
     _imSelEnd := _imSelEnd d; _isIMEdit := _isIMEdit d;
     _isIMSel := _isIMSel d; dragInfo := dragInfo d;
     _configureRequestPoint := _configureRequestPoint d |}.

Definition set_usedColumns (v : Z) (d : TerminalDisplay) : TerminalDisplay :=
  {| _screenWindow := _screenWindow d; contentsRect := contentsRect d;
     scrollBarExtent := scrollBarExtent d; _scrollBar := _scrollBar d;
     _fontHeight := _fontHeight d; _fontWidth := _fontWidth d;
     _lines := _lines d; _columns := _columns d; _usedLines := _usedLines d;
     _usedColumns := v; _contentHeight := _contentHeight d;
     _contentWidth := _contentWidth d; _image := _image d;
     _imageSize := _imageSize d; _lineProperties := _lineProperties d;
     _resizing := _resizing d; _actSel := _actSel d;
     _wordSelectionMode := _wordSelectionMode d;
     _lineSelectionMode := _lineSelectionMode d;
     _preserveLineBreaks := _preserveLineBreaks d;
     _columnSelectionMode := _columnSelectionMode d; _iPntSel := _iPntSel d;
     _pntSel := _pntSel d; _tripleSelBegin := _tripleSelBegin d;
     _scrollbarLocation := _scrollbarLocation d;
     _wordCharacters := _wordCharacters d; _hasBlinker := _hasBlinker d;
     _ctrlDrag := _ctrlDrag d;
     _cutToBeginningOfLine := _cutToBeginningOfLine d;
     _isFixedSize := _isFixedSize d;
     _possibleTripleClick := _possibleTripleClick d;
     _mouseMarks := _mouseMarks d; _rimX := _rimX d; _rimY := _rimY d;
     _bX := _bX d; _bY := _bY d; _imPreeditLength := _imPreeditLength d;
     _imStart := _imStart d; _imStartLine := _imStartLine d;
     _imEnd := _imEnd d; _imSelStart := _imSelStart d;
     _imSelEnd := _imSelEnd d; _isIMEdit := _isIMEdit d;
     _isIMSel := _isIMSel d; dragInfo := dragInfo d;
     _configureRequestPoint := _configureRequestPoint d |}.

Definition set_contentHeight (v : Z) (d : TerminalDisplay) : TerminalDisplay :=
  {| _screenWindow := _screenWindow d; contentsRect := contentsRect d;
     scrollBarExtent := scrollBarExtent d; _scrollBar := _scrollBar d;
     _fontHeight := _fontHeight d; _fontWidth := _fontWidth d;
     _lines := _lines d; _columns := _columns d; _usedLines := _usedLines d;
     _usedColumns := _usedColumns d; _contentHeight := v;
     _contentWidth := _contentWidth d; _image := _image d;
     _imageSize := _imageSize d; _lineProperties := _lineProperties d;
     _resizing := _resizing d; _actSel := _actSel d;
     _wordSelectionMode := _wordSelectionMode d;
     _lineSelectionMode := _lineSelectionMode d;
     _preserveLineBreaks := _preserveLineBreaks d;
     _columnSelectionMode := _columnSelectionMode d; _iPntSel := _iPntSel d;
     _pntSel := _pntSel d; _tripleSelBegin := _tripleSelBegin d;
     _scrollbarLocation := _scrollbarLocation d;
     _wordCharacters := _wordCharacters d; _hasBlinker := _hasBlinker d;
     _ctrlDrag := _ctrlDrag d;
     _cutToBeginningOfLine := _cutToBeginningOfLine d;
     _isFixedSize := _isFixedSize d;
     _possibleTripleClick := _possibleTripleClick d;
     _mouseMarks := _mouseMarks d; _rimX := _rimX d; _rimY := _rimY d;
     _bX := _bX d; _bY := _bY d; _imPreeditLength := _imPreeditLength d;
     _imStart := _imStart d; _imStartLine := _imStartLine d;
     _imEnd := _imEnd d; _imSelStart := _imSelStart d;
     _imSelEnd := _imSelEnd d; _isIMEdit := _isIMEdit d;
     _isIMSel := _isIMSel d; dragInfo := dragInfo d;
     _configureRequestPoint := _configureRequestPoint d |}.

Definition set_contentWidth (v : Z) (d : TerminalDisplay) : TerminalDisplay :=
  {| _screenWindow := _screenWindow d; contentsRect := contentsRect d;
     scrollBarExtent := scrollBarExtent d; _scrollBar := _scrollBar d;
     _fontHeight := _fontHeight d; _fontWidth := _fontWidth d;
     _lines := _lines d; _columns := _columns d; _usedLines := _usedLines d;
     _usedColumns := _usedColumns d; _contentHeight := _contentHeight d;
     _contentWidth := v; _image := _image d; _imageSize := _imageSize d;
     _lineProperties := _lineProperties d; _resizing := _resizing d;
     _actSel := _actSel d; _wordSelectionMode := _wordSelectionMode d;
     _lineSelectionMode := _lineSelectionMode d;
     _preserveLineBreaks := _preserveLineBreaks d;
     _columnSelectionMode := _columnSelectionMode d; _iPntSel := _iPntSel d;
     _pntSel := _pntSel d; _tripleSelBegin := _tripleSelBegin d;
     _scrollbarLocation := _scrollbarLocation d;
     _wordCharacters := _wordCharacters d; _hasBlinker := _hasBlinker d;
     _ctrlDrag := _ctrlDrag d;
     _cutToBeginningOfLine := _cutToBeginningOfLine d;
     _isFixedSize := _isFixedSize d;
     _possibleTripleClick := _possibleTripleClick d;
     _mouseMarks := _mouseMarks d; _rimX := _rimX d; _rimY := _rimY d;
     _bX := _bX d; _bY := _bY d; _imPreeditLength := _imPreeditLength d;
     _imStart := _imStart d; _imStartLine := _imStartLine d;
     _imEnd := _imEnd d; _imSelStart := _imSelStart d;
     _imSelEnd := _imSelEnd d; _isIMEdit := _isIMEdit d;
     _isIMSel := _isIMSel d; dragInfo := dragInfo d;
     _configureRequestPoint := _configureRequestPoint d |}.

Definition set_image (v : option (list Character)) (d : TerminalDisplay) : TerminalDisplay :=
  {| _screenWindow := _screenWindow d; contentsRect := contentsRect d;
     scrollBarExtent := scrollBarExtent d; _scrollBar := _scrollBar d;
     _fontHeight := _fontHeight d; _fontWidth := _fontWidth d;
     _lines := _lines d; _columns := _columns d; _usedLines := _usedLines d;
     _usedColumns := _usedColumns d; _contentHeight := _contentHeight d;
     _contentWidth := _contentWidth d; _image := v;
     _imageSize := _imageSize d; _lineProperties := _lineProperties d;
     _resizing := _resizing d; _actSel := _actSel d;
     _wordSelectionMode := _wordSelectionMode d;
     _lineSelectionMode := _lineSelectionMode d;
     _preserveLineBreaks := _preserveLineBreaks d;
     _columnSelectionMode := _columnSelectionMode d; _iPntSel := _iPntSel d;
     _pntSel := _pntSel d; _tripleSelBegin := _tripleSelBegin d;
     _scrollbarLocation := _scrollbarLocation d;
     _wordCharacters := _wordCharacters d; _hasBlinker := _hasBlinker d;
     _ctrlDrag := _ctrlDrag d;
     _cutToBeginningOfLine := _cutToBeginningOfLine d;
     _isFixedSize := _isFixedSize d;
     _possibleTripleClick := _possibleTripleClick d;
     _mouseMarks := _mouseMarks d; _rimX := _rimX d; _rimY := _rimY d;
     _bX := _bX d; _bY := _bY d; _imPreeditLength := _imPreeditLength d;
     _imStart := _imStart d; _imStartLine := _imStartLine d;
     _imEnd := _imEnd d; _imSelStart := _imSelStart d;
     _imSelEnd := _imSelEnd d; _isIMEdit := _isIMEdit d;
     _isIMSel := _isIMSel d; dragInfo := dragInfo d;
     _configureRequestPoint := _configureRequestPoint d |}.

Definition set_imageSize (v : Z) (d : TerminalDisplay) : TerminalDisplay :=
  {| _screenWindow := _screenWindow d; contentsRect := contentsRect d;
     scrollBarExtent := scrollBarExtent d; _scrollBar := _scrollBar d;
     _fontHeight := _fontHeight d; _fontWidth := _fontWidth d;
     _lines := _lines d; _columns := _columns d; _usedLines := _usedLines d;
     _usedColumns := _usedColumns d; _contentHeight := _contentHeight d;
     _contentWidth := _contentWidth d; _image := _image d; _imageSize := v;
     _lineProperties := _lineProperties d; _resizing := _resizing d;
     _actSel := _actSel d; _wordSelectionMode := _wordSelectionMode d;
     _lineSelectionMode := _lineSelectionMode d;
     _preserveLineBreaks := _preserveLineBreaks d;
     _columnSelectionMode := _columnSelectionMode d; _iPntSel := _iPntSel d;
     _pntSel := _pntSel d; _tripleSelBegin := _tripleSelBegin d;
     _scrollbarLocation := _scrollbarLocation d;
     _wordCharacters := _wordCharacters d; _hasBlinker := _hasBlinker d;
     _ctrlDrag := _ctrlDrag d;
     _cutToBeginningOfLine := _cutToBeginningOfLine d;
     _isFixedSize := _isFixedSize d;
     _possibleTripleClick := _possibleTripleClick d;
     _mouseMarks := _mouseMarks d; _rimX := _rimX d; _rimY := _rimY d;
     _bX := _bX d; _bY := _bY d; _imPreeditLength := _imPreeditLength d;
     _imStart := _imStart d; _imStartLine := _imStartLine d;
     _imEnd := _imEnd d; _imSelStart := _imSelStart d;
     _imSelEnd := _imSelEnd d; _isIMEdit := _isIMEdit d;
     _isIMSel := _isIMSel d; dragInfo := dragInfo d;
     _configureRequestPoint := _configureRequestPoint d |}.

Definition set_lineProperties (v : list Z) (d : TerminalDisplay) : TerminalDisplay :=
  {| _screenWindow := _screenWindow d; contentsRect := contentsRect d;
     scrollBarExtent := scrollBarExtent d; _scrollBar := _scrollBar d;
     _fontHeight := _fontHeight d; _fontWidth := _fontWidth d;
     _lines := _lines d; _columns := _columns d; _usedLines := _usedLines d;
     _usedColumns := _usedColumns d; _contentHeight := _contentHeight d;
     _contentWidth := _contentWidth d; _image := _image d;
     _imageSize := _imageSize d; _lineProperties := v;
     _resizing := _resizing d; _actSel := _actSel d;
     _wordSelectionMode := _wordSelectionMode d;
     _lineSelectionMode := _lineSelectionMode d;
     _preserveLineBreaks := _preserveLineBreaks d;
     _columnSelectionMode := _columnSelectionMode d; _iPntSel := _iPntSel d;
     _pntSel := _pntSel d; _tripleSelBegin := _tripleSelBegin d;
     _scrollbarLocation := _scrollbarLocation d;
     _wordCharacters := _wordCharacters d; _hasBlinker := _hasBlinker d;
     _ctrlDrag := _ctrlDrag d;
     _cutToBeginningOfLine := _cutToBeginningOfLine d;
     _isFixedSize := _isFixedSize d;
     _possibleTripleClick := _possibleTripleClick d;
     _mouseMarks := _mouseMarks d; _rimX := _rimX d; _rimY := _rimY d;
     _bX := _bX d; _bY := _bY d; _imPreeditLength := _imPreeditLength d;
     _imStart := _imStart d; _imStartLine := _imStartLine d;
     _imEnd := _imEnd d; _imSelStart := _imSelStart d;
     _imSelEnd := _imSelEnd d; _isIMEdit := _isIMEdit d;
     _isIMSel := _isIMSel d; dragInfo := dragInfo d;
     _configureRequestPoint := _configureRequestPoint d |}.

Definition set_resizing (v : bool) (d : TerminalDisplay) : TerminalDisplay :=
  {| _screenWindow := _screenWindow d; contentsRect := contentsRect d;
     scrollBarExtent := scrollBarExtent d; _scrollBar := _scrollBar d;
     _fontHeight := _fontHeight d; _fontWidth := _fontWidth d;
     _lines := _lines d; _columns := _columns d; _usedLines := _usedLines d;
     _usedColumns := _usedColumns d; _contentHeight := _contentHeight d;
     _contentWidth := _contentWidth d; _image := _image d;
     _imageSize := _imageSize d; _lineProperties := _lineProperties d;
     _resizing := v; _actSel := _actSel d;
     _wordSelectionMode := _wordSelectionMode d;
     _lineSelectionMode := _lineSelectionMode d;
     _preserveLineBreaks := _preserveLineBreaks d;
     _columnSelectionMode := _columnSelectionMode d; _iPntSel := _iPntSel d;
     _pntSel := _pntSel d; _tripleSelBegin := _tripleSelBegin d;
     _scrollbarLocation := _scrollbarLocation d;
     _wordCharacters := _wordCharacters d; _hasBlinker := _hasBlinker d;
     _ctrlDrag := _ctrlDrag d;
     _cutToBeginningOfLine := _cutToBeginningOfLine d;
     _isFixedSize := _isFixedSize d;
     _possibleTripleClick := _possibleTripleClick d;
     _mouseMarks := _mouseMarks d; _rimX := _rimX d; _rimY := _rimY d;
     _bX := _bX d; _bY := _bY d; _imPreeditLength := _imPreeditLength d;
     _imStart := _imStart d; _imStartLine := _imStartLine d;
     _imEnd := _imEnd d; _imSelStart := _imSelStart d;
     _imSelEnd := _imSelEnd d; _isIMEdit := _isIMEdit d;
     _isIMSel := _isIMSel d; dragInfo := dragInfo d;
     _configureRequestPoint := _configureRequestPoint d |}.

Definition set_actSel (v : Z) (d : TerminalDisplay) : TerminalDisplay :=
  {| _screenWindow := _screenWindow d; contentsRect := contentsRect d;
     scrollBarExtent := scrollBarExtent d; _scrollBar := _scrollBar d;
     _fontHeight := _fontHeight d; _fontWidth := _fontWidth d;
     _lines := _lines d; _columns := _columns d; _usedLines := _usedLines d;
     _usedColumns := _usedColumns d; _contentHeight := _contentHeight d;
     _contentWidth := _contentWidth d; _image := _image d;
     _imageSize := _imageSize d; _lineProperties := _lineProperties d;
     _resizing := _resizing d; _actSel := v;
     _wordSelectionMode := _wordSelectionMode d;
     _lineSelectionMode := _lineSelectionMode d;
     _preserveLineBreaks := _preserveLineBreaks d;
     _columnSelectionMode := _columnSelectionMode d; _iPntSel := _iPntSel d;
     _pntSel := _pntSel d; _tripleSelBegin := _tripleSelBegin d;
     _scrollbarLocation := _scrollbarLocation d;
     _wordCharacters := _wordCharacters d; _hasBlinker := _hasBlinker d;
     _ctrlDrag := _ctrlDrag d;
     _cutToBeginningOfLine := _cutToBeginningOfLine d;
     _isFixedSize := _isFixedSize d;
     _possibleTripleClick := _possibleTripleClick d;
     _mouseMarks := _mouseMarks d; _rimX := _rimX d; _rimY := _rimY d;
     _bX := _bX d; _bY := _bY d; _imPreeditLength := _imPreeditLength d;
     _imStart := _imStart d; _imStartLine := _imStartLine d;
     _imEnd := _imEnd d; _imSelStart := _imSelStart d;
     _imSelEnd := _imSelEnd d; _isIMEdit := _isIMEdit d;
     _isIMSel := _isIMSel d; dragInfo := dragInfo d;
     _configureRequestPoint := _configureRequestPoint d |}.

Definition set_wordSelectionMode (v : bool) (d : TerminalDisplay) : TerminalDisplay :=
  {| _screenWindow := _screenWindow d; contentsRect := contentsRect d;
     scrollBarExtent := scrollBarExtent d; _scrollBar := _scrollBar d;
     _fontHeight := _fontHeight d; _fontWidth := _fontWidth d;
     _lines := _lines d; _columns := _columns d; _usedLines := _usedLines d;
     _usedColumns := _usedColumns d; _contentHeight := _contentHeight d;
     _contentWidth := _contentWidth d; _image := _image d;
     _imageSize := _imageSize d; _lineProperties := _lineProperties d;
     _resizing := _resizing d; _actSel := _actSel d; _wordSelectionMode := v;
     _lineSelectionMode := _lineSelectionMode d;
     _preserveLineBreaks := _preserveLineBreaks d;
     _columnSelectionMode := _columnSelectionMode d; _iPntSel := _iPntSel d;
     _pntSel := _pntSel d; _tripleSelBegin := _tripleSelBegin d;
     _scrollbarLocation := _scrollbarLocation d;
     _wordCharacters := _wordCharacters d; _hasBlinker := _hasBlinker d;
     _ctrlDrag := _ctrlDrag d;
     _cutToBeginningOfLine := _cutToBeginningOfLine d;
     _isFixedSize := _isFixedSize d;
     _possibleTripleClick := _possibleTripleClick d;
     _mouseMarks := _mouseMarks d; _rimX := _rimX d; _rimY := _rimY d;
     _bX := _bX d; _bY := _bY d; _imPreeditLength := _imPreeditLength d;
     _imStart := _imStart d; _imStartLine := _imStartLine d;
     _imEnd := _imEnd d; _imSelStart := _imSelStart d;
     _imSelEnd := _imSelEnd d; _isIMEdit := _isIMEdit d;
     _isIMSel := _isIMSel d; dragInfo := dragInfo d;
     _configureRequestPoint := _configureRequestPoint d |}.

Definition set_lineSelectionMode (v : bool) (d : TerminalDisplay) : TerminalDisplay :=
  {| _screenWindow := _screenWindow d; contentsRect := contentsRect d;
     scrollBarExtent := scrollBarExtent d; _scrollBar := _scrollBar d;
     _fontHeight := _fontHeight d; _fontWidth := _fontWidth d;
     _lines := _lines d; _columns := _columns d; _usedLines := _usedLines d;
     _usedColumns := _usedColumns d; _contentHeight := _contentHeight d;
     _contentWidth := _contentWidth d; _image := _image d;
     _imageSize := _imageSize d; _lineProperties := _lineProperties d;
     _resizing := _resizing d; _actSel := _actSel d;
     _wordSelectionMode := _wordSelectionMode d; _lineSelectionMode := v;
     _preserveLineBreaks := _preserveLineBreaks d;
     _columnSelectionMode := _columnSelectionMode d; _iPntSel := _iPntSel d;
     _pntSel := _pntSel d; _tripleSelBegin := _tripleSelBegin d;
     _scrollbarLocation := _scrollbarLocation d;
     _wordCharacters := _wordCharacters d; _hasBlinker := _hasBlinker d;
     _ctrlDrag := _ctrlDrag d;
     _cutToBeginningOfLine := _cutToBeginningOfLine d;
     _isFixedSize := _isFixedSize d;
     _possibleTripleClick := _possibleTripleClick d;
     _mouseMarks := _mouseMarks d; _rimX := _rimX d; _rimY := _rimY d;
     _bX := _bX d; _bY := _bY d; _imPreeditLength := _imPreeditLength d;
     _imStart := _imStart d; _imStartLine := _imStartLine d;
     _imEnd := _imEnd d; _imSelStart := _imSelStart d;
     _imSelEnd := _imSelEnd d; _isIMEdit := _isIMEdit d;
     _isIMSel := _isIMSel d; dragInfo := dragInfo d;
     _configureRequestPoint := _configureRequestPoint d |}.

Definition set_preserveLineBreaks (v : bool) (d : TerminalDisplay) : TerminalDisplay :=
  {| _screenWindow := _screenWindow d; contentsRect := contentsRect d;
     scrollBarExtent := scrollBarExtent d; _scrollBar := _scrollBar d;
     _fontHeight := _fontHeight d; _fontWidth := _fontWidth d;
     _lines := _lines d; _columns := _columns d; _usedLines := _usedLines d;
     _usedColumns := _usedColumns d; _contentHeight := _contentHeight d;
     _contentWidth := _contentWidth d; _image := _image d;
     _imageSize := _imageSize d; _lineProperties := _lineProperties d;
     _resizing := _resizing d; _actSel := _actSel d;
     _wordSelectionMode := _wordSelectionMode d;
     _lineSelectionMode := _lineSelectionMode d; _preserveLineBreaks := v;
     _columnSelectionMode := _columnSelectionMode d; _iPntSel := _iPntSel d;
     _pntSel := _pntSel d; _tripleSelBegin := _tripleSelBegin d;
     _scrollbarLocation := _scrollbarLocation d;
     _wordCharacters := _wordCharacters d; _hasBlinker := _hasBlinker d;
     _ctrlDrag := _ctrlDrag d;
     _cutToBeginningOfLine := _cutToBeginningOfLine d;
     _isFixedSize := _isFixedSize d;
     _possibleTripleClick := _possibleTripleClick d;
     _mouseMarks := _mouseMarks d; _rimX := _rimX d; _rimY := _rimY d;
     _bX := _bX d; _bY := _bY d; _imPreeditLength := _imPreeditLength d;
     _imStart := _imStart d; _imStartLine := _imStartLine d;
     _imEnd := _imEnd d; _imSelStart := _imSelStart d;
     _imSelEnd := _imSelEnd d; _isIMEdit := _isIMEdit d;
     _isIMSel := _isIMSel d; dragInfo := dragInfo d;
     _configureRequestPoint := _configureRequestPoint d |}.

Definition set_columnSelectionMode (v : bool) (d : TerminalDisplay) : TerminalDisplay :=
  {| _screenWindow := _screenWindow d; contentsRect := contentsRect d;
     scrollBarExtent := scrollBarExtent d; _scrollBar := _scrollBar d;
     _fontHeight := _fontHeight d; _fontWidth := _fontWidth d;
     _lines := _lines d; _columns := _columns d; _usedLines := _usedLines d;
     _usedColumns := _usedColumns d; _contentHeight := _contentHeight d;
     _contentWidth := _contentWidth d; _image := _image d;
     _imageSize := _imageSize d; _lineProperties := _lineProperties d;
     _resizing := _resizing d; _actSel := _actSel d;
     _wordSelectionMode := _wordSelectionMode d;
     _lineSelectionMode := _lineSelectionMode d;
     _preserveLineBreaks := _preserveLineBreaks d; _columnSelectionMode := v;
     _iPntSel := _iPntSel d; _pntSel := _pntSel d;
     _tripleSelBegin := _tripleSelBegin d;
     _scrollbarLocation := _scrollbarLocation d;
     _wordCharacters := _wordCharacters d; _hasBlinker := _hasBlinker d;
     _ctrlDrag := _ctrlDrag d;
     _cutToBeginningOfLine := _cutToBeginningOfLine d;
     _isFixedSize := _isFixedSize d;
     _possibleTripleClick := _possibleTripleClick d;
     _mouseMarks := _mouseMarks d; _rimX := _rimX d; _rimY := _rimY d;
     _bX := _bX d; _bY := _bY d; _imPreeditLength := _imPreeditLength d;
     _imStart := _imStart d; _imStartLine := _imStartLine d;
     _imEnd := _imEnd d; _imSelStart := _imSelStart d;
     _imSelEnd := _imSelEnd d; _isIMEdit := _isIMEdit d;
     _isIMSel := _isIMSel d; dragInfo := dragInfo d;
     _configureRequestPoint := _configureRequestPoint d |}.

Definition set_iPntSel (v : QPoint) (d : TerminalDisplay) : TerminalDisplay :=
  {| _screenWindow := _screenWindow d; contentsRect := contentsRect d;
     scrollBarExtent := scrollBarExtent d; _scrollBar := _scrollBar d;
     _fontHeight := _fontHeight d; _fontWidth := _fontWidth d;
     _lines := _lines d; _columns := _columns d; _usedLines := _usedLines d;
     _usedColumns := _usedColumns d; _contentHeight := _contentHeight d;
     _contentWidth := _contentWidth d; _image := _image d;
     _imageSize := _imageSize d; _lineProperties := _lineProperties d;
     _resizing := _resizing d; _actSel := _actSel d;
     _wordSelectionMode := _wordSelectionMode d;
     _lineSelectionMode := _lineSelectionMode d;
     _preserveLineBreaks := _preserveLineBreaks d;
     _columnSelectionMode := _columnSelectionMode d; _iPntSel := v;
     _pntSel := _pntSel d; _tripleSelBegin := _tripleSelBegin d;
     _scrollbarLocation := _scrollbarLocation d;
     _wordCharacters := _wordCharacters d; _hasBlinker := _hasBlinker d;
     _ctrlDrag := _ctrlDrag d;
     _cutToBeginningOfLine := _cutToBeginningOfLine d;
     _isFixedSize := _isFixedSize d;
     _possibleTripleClick := _possibleTripleClick d;
     _mouseMarks := _mouseMarks d; _rimX := _rimX d; _rimY := _rimY d;
     _bX := _bX d; _bY := _bY d; _imPreeditLength := _imPreeditLength d;
     _imStart := _imStart d; _imStartLine := _imStartLine d;
     _imEnd := _imEnd d; _imSelStart := _imSelStart d;
     _imSelEnd := _imSelEnd d; _isIMEdit := _isIMEdit d;
     _isIMSel := _isIMSel d; dragInfo := dragInfo d;
     _configureRequestPoint := _configureRequestPoint d |}.

Definition set_pntSel (v : QPoint) (d : TerminalDisplay) : TerminalDisplay :=
  {| _screenWindow := _screenWindow d; contentsRect := contentsRect d;
     scrollBarExtent := scrollBarExtent d; _scrollBar := _scrollBar d;
     _fontHeight := _fontHeight d; _fontWidth := _fontWidth d;
     _lines := _lines d; _columns := _columns d; _usedLines := _usedLines d;
     _usedColumns := _usedColumns d; _contentHeight := _contentHeight d;
     _contentWidth := _contentWidth d; _image := _image d;
     _imageSize := _imageSize d; _lineProperties := _lineProperties d;
     _resizing := _resizing d; _actSel := _actSel d;
     _wordSelectionMode := _wordSelectionMode d;
     _lineSelectionMode := _lineSelectionMode d;
     _preserveLineBreaks := _preserveLineBreaks d;
     _columnSelectionMode := _columnSelectionMode d; _iPntSel := _iPntSel d;
     _pntSel := v; _tripleSelBegin := _tripleSelBegin d;
     _scrollbarLocation := _scrollbarLocation d;
     _wordCharacters := _wordCharacters d; _hasBlinker := _hasBlinker d;
     _ctrlDrag := _ctrlDrag d;
     _cutToBeginningOfLine := _cutToBeginningOfLine d;
     _isFixedSize := _isFixedSize d;
     _possibleTripleClick := _possibleTripleClick d;
     _mouseMarks := _mouseMarks d; _rimX := _rimX d; _rimY := _rimY d;
     _bX := _bX d; _bY := _bY d; _imPreeditLength := _imPreeditLength d;
     _imStart := _imStart d; _imStartLine := _imStartLine d;
     _imEnd := _imEnd d; _imSelStart := _imSelStart d;
     _imSelEnd := _imSelEnd d; _isIMEdit := _isIMEdit d;
     _isIMSel := _isIMSel d; dragInfo := dragInfo d;
     _configureRequestPoint := _configureRequestPoint d |}.

Definition set_tripleSelBegin (v : QPoint) (d : TerminalDisplay) : TerminalDisplay :=
  {| _screenWindow := _screenWindow d; contentsRect := contentsRect d;
     scrollBarExtent := scrollBarExtent d; _scrollBar := _scrollBar d;
     _fontHeight := _fontHeight d; _fontWidth := _fontWidth d;
     _lines := _lines d; _columns := _columns d; _usedLines := _usedLines d;
     _usedColumns := _usedColumns d; _contentHeight := _contentHeight d;
     _contentWidth := _contentWidth d; _image := _image d;
     _imageSize := _imageSize d; _lineProperties := _lineProperties d;
     _resizing := _resizing d; _actSel := _actSel d;
     _wordSelectionMode := _wordSelectionMode d;
     _lineSelectionMode := _lineSelectionMode d;
     _preserveLineBreaks := _preserveLineBreaks d;
     _columnSelectionMode := _columnSelectionMode d; _iPntSel := _iPntSel d;
     _pntSel := _pntSel d; _tripleSelBegin := v;
     _scrollbarLocation := _scrollbarLocation d;
     _wordCharacters := _wordCharacters d; _hasBlinker := _hasBlinker d;
     _ctrlDrag := _ctrlDrag d;
     _cutToBeginningOfLine := _cutToBeginningOfLine d;
     _isFixedSize := _isFixedSize d;
     _possibleTripleClick := _possibleTripleClick d;
     _mouseMarks := _mouseMarks d; _rimX := _rimX d; _rimY := _rimY d;
     _bX := _bX d; _bY := _bY d; _imPreeditLength := _imPreeditLength d;
     _imStart := _imStart d; _imStartLine := _imStartLine d;
     _imEnd := _imEnd d; _imSelStart := _imSelStart d;
     _imSelEnd := _imSelEnd d; _isIMEdit := _isIMEdit d;
     _isIMSel := _isIMSel d; dragInfo := dragInfo d;
     _configureRequestPoint := _configureRequestPoint d |}.

Definition set_hasBlinker (v : bool) (d : TerminalDisplay) : TerminalDisplay :=
  {| _screenWindow := _screenWindow d; contentsRect := contentsRect d;
     scrollBarExtent := scrollBarExtent d; _scrollBar := _scrollBar d;
     _fontHeight := _fontHeight d; _fontWidth := _fontWidth d;
     _lines := _lines d; _columns := _columns d; _usedLines := _usedLines d;
     _usedColumns := _usedColumns d; _contentHeight := _contentHeight d;
     _contentWidth := _contentWidth d; _image := _image d;
     _imageSize := _imageSize d; _lineProperties := _lineProperties d;
     _resizing := _resizing d; _actSel := _actSel d;
     _wordSelectionMode := _wordSelectionMode d;
     _lineSelectionMode := _lineSelectionMode d;
     _preserveLineBreaks := _preserveLineBreaks d;
     _columnSelectionMode := _columnSelectionMode d; _iPntSel := _iPntSel d;
     _pntSel := _pntSel d; _tripleSelBegin := _tripleSelBegin d;
     _scrollbarLocation := _scrollbarLocation d;
     _wordCharacters := _wordCharacters d; _hasBlinker := v;
     _ctrlDrag := _ctrlDrag d;
     _cutToBeginningOfLine := _cutToBeginningOfLine d;
     _isFixedSize := _isFixedSize d;
     _possibleTripleClick := _possibleTripleClick d;
     _mouseMarks := _mouseMarks d; _rimX := _rimX d; _rimY := _rimY d;
     _bX := _bX d; _bY := _bY d; _imPreeditLength := _imPreeditLength d;
     _imStart := _imStart d; _imStartLine := _imStartLine d;
     _imEnd := _imEnd d; _imSelStart := _imSelStart d;
     _imSelEnd := _imSelEnd d; _isIMEdit := _isIMEdit d;
     _isIMSel := _isIMSel d; dragInfo := dragInfo d;
     _configureRequestPoint := _configureRequestPoint d |}.

Definition set_cutToBeginningOfLine (v : bool) (d : TerminalDisplay) : TerminalDisplay :=
  {| _screenWindow := _screenWindow d; contentsRect := contentsRect d;
     scrollBarExtent := scrollBarExtent d; _scrollBar := _scrollBar d;
     _fontHeight := _fontHeight d; _fontWidth := _fontWidth d;
     _lines := _lines d; _columns := _columns d; _usedLines := _usedLines d;
     _usedColumns := _usedColumns d; _contentHeight := _contentHeight d;
     _contentWidth := _contentWidth d; _image := _image d;
     _imageSize := _imageSize d; _lineProperties := _lineProperties d;
     _resizing := _resizing d; _actSel := _actSel d;
     _wordSelectionMode := _wordSelectionMode d;
     _lineSelectionMode := _lineSelectionMode d;
     _preserveLineBreaks := _preserveLineBreaks d;
     _columnSelectionMode := _columnSelectionMode d; _iPntSel := _iPntSel d;
     _pntSel := _pntSel d; _tripleSelBegin := _tripleSelBegin d;
     _scrollbarLocation := _scrollbarLocation d;
     _wordCharacters := _wordCharacters d; _hasBlinker := _hasBlinker d;
     _ctrlDrag := _ctrlDrag d; _cutToBeginningOfLine := v;
     _isFixedSize := _isFixedSize d;
     _possibleTripleClick := _possibleTripleClick d;
     _mouseMarks := _mouseMarks d; _rimX := _rimX d; _rimY := _rimY d;
     _bX := _bX d; _bY := _bY d; _imPreeditLength := _imPreeditLength d;
     _imStart := _imStart d; _imStartLine := _imStartLine d;
     _imEnd := _imEnd d; _imSelStart := _imSelStart d;
     _imSelEnd := _imSelEnd d; _isIMEdit := _isIMEdit d;
     _isIMSel := _isIMSel d; dragInfo := dragInfo d;
     _configureRequestPoint := _configureRequestPoint d |}.

Definition set_possibleTripleClick (v : bool) (d : TerminalDisplay) : TerminalDisplay :=
  {| _screenWindow := _screenWindow d; contentsRect := contentsRect d;
     scrollBarExtent := scrollBarExtent d; _scrollBar := _scrollBar d;
     _fontHeight := _fontHeight d; _fontWidth := _fontWidth d;
     _lines := _lines d; _columns := _columns d; _usedLines := _usedLines d;
     _usedColumns := _usedColumns d; _contentHeight := _contentHeight d;
     _contentWidth := _contentWidth d; _image := _image d;
     _imageSize := _imageSize d; _lineProperties := _lineProperties d;
     _resizing := _resizing d; _actSel := _actSel d;
     _wordSelectionMode := _wordSelectionMode d;
     _lineSelectionMode := _lineSelectionMode d;
     _preserveLineBreaks := _preserveLineBreaks d;
     _columnSelectionMode := _columnSelectionMode d; _iPntSel := _iPntSel d;
     _pntSel := _pntSel d; _tripleSelBegin := _tripleSelBegin d;
     _scrollbarLocation := _scrollbarLocation d;
     _wordCharacters := _wordCharacters d; _hasBlinker := _hasBlinker d;
     _ctrlDrag := _ctrlDrag d;
     _cutToBeginningOfLine := _cutToBeginningOfLine d;
     _isFixedSize := _isFixedSize d; _possibleTripleClick := v;
     _mouseMarks := _mouseMarks d; _rimX := _rimX d; _rimY := _rimY d;
     _bX := _bX d; _bY := _bY d; _imPreeditLength := _imPreeditLength d;
     _imStart := _imStart d; _imStartLine := _imStartLine d;
     _imEnd := _imEnd d; _imSelStart := _imSelStart d;
     _imSelEnd := _imSelEnd d; _isIMEdit := _isIMEdit d;
     _isIMSel := _isIMSel d; dragInfo := dragInfo d;
     _configureRequestPoint := _configureRequestPoint d |}.

Definition set_mouseMarks (v : bool) (d : TerminalDisplay) : TerminalDisplay :=
  {| _screenWindow := _screenWindow d; contentsRect := contentsRect d;
     scrollBarExtent := scrollBarExtent d; _scrollBar := _scrollBar d;
     _fontHeight := _fontHeight d; _fontWidth := _fontWidth d;
     _lines := _lines d; _columns := _columns d; _usedLines := _usedLines d;
     _usedColumns := _usedColumns d; _contentHeight := _contentHeight d;
     _contentWidth := _contentWidth d; _image := _image d;
     _imageSize := _imageSize d; _lineProperties := _lineProperties d;
     _resizing := _resizing d; _actSel := _actSel d;
     _wordSelectionMode := _wordSelectionMode d;
     _lineSelectionMode := _lineSelectionMode d;
     _preserveLineBreaks := _preserveLineBreaks d;
     _columnSelectionMode := _columnSelectionMode d; _iPntSel := _iPntSel d;
     _pntSel := _pntSel d; _tripleSelBegin := _tripleSelBegin d;
     _scrollbarLocation := _scrollbarLocation d;
     _wordCharacters := _wordCharacters d; _hasBlinker := _hasBlinker d;
     _ctrlDrag := _ctrlDrag d;
     _cutToBeginningOfLine := _cutToBeginningOfLine d;
     _isFixedSize := _isFixedSize d;
     _possibleTripleClick := _possibleTripleClick d; _mouseMarks := v;
     _rimX := _rimX d; _rimY := _rimY d; _bX := _bX d; _bY := _bY d;
     _imPreeditLength := _imPreeditLength d; _imStart := _imStart d;
     _imStartLine := _imStartLine d; _imEnd := _imEnd d;
     _imSelStart := _imSelStart d; _imSelEnd := _imSelEnd d;
     _isIMEdit := _isIMEdit d; _isIMSel := _isIMSel d;
     dragInfo := dragInfo d;
     _configureRequestPoint := _configureRequestPoint d |}.

Definition set_bX (v : Z) (d : TerminalDisplay) : TerminalDisplay :=
  {| _screenWindow := _screenWindow d; contentsRect := contentsRect d;
     scrollBarExtent := scrollBarExtent d; _scrollBar := _scrollBar d;
     _fontHeight := _fontHeight d; _fontWidth := _fontWidth d;
     _lines := _lines d; _columns := _columns d; _usedLines := _usedLines d;
     _usedColumns := _usedColumns d; _contentHeight := _contentHeight d;
     _contentWidth := _contentWidth d; _image := _image d;
     _imageSize := _imageSize d; _lineProperties := _lineProperties d;
     _resizing := _resizing d; _actSel := _actSel d;
     _wordSelectionMode := _wordSelectionMode d;
     _lineSelectionMode := _lineSelectionMode d;
     _preserveLineBreaks := _preserveLineBreaks d;
     _columnSelectionMode := _columnSelectionMode d; _iPntSel := _iPntSel d;
     _pntSel := _pntSel d; _tripleSelBegin := _tripleSelBegin d;
     _scrollbarLocation := _scrollbarLocation d;
     _wordCharacters := _wordCharacters d; _hasBlinker := _hasBlinker d;
     _ctrlDrag := _ctrlDrag d;
     _cutToBeginningOfLine := _cutToBeginningOfLine d;
     _isFixedSize := _isFixedSize d;
     _possibleTripleClick := _possibleTripleClick d;
     _mouseMarks := _mouseMarks d; _rimX := _rimX d; _rimY := _rimY d;
     _bX := v; _bY := _bY d; _imPreeditLength := _imPreeditLength d;
     _imStart := _imStart d; _imStartLine := _imStartLine d;
     _imEnd := _imEnd d; _imSelStart := _imSelStart d;
     _imSelEnd := _imSelEnd d; _isIMEdit := _isIMEdit d;
     _isIMSel := _isIMSel d; dragInfo := dragInfo d;
     _configureRequestPoint := _configureRequestPoint d |}.

Definition set_bY (v : Z) (d : TerminalDisplay) : TerminalDisplay :=
  {| _screenWindow := _screenWindow d; contentsRect := contentsRect d;
     scrollBarExtent := scrollBarExtent d; _scrollBar := _scrollBar d;
     _fontHeight := _fontHeight d; _fontWidth := _fontWidth d;
     _lines := _lines d; _columns := _columns d; _usedLines := _usedLines d;
     _usedColumns := _usedColumns d; _contentHeight := _contentHeight d;
     _contentWidth := _contentWidth d; _image := _image d;
     _imageSize := _imageSize d; _lineProperties := _lineProperties d;
     _resizing := _resizing d; _actSel := _actSel d;
     _wordSelectionMode := _wordSelectionMode d;
     _lineSelectionMode := _lineSelectionMode d;
     _preserveLineBreaks := _preserveLineBreaks d;
     _columnSelectionMode := _columnSelectionMode d; _iPntSel := _iPntSel d;
     _pntSel := _pntSel d; _tripleSelBegin := _tripleSelBegin d;
     _scrollbarLocation := _scrollbarLocation d;
     _wordCharacters := _wordCharacters d; _hasBlinker := _hasBlinker d;
     _ctrlDrag := _ctrlDrag d;
     _cutToBeginningOfLine := _cutToBeginningOfLine d;
     _isFixedSize := _isFixedSize d;
     _possibleTripleClick := _possibleTripleClick d;
     _mouseMarks := _mouseMarks d; _rimX := _rimX d; _rimY := _rimY d;
     _bX := _bX d; _bY := v; _imPreeditLength := _imPreeditLength d;
     _imStart := _imStart d; _imStartLine := _imStartLine d;
     _imEnd := _imEnd d; _imSelStart := _imSelStart d;
     _imSelEnd := _imSelEnd d; _isIMEdit := _isIMEdit d;
     _isIMSel := _isIMSel d; dragInfo := dragInfo d;
     _configureRequestPoint := _configureRequestPoint d |}.

Definition set_isIMEdit (v : bool) (d : TerminalDisplay) : TerminalDisplay :=
  {| _screenWindow := _screenWindow d; contentsRect := contentsRect d;
     scrollBarExtent := scrollBarExtent d; _scrollBar := _scrollBar d;
     _fontHeight := _fontHeight d; _fontWidth := _fontWidth d;
     _lines := _lines d; _columns := _columns d; _usedLines := _usedLines d;
     _usedColumns := _usedColumns d; _contentHeight := _contentHeight d;
     _contentWidth := _contentWidth d; _image := _image d;
     _imageSize := _imageSize d; _lineProperties := _lineProperties d;
     _resizing := _resizing d; _actSel := _actSel d;
     _wordSelectionMode := _wordSelectionMode d;
     _lineSelectionMode := _lineSelectionMode d;
     _preserveLineBreaks := _preserveLineBreaks d;
     _columnSelectionMode := _columnSelectionMode d; _iPntSel := _iPntSel d;
     _pntSel := _pntSel d; _tripleSelBegin := _tripleSelBegin d;
     _scrollbarLocation := _scrollbarLocation d;
     _wordCharacters := _wordCharacters d; _hasBlinker := _hasBlinker d;
     _ctrlDrag := _ctrlDrag d;
     _cutToBeginningOfLine := _cutToBeginningOfLine d;
     _isFixedSize := _isFixedSize d;
     _possibleTripleClick := _possibleTripleClick d;
     _mouseMarks := _mouseMarks d; _rimX := _rimX d; _rimY := _rimY d;
     _bX := _bX d; _bY := _bY d; _imPreeditLength := _imPreeditLength d;
     _imStart := _imStart d; _imStartLine := _imStartLine d;
     _imEnd := _imEnd d; _imSelStart := _imSelStart d;
     _imSelEnd := _imSelEnd d; _isIMEdit := v; _isIMSel := _isIMSel d;
     dragInfo := dragInfo d;
     _configureRequestPoint := _configureRequestPoint d |}.

Definition set_isIMSel (v : bool) (d : TerminalDisplay) : TerminalDisplay :=
  {| _screenWindow := _screenWindow d; contentsRect := contentsRect d;
     scrollBarExtent := scrollBarExtent d; _scrollBar := _scrollBar d;
     _fontHeight := _fontHeight d; _fontWidth := _fontWidth d;
     _lines := _lines d; _columns := _columns d; _usedLines := _usedLines d;
     _usedColumns := _usedColumns d; _contentHeight := _contentHeight d;
     _contentWidth := _contentWidth d; _image := _image d;
     _imageSize := _imageSize d; _lineProperties := _lineProperties d;
     _resizing := _resizing d; _actSel := _actSel d;
     _wordSelectionMode := _wordSelectionMode d;
     _lineSelectionMode := _lineSelectionMode d;
     _preserveLineBreaks := _preserveLineBreaks d;
     _columnSelectionMode := _columnSelectionMode d; _iPntSel := _iPntSel d;
     _pntSel := _pntSel d; _tripleSelBegin := _tripleSelBegin d;
     _scrollbarLocation := _scrollbarLocation d;
     _wordCharacters := _wordCharacters d; _hasBlinker := _hasBlinker d;
     _ctrlDrag := _ctrlDrag d;
     _cutToBeginningOfLine := _cutToBeginningOfLine d;
     _isFixedSize := _isFixedSize d;
     _possibleTripleClick := _possibleTripleClick d;
     _mouseMarks := _mouseMarks d; _rimX := _rimX d; _rimY := _rimY d;
     _bX := _bX d; _bY := _bY d; _imPreeditLength := _imPreeditLength d;
     _imStart := _imStart d; _imStartLine := _imStartLine d;
     _imEnd := _imEnd d; _imSelStart := _imSelStart d;
     _imSelEnd := _imSelEnd d; _isIMEdit := _isIMEdit d; _isIMSel := v;
     dragInfo := dragInfo d;
     _configureRequestPoint := _configureRequestPoint d |}.

Definition set_dragInfo (v : DragInfo) (d : TerminalDisplay) : TerminalDisplay :=
  {| _screenWindow := _screenWindow d; contentsRect := contentsRect d;
     scrollBarExtent := scrollBarExtent d; _scrollBar := _scrollBar d;
     _fontHeight := _fontHeight d; _fontWidth := _fontWidth d;
     _lines := _lines d; _columns := _columns d; _usedLines := _usedLines d;
     _usedColumns := _usedColumns d; _contentHeight := _contentHeight d;
     _contentWidth := _contentWidth d; _image := _image d;
     _imageSize := _imageSize d; _lineProperties := _lineProperties d;
     _resizing := _resizing d; _actSel := _actSel d;
     _wordSelectionMode := _wordSelectionMode d;
     _lineSelectionMode := _lineSelectionMode d;
     _preserveLineBreaks := _preserveLineBreaks d;
     _columnSelectionMode := _columnSelectionMode d; _iPntSel := _iPntSel d;
     _pntSel := _pntSel d; _tripleSelBegin := _tripleSelBegin d;
     _scrollbarLocation := _scrollbarLocation d;
     _wordCharacters := _wordCharacters d; _hasBlinker := _hasBlinker d;
     _ctrlDrag := _ctrlDrag d;
     _cutToBeginningOfLine := _cutToBeginningOfLine d;
     _isFixedSize := _isFixedSize d;
     _possibleTripleClick := _possibleTripleClick d;
     _mouseMarks := _mouseMarks d; _rimX := _rimX d; _rimY := _rimY d;
     _bX := _bX d; _bY := _bY d; _imPreeditLength := _imPreeditLength d;
     _imStart := _imStart d; _imStartLine := _imStartLine d;
     _imEnd := _imEnd d; _imSelStart := _imSelStart d;
     _imSelEnd := _imSelEnd d; _isIMEdit := _isIMEdit d;
     _isIMSel := _isIMSel d; dragInfo := v;
     _configureRequestPoint := _configureRequestPoint d |}.

Definition set_configureRequestPoint (v : QPoint) (d : TerminalDisplay) : TerminalDisplay :=
  {| _screenWindow := _screenWindow d; contentsRect := contentsRect d;
     scrollBarExtent := scrollBarExtent d; _scrollBar := _scrollBar d;
     _fontHeight := _fontHeight d; _fontWidth := _fontWidth d;
     _lines := _lines d; _columns := _columns d; _usedLines := _usedLines d;
     _usedColumns := _usedColumns d; _contentHeight := _contentHeight d;
     _contentWidth := _contentWidth d; _image := _image d;
     _imageSize := _imageSize d; _lineProperties := _lineProperties d;
     _resizing := _resizing d; _actSel := _actSel d;
     _wordSelectionMode := _wordSelectionMode d;
     _lineSelectionMode := _lineSelectionMode d;
     _preserveLineBreaks := _preserveLineBreaks d;
     _columnSelectionMode := _columnSelectionMode d; _iPntSel := _iPntSel d;
     _pntSel := _pntSel d; _tripleSelBegin := _tripleSelBegin d;
     _scrollbarLocation := _scrollbarLocation d;
     _wordCharacters := _wordCharacters d; _hasBlinker := _hasBlinker d;
     _ctrlDrag := _ctrlDrag d;
     _cutToBeginningOfLine := _cutToBeginningOfLine d;
     _isFixedSize := _isFixedSize d;
     _possibleTripleClick := _possibleTripleClick d;
     _mouseMarks := _mouseMarks d; _rimX := _rimX d; _rimY := _rimY d;
     _bX := _bX d; _bY := _bY d; _imPreeditLength := _imPreeditLength d;
     _imStart := _imStart d; _imStartLine := _imStartLine d;
     _imEnd := _imEnd d; _imSelStart := _imSelStart d;
     _imSelEnd := _imSelEnd d; _isIMEdit := _isIMEdit d;
     _isIMSel := _isIMSel d; dragInfo := dragInfo d;
     _configureRequestPoint := v |}.

Definition setScrollBarWidth (w : Z) (b : QScrollBar) : QScrollBar :=
  {| sb_minimum := sb_minimum b; sb_maximum := sb_maximum b;
     sb_value := sb_value b; sb_width := w |}.

(** [a / b] on [int]; a zero divisor aborts. *)
Definition intDiv (a b : Z) : option Z :=
  if b =? 0 then None else Some (Z.quot a b).

(** The least and the greatest [int], and the value an [int] expression
    takes in the compiled code when its result is outside of [int]: the
    result modulo 2^32. *)
Definition INT_MIN : Z := -2147483648.

Definition INT_MAX : Z := 2147483647.

Definition wrapInt (z : Z) : Z :=
  (z + 2147483648) mod 4294967296 - 2147483648.

(** [a / b] on an [int] [a] of any value: a zero divisor aborts, and so
    does the division of [INT_MIN] by -1, whose quotient is no [int]. *)
Definition intDivAny (a b : Z) : option Z :=
  if (b =? 0) || ((a =? INT_MIN) && (b =? -1)) then None
  else Some (Z.quot a b).

(** [assert(c)] *)
Definition assert (c : bool) : option unit := if c then Some tt else None.

Notation "x <- e ;; k" :=
  (match e with Some x => k | None => None end)
  (at level 61, e at next level, right associativity).

Notation "e ;;; k" :=
  (match e with Some _ => k | None => None end)
  (at level 61, right associativity).

(** [#define loc(X,Y) ((Y)*_columns+(X))] *)
Definition loc (d : TerminalDisplay) (X Y : Z) : Z := Y * _columns d + X.

(** ** Creating and clearing the image *)

(** [TerminalDisplay::clearImage]: every cell [0 .. _imageSize], the
    reserved last one included, becomes the blank cell. *)
Definition clearImage (d : TerminalDisplay) : TerminalDisplay :=
  match _image d with
  | None => d
  | Some img =>
      set_image
        (Some (map (fun p => if (0 <=? fst p) && (fst p <=? _imageSize d)
                             then blankCharacter else snd p)
                   (combine (indices (length img)) img))) d
  end.

(** [TerminalDisplay::calcGeometry] *)
Definition calcGeometry (d : TerminalDisplay) : option TerminalDisplay :=
  let d := set_scrollBar (setScrollBarWidth (scrollBarExtent d) (_scrollBar d)) d in
  let d :=
    match _scrollbarLocation d with
    | SCROLLBAR_NONE =>
        set_contentWidth (rw (contentsRect d) - 2 * _rimX d) (set_bX (_rimX d) d)
    | SCROLLBAR_LEFT =>
        set_contentWidth
          (rw (contentsRect d) - 2 * _rimX d - sb_width (_scrollBar d))
          (set_bX (_rimX d + sb_width (_scrollBar d)) d)
    | SCROLLBAR_RIGHT =>
        set_contentWidth
          (rw (contentsRect d) - 2 * _rimX d - sb_width (_scrollBar d))
          (set_bX (_rimX d) d)
    end in
  let d := set_bY (_rimY d) d in
  let d := set_contentHeight (rh (contentsRect d) - 2 * _rimY d + 1) d in
  if _isFixedSize d then Some d
  else
    qc <- intDiv (_contentWidth d) (_fontWidth d) ;;
    let d := set_columns (Z.max 1 qc) d in
    let d := set_usedColumns (Z.min (_usedColumns d) (_columns d)) d in
    ql <- intDiv (_contentHeight d) (_fontHeight d) ;;
    let d := set_lines (Z.max 1 ql) d in
    let d := set_usedLines (Z.min (_usedLines d) (_lines d)) d in
    Some d.

(** [TerminalDisplay::makeImage]: the freshly allocated array has
    [_imageSize + 1] cells, all of which [clearImage] overwrites. *)
Definition makeImage (d : TerminalDisplay) : option TerminalDisplay :=
  d <- calcGeometry d ;;
  assert ((_lines d >? 0) && (_columns d >? 0)) ;;;
  assert ((_usedLines d <=? _lines d) && (_usedColumns d <=? _columns d)) ;;;
  let d := set_imageSize (_lines d * _columns d) d in
  let d := set_image
             (Some (repeat blankCharacter (Z.to_nat (_imageSize d + 1)))) d in
  Some (clearImage d).

(** The loop of [updateImageSize] that copies the old image, row by row,
    into the new one: rows [lin .. lins-1] remain to be copied. *)
Fixpoint copyOldImage (todo : nat) (lin : Z) (columns oldcol cols : Z)
  (img oldimg : list Character) : list Character :=
  match todo with
  | O => img
  | S todo' =>
      copyOldImage todo' (lin + 1) columns oldcol cols
        (memcpy img oldimg (columns * lin) (oldcol * lin) cols) oldimg
  end.

(** ** Scrolling the image *)

(** The call [scroll(dx, dy, rect)] made on the widget: the blit. *)
Record ScrollCall : Type := mkScrollCall {
  scroll_dx : Z;
  scroll_dy : Z;
  scroll_rect : QRect
}.

(** [TerminalDisplay::scrollImage(int _lines)].  The result holds the
    display afterwards and the blit requested from the widget, if any.
    [abs] is the absolute value, which it is on every [int] but
    [INT_MIN]. *)
Definition scrollImage (n : Z) (d : TerminalDisplay)
  : option (TerminalDisplay * option ScrollCall) :=
  if n =? 0 then Some (d, None) else
  match _image d with
  | None => Some (d, None)
  | Some img =>
    if Z.abs n >=? _usedLines d then Some (d, None) else
    if n >? 0 then
      assert (n * _usedColumns d <? _imageSize d) ;;;
      let img' := memmove img 0 (n * _usedColumns d)
                    ((_usedLines d - n) * _usedColumns d) in
      let scrollRect :=
        mkQRect (_bX d) (_bY d) (_usedColumns d * _fontWidth d)
                ((_usedLines d - n) * _fontHeight d) in
      Some (set_image (Some img') d,
            Some (mkScrollCall 0 (_fontHeight d * (- n)) scrollRect))
    else
      let img' := memmove img (Z.abs n * _usedColumns d) 0
                    ((_usedLines d - Z.abs n) * _usedColumns d) in
      let scrollRect :=
        mkQRect (_bX d) (_bY d + Z.abs n * _fontHeight d)
                (_usedColumns d * _fontWidth d)
                ((_usedLines d - Z.abs n) * _fontHeight d) in
      Some (set_image (Some img') d,
            Some (mkScrollCall 0 (_fontHeight d * (- n)) scrollRect))
  end.

(** ** The diff update *)

(** The condition of [updateImage] under which the input method's
    composition marks column [x] of row [y] dirty. *)
Definition imDirty (d : TerminalDisplay) (x y : Z) : bool :=
  (_imPreeditLength d >? 0)
  && (((_imStartLine d =? y)
       && ((_imStart d <? _imEnd d) && (x >? _imStart d) && (x <? _imEnd d)))
      || ((_imSelStart d <? _imSelEnd d) && (x >? _imSelStart d))).

(** The first loop over a row: [dirtyMask] has [columnsToUpdate + 2]
    entries, and a dirty column [x] sets entries [x], [x+1] and [x+2].
    [newLine] and [currentLine] are the rows as functions of the column. *)
Fixpoint markDirty (todo : nat) (x : Z) (d : TerminalDisplay) (y : Z)
  (newLine currentLine : Z -> Character) (dirtyMask : list Z) : list Z :=
  match todo with
  | O => dirtyMask
  | S todo' =>
      let dirtyMask :=
        if imDirty d x y || Character_neqb (newLine x) (currentLine x)
        then zset (zset (zset dirtyMask x 1) (x + 1) 1) (x + 2) 1
        else dirtyMask in
      markDirty todo' (x + 1) d y newLine currentLine dirtyMask
  end.

(** [dirtyMask[x]] after [dirtyMask++]. *)
Definition maskAt (dirtyMask : list Z) (x : Z) : Z := zth 0 dirtyMask (x + 1).

(** The inner loop [for (len = 1; len < lln; len++)] that extends a run
    starting at column [x]; it returns the final [len] and [p]. *)
Fixpoint runLength (todo : nat) (len p : Z) (lln x : Z)
  (newLine : Z -> Character) (dirtyMask : list Z)
  (c : Z) (cf clipboard : CharacterColor) (cr : Z) (lineDraw doubleWidth : bool)
  : Z * Z :=
  match todo with
  | O => (len, p)
  | S todo' =>
      if len <? lln then
        let ch := newLine (x + len) in
        if character ch =? 0 then
          runLength todo' (len + 1) p lln x newLine dirtyMask
                    c cf clipboard cr lineDraw doubleWidth
        else if negb (foregroundColor ch =? cf)
                || negb (backgroundColor ch =? clipboard)
                || negb (rendition ch =? cr)
                || (maskAt dirtyMask (x + len) =? 0)
                || negb (Bool.eqb (isLineChar c) lineDraw)
                || negb (Bool.eqb (character (newLine (x + len + 1)) =? 0)
                                  doubleWidth)
        then (len, p)
        else runLength todo' (len + 1) (p + 1) lln x newLine dirtyMask
                       c cf clipboard cr lineDraw doubleWidth
      else (len, p)
  end.

(** What the scan of one row accumulates. *)
Record ScanResult : Type := mkScanResult {
  scan_hasBlinker : bool;
  scan_updateLine : bool;
  scan_isIMEdit : bool;
  scan_isIMSel : bool
}.

(** The second loop over a row, [for (x = 0; x < columnsToUpdate; x++)],
    run when no resize is in progress. *)
Fixpoint scanLine (todo : nat) (x : Z) (d : TerminalDisplay) (y : Z)
  (columnsToUpdate : Z) (newLine : Z -> Character) (dirtyMask : list Z)
  (r : ScanResult) : ScanResult :=
  match todo with
  | O => r
  | S todo' =>
      if x <? columnsToUpdate then
        let r :=
          mkScanResult
            (scan_hasBlinker r
             || negb (Z.land (rendition (newLine x)) RE_BLINK =? 0))
            (scan_updateLine r) (scan_isIMEdit r) (scan_isIMSel r) in
        if negb (maskAt dirtyMask x =? 0) then
          let c := character (newLine x) in
          if c =? 0 then
            scanLine todo' (x + 1) d y columnsToUpdate newLine dirtyMask r
          else
            let lineDraw := isLineChar c in
            let doubleWidth := character (newLine (x + 1)) =? 0 in
            let cr := rendition (newLine x) in
            let clipboard := backgroundColor (newLine x) in
            let cf := foregroundColor (newLine x) in
            let lln := columnsToUpdate - x in
            let '(len, p) :=
              runLength (Z.to_nat lln) 1 1 lln x newLine dirtyMask
                        c cf clipboard cr lineDraw doubleWidth in
            let inIM := (x >=? _imStart d - 1) && (x + p <=? _imEnd d) in
            let isIMEdit :=
              if _imStartLine d =? y
              then (_imStart d <? _imEnd d) && inIM
              else if _imStartLine d <? y then _imStart d <? _imEnd d
              else false in
            let isIMSel :=
              if _imStartLine d =? y
              then (_imSelStart d <? _imSelEnd d) && inIM
              else if _imStartLine d <? y then _imSelStart d <? _imSelEnd d
              else false in
            let r := mkScanResult (scan_hasBlinker r) true isIMEdit isIMSel in
            scanLine todo' (x + (len - 1) + 1) d y columnsToUpdate
                     newLine dirtyMask r
        else scanLine todo' (x + 1) d y columnsToUpdate newLine dirtyMask r
      else r
  end.

(** The rectangle added to the dirty region for row [y]. *)
Definition dirtyRect (d : TerminalDisplay) (columnsToUpdate y : Z) : QRect :=
  mkQRect (_bX d + rx (contentsRect d))
          (_bY d + ry (contentsRect d) + _fontHeight d * y)
          (_fontWidth d * columnsToUpdate)
          (_fontHeight d).

(** What the loop over the rows carries from one row to the next. *)
Record RowsState : Type := mkRowsState {
  rows_image : list Character;
  rows_hasBlinker : bool;
  rows_isIMEdit : bool;
  rows_isIMSel : bool;
  rows_dirtyRegion : QRegion
}.

(** The flag [updateLine] of row [y], once the row has been scanned and its
    line properties consulted. *)
Definition rowUpdateLine (d : TerminalDisplay) (y : Z) (scanned : bool) : bool :=
  if len (_lineProperties d) >? y
  then scanned
       || negb (Z.land (zth 0 (_lineProperties d) y) LINE_DOUBLEHEIGHT =? 0)
  else scanned.

(** The dirty mask of a row: cleared, then marked by the first loop. *)
Definition rowMask (d : TerminalDisplay) (newLine currentLine : Z -> Character)
  (columnsToUpdate y : Z) : list Z :=
  markDirty (Z.to_nat columnsToUpdate) 0 d y newLine currentLine
            (repeat 0 (Z.to_nat (columnsToUpdate + 2))).

(** The scan of a row, skipped while a resize is in progress
    ([if (!_resizing)]). *)
Definition rowScan (d : TerminalDisplay) (newLine : Z -> Character)
  (dirtyMask : list Z) (columnsToUpdate y : Z) (r : ScanResult) : ScanResult :=
  if _resizing d then r
  else scanLine (Z.to_nat columnsToUpdate) 0 d y columnsToUpdate
                newLine dirtyMask r.

(** The body of [for (y = 0; y < linesToUpdate; y++)] for one row. *)
Definition updateRow (d : TerminalDisplay) (newimg : list Character)
  (windowColumns columnsToUpdate y : Z) (s : RowsState) : RowsState :=
  let currentLine := fun x => cell (rows_image s) (y * _columns d + x) in
  let newLine := fun x => cell newimg (y * windowColumns + x) in
  let dirtyMask := rowMask d newLine currentLine columnsToUpdate y in
  let r := rowScan d newLine dirtyMask columnsToUpdate y
             (mkScanResult (rows_hasBlinker s) false
                           (rows_isIMEdit s) (rows_isIMSel s)) in
  let updateLine := rowUpdateLine d y (scan_updateLine r) in
  let dirtyRegion :=
    if updateLine
    then QRegion_unite (rows_dirtyRegion s) (dirtyRect d columnsToUpdate y)
    else rows_dirtyRegion s in
  mkRowsState
    (memcpy (rows_image s) newimg (y * _columns d) (y * windowColumns)
            columnsToUpdate)
    (scan_hasBlinker r) (scan_isIMEdit r) (scan_isIMSel r) dirtyRegion.

Fixpoint updateRows (todo : nat) (y : Z) (d : TerminalDisplay)
  (newimg : list Character) (windowColumns columnsToUpdate : Z)
  (s : RowsState) : RowsState :=
  match todo with
  | O => s
  | S todo' =>
      updateRows todo' (y + 1) d newimg windowColumns columnsToUpdate
                 (updateRow d newimg windowColumns columnsToUpdate y s)
  end.

(** [QScrollBar::setRange(0, slines)] followed by [setValue(cursor)], as the
    toolkit documents them: the range is never empty and the value is kept
    inside it. *)
Definition setRangeAndValue (slines cursor : Z) (b : QScrollBar) : QScrollBar :=
  let mx := Z.max 0 slines in
  {| sb_minimum := 0; sb_maximum := mx;
     sb_value := Z.max 0 (Z.min mx cursor); sb_width := sb_width b |}.

(** [TerminalDisplay::setScroll]; the slot is disconnected while the scroll
    bar is changed, so nothing else runs. *)
Definition setScroll (cursor slines : Z) (d : TerminalDisplay) : TerminalDisplay :=
  if (sb_minimum (_scrollBar d) =? 0)
     && (sb_maximum (_scrollBar d) =? slines)
     && (sb_value (_scrollBar d) =? cursor)
  then d
  else set_scrollBar (setRangeAndValue slines cursor (_scrollBar d)) d.

(** What one [updateImage] hands to the widget: the blit requested by
    [scrollImage], if any, and the region passed to [update]. *)
Record UpdateOutput : Type := mkUpdateOutput {
  out_scroll : option ScrollCall;
  out_dirtyRegion : QRegion
}.

(** The part of [updateImage] after the image has been made sure of:
    the loop over the rows, the rectangles for the area no longer in use,
    and the new used size.  [newimg], [lines] and [columns] are the image
    and the size of the screen window, [img] is the displayed image and
    [blit] the blit requested by [scrollImage]. *)
Definition diffImage (d : TerminalDisplay) (newimg : list Character)
  (lines columns : Z) (img : list Character) (blit : option ScrollCall)
  : TerminalDisplay * UpdateOutput :=
  let d := set_hasBlinker false d in
  let linesToUpdate := Z.min (_lines d) (Z.max 0 lines) in
  let columnsToUpdate := Z.min (_columns d) (Z.max 0 columns) in
  let s := updateRows (Z.to_nat linesToUpdate) 0 d newimg columns
             columnsToUpdate
             (mkRowsState img (_hasBlinker d) (_isIMEdit d) (_isIMSel d) []) in
  let dirtyRegion := rows_dirtyRegion s in
  let dirtyRegion :=
    if linesToUpdate <? _usedLines d
    then QRegion_unite dirtyRegion
           (mkQRect (_bX d + rx (contentsRect d))
                    (_bY d + ry (contentsRect d) + _fontHeight d * linesToUpdate)
                    (_fontWidth d * _columns d)
                    (_fontHeight d * (_usedLines d - linesToUpdate)))
    else dirtyRegion in
  let dirtyRegion :=
    if columnsToUpdate <? _usedColumns d
    then QRegion_unite dirtyRegion
           (mkQRect (_bX d + rx (contentsRect d) + columnsToUpdate * _fontWidth d)
                    (_bY d + ry (contentsRect d))
                    (_fontWidth d * (_usedColumns d - columnsToUpdate))
                    (_fontHeight d * _lines d))
    else dirtyRegion in
  let d := set_image (Some (rows_image s)) d in
  let d := set_hasBlinker (rows_hasBlinker s) d in
  let d := set_isIMEdit (rows_isIMEdit s) d in
  let d := set_isIMSel (rows_isIMSel s) d in
  let d := set_usedLines linesToUpdate d in
  let d := set_usedColumns columnsToUpdate d in
  (d, mkUpdateOutput blit dirtyRegion).

(** What the display calls outside these sources:
    - the slots connected to [changedContentSizeSignal], which belong to
      the session and the emulation and run while the signal is emitted;
    - [ScreenWindow::scrollTo], what the window shows after it has been
      scrolled to a line, and [ScreenWindow::isSelected];
    - the toolkit's [QChar::isSpace] and [QChar::isLetterOrNumber], and
      the case folding behind
      [QString::contains(ch, Qt::CaseInsensitive)]. *)
Record Collaborators : Type := mkCollaborators {
  changedContentSizeSignal : Z -> Z -> TerminalDisplay -> TerminalDisplay;
  scrollTo : Z -> ScreenWindow -> ScreenWindow;
  isSelected : ScreenWindow -> Z -> Z -> bool;
  isSpace : Z -> bool;
  isLetterOrNumber : Z -> bool;
  toCaseFolded : Z -> Z
}.

Section Display.

(** What the display calls outside these sources. *)
Variable env : Collaborators.

(** [TerminalDisplay::updateImageSize] *)
Definition updateImageSize (d : TerminalDisplay) : option TerminalDisplay :=
  let oldimg := _image d in
  let oldlin := _lines d in
  let oldcol := _columns d in
  d <- makeImage d ;;
  let lins := Z.min oldlin (_lines d) in
  let cols := Z.min oldcol (_columns d) in
  let d :=
    match oldimg, _image d with
    | Some old, Some img =>
        set_image (Some (copyOldImage (Z.to_nat lins) 0 (_columns d) oldcol
                                      cols img old)) d
    | _, _ => d
    end in
  let d := set_resizing (negb (oldlin =? _lines d) || negb (oldcol =? _columns d)) d in
  let d := if _resizing d
           then changedContentSizeSignal env (_contentHeight d) (_contentWidth d) d
           else d in
  Some (set_resizing false d).

(** [TerminalDisplay::updateImage] *)
Definition updateImage (d : TerminalDisplay)
  : option (TerminalDisplay * UpdateOutput) :=
  sc <- scrollImage (scrollCount (_screenWindow d)) d ;;
  let '(d, blit) := sc in
  let d := set_screenWindow (resetScrollCount (_screenWindow d)) d in
  let newimg := getImage (_screenWindow d) in
  let lines := windowLines (_screenWindow d) in
  let columns := windowColumns (_screenWindow d) in
  let d := setScroll (currentLine (_screenWindow d))
                     (lineCount (_screenWindow d)) d in
  d <- (match _image d with None => updateImageSize d | Some _ => Some d end) ;;
  assert (_usedLines d <=? _lines d) ;;;
  assert (_usedColumns d <=? _columns d) ;;;
  img <- _image d ;;
  Some (diffImage d newimg lines columns img blit).

(** [TerminalDisplay::scrollChanged], the slot of the scroll bar's
    [valueChanged] signal.  [setTrackOutput] changes nothing the display
    reads, and the output of the update goes to the widget. *)
Definition scrollChanged (d : TerminalDisplay) : option TerminalDisplay :=
  let d := set_screenWindow
             (scrollTo env (sb_value (_scrollBar d)) (_screenWindow d)) d in
  r <- updateImage d ;;
  Some (fst r).

(** [_scrollBar->setValue(v)]: the toolkit keeps the value inside the
    range and emits [valueChanged] only when the value changes. *)
Definition setValue (v : Z) (d : TerminalDisplay) : option TerminalDisplay :=
  let b := _scrollBar d in
  let v' := Z.max (sb_minimum b) (Z.min (sb_maximum b) v) in
  if v' =? sb_value b then Some d
  else
    scrollChanged
      (set_scrollBar {| sb_minimum := sb_minimum b; sb_maximum := sb_maximum b;
                         sb_value := v'; sb_width := sb_width b |} d).

(** ** From widget points to cells *)

(** [TerminalDisplay::characterPosition]: the result is [(line, column)].
    The point is any point, so the two subtractions are taken modulo 2^32
    as the compiled code takes them. *)
Definition characterPosition (d : TerminalDisplay) (widgetPoint : QPoint)
  : option (Z * Z) :=
  column <- intDivAny
              (wrapInt (wrapInt (px widgetPoint - rx (contentsRect d)) - _bX d))
              (_fontWidth d) ;;
  line <- intDivAny
            (wrapInt (wrapInt (py widgetPoint - ry (contentsRect d)) - _bY d))
            (_fontHeight d) ;;
  let line := if line <? 0 then 0 else line in
  let column := if column <? 0 then 0 else column in
  let line := if line >=? _usedLines d then _usedLines d - 1 else line in
  let column := if column >=? _usedColumns d then _usedColumns d - 1 else column in
  Some (line, column).

(** ** Character classes *)

(** [_wordCharacters.contains(qch, Qt::CaseInsensitive)] *)
Definition containsCaseInsensitive (s : list Z) (ch : Z) : bool :=
  existsb (fun w => toCaseFolded env w =? toCaseFolded env ch) s.

(** [TerminalDisplay::charClass]: [' '] is 32 and ['a'] is 97. *)
Definition charClass (d : TerminalDisplay) (ch : Z) : Z :=
  if isSpace env ch then 32
  else if isLetterOrNumber env ch || containsCaseInsensitive (_wordCharacters d) ch
  then 97
  else 1.

(** [_lineProperties[y] & LINE_WRAPPED].  The source indexes the vector
    unchecked; here a row that the vector does not cover reads as not
    wrapped, and the statements about selection assume that the vector
    covers the rows the loops read. *)
Definition lineWrapped (d : TerminalDisplay) (y : Z) : bool :=
  negb (Z.land (zth 0 (_lineProperties d) y) LINE_WRAPPED =? 0).

(** The loop that looks for the start of a word: from cell [i] at
    [(x, y)] leftwards, over the end of the row above when that row is
    wrapped.  [lastColumn] is the column taken on the row above.  The
    result is the final [(i, x, y)]. *)
Fixpoint findWordStart (todo : nat) (d : TerminalDisplay)
  (img : list Character) (selClass lastColumn : Z) (i x y : Z) : Z * Z * Z :=
  match todo with
  | O => (i, x, y)
  | S todo' =>
      if ((x >? 0) || ((y >? 0) && lineWrapped d (y - 1)))
         && (charClass d (character (cell img (i - 1))) =? selClass)
      then
        if x >? 0
        then findWordStart todo' d img selClass lastColumn (i - 1) (x - 1) y
        else findWordStart todo' d img selClass lastColumn (i - 1) lastColumn (y - 1)
      else (i, x, y)
  end.

(** The loop that looks for the end of a word, rightwards and over the
    start of the row below when the current row is wrapped. *)
Fixpoint findWordEnd (todo : nat) (d : TerminalDisplay)
  (img : list Character) (selClass : Z) (i x y : Z) : Z * Z * Z :=
  match todo with
  | O => (i, x, y)
  | S todo' =>
      if ((x <? _usedColumns d - 1)
          || ((y <? _usedLines d - 1) && lineWrapped d y))
         && (charClass d (character (cell img (i + 1))) =? selClass)
      then
        if x <? _usedColumns d - 1
        then findWordEnd todo' d img selClass (i + 1) (x + 1) y
        else findWordEnd todo' d img selClass (i + 1) 0 (y + 1)
      else (i, x, y)
  end.

(** Iterations that always suffice for the two loops: the start loop
    takes at most [x] steps on its row and a full row for each row above,
    the end loop likewise towards the last used cell. *)
Definition wordStartSteps (lastColumn x y : Z) : nat :=
  Z.to_nat (Z.max 0 x + Z.max 0 y * Z.max 1 (lastColumn + 1)).

Definition wordEndSteps (d : TerminalDisplay) (x y : Z) : nat :=
  Z.to_nat (Z.max 0 (_usedColumns d - 1 - x)
            + Z.max 0 (_usedLines d - 1 - y) * Z.max 1 (_usedColumns d)).

(** [while (y > 0 && (_lineProperties[y-1] & LINE_WRAPPED)) y--] *)
Fixpoint lineStart (todo : nat) (d : TerminalDisplay) (y : Z) : Z :=
  match todo with
  | O => y
  | S todo' =>
      if (y >? 0) && lineWrapped d (y - 1) then lineStart todo' d (y - 1) else y
  end.

(** [while (y < last && (_lineProperties[y] & LINE_WRAPPED)) y++] *)
Fixpoint lineEnd (todo : nat) (d : TerminalDisplay) (last y : Z) : Z :=
  match todo with
  | O => y
  | S todo' =>
      if (y <? last) && lineWrapped d y then lineEnd todo' d last (y + 1) else y
  end.

(** ** Mouse events *)

Inductive MouseButton : Type := LeftButton | MidButton | RightButton | NoButton.

Definition MouseButton_eqb (a b : MouseButton) : bool :=
  match a, b with
  | LeftButton, LeftButton | MidButton, MidButton
  | RightButton, RightButton | NoButton, NoButton => true
  | _, _ => false
  end.

(** What the handlers read from a [QMouseEvent]. *)
Record QMouseEvent : Type := mkQMouseEvent {
  ev_button : MouseButton;
  ev_pos : QPoint;
  ev_shift : bool;
  ev_control : bool;
  ev_alt : bool
}.

(** [TerminalDisplay::mouseDoubleClickEvent] *)
Definition mouseDoubleClickEvent (ev : QMouseEvent) (d : TerminalDisplay)
  : option TerminalDisplay :=
  if negb (MouseButton_eqb (ev_button ev) LeftButton) then Some d else
  cp <- characterPosition d (ev_pos ev) ;;
  let '(charLine, charColumn) := cp in
  let pos := mkQPoint charColumn charLine in
  if negb (_mouseMarks d) && negb (ev_shift ev) then Some d else
  let d := set_screenWindow (clearSelection (_screenWindow d)) d in
  let bgnSel := pos in
  let endSel := pos in
  let i := loc d (px bgnSel) (py bgnSel) in
  let d := set_iPntSel
             (mkQPoint (px bgnSel) (py bgnSel + sb_value (_scrollBar d))) d in
  let d := set_wordSelectionMode true d in
  img <- _image d ;;
  let selClass := charClass d (character (cell img i)) in
  let '(_, x, by_) :=
    findWordStart (wordStartSteps (_usedColumns d - 1) (px bgnSel) (py bgnSel))
                  d img selClass (_usedColumns d - 1)
                  i (px bgnSel) (py bgnSel) in
  let bgnSel := mkQPoint x by_ in
  let d := set_screenWindow
             (setSelectionStart (px bgnSel) (py bgnSel) false (_screenWindow d)) d in
  let i := loc d (px endSel) (py endSel) in
  let '(i, x, ey) :=
    findWordEnd (wordEndSteps d (px endSel) (py endSel))
                d img selClass i (px endSel) (py endSel) in
  let endSel := mkQPoint x ey in
  let endSel :=
    if (character (cell img i) =? 64) && (px endSel - px bgnSel >? 0)
    then mkQPoint (x - 1) (py endSel) else endSel in
  let d := set_actSel 2 d in
  let d := set_screenWindow
             (setSelectionEnd (px endSel) (py endSel) (_screenWindow d)) d in
  Some (set_possibleTripleClick true d).

(** [TerminalDisplay::mouseTripleClickEvent] *)
Definition mouseTripleClickEvent (ev : QMouseEvent) (d : TerminalDisplay)
  : option TerminalDisplay :=
  cp <- characterPosition d (ev_pos ev) ;;
  let '(charLine, charColumn) := cp in
  let iPntSel := mkQPoint charColumn charLine in
  let d := set_screenWindow (clearSelection (_screenWindow d)) d in
  let d := set_lineSelectionMode true d in
  let d := set_wordSelectionMode false d in
  let d := set_actSel 2 d in
  let iPntSel :=
    mkQPoint (px iPntSel) (lineStart (Z.to_nat (py iPntSel)) d (py iPntSel)) in
  r <- (if _cutToBeginningOfLine d then
          img <- _image d ;;
          let i := loc d (px iPntSel) (py iPntSel) in
          let selClass := charClass d (character (cell img i)) in
          let '(_, x, y) :=
            findWordStart (wordStartSteps (_columns d - 1) (px iPntSel) (py iPntSel))
                          d img selClass (_columns d - 1)
                          i (px iPntSel) (py iPntSel) in
          let iPntSel := mkQPoint (px iPntSel) y in
          let d := set_screenWindow
                     (setSelectionStart x (py iPntSel) false (_screenWindow d)) d in
          Some (iPntSel, set_tripleSelBegin (mkQPoint x (py iPntSel)) d)
        else
          let d := set_screenWindow
                     (setSelectionStart 0 (py iPntSel) false (_screenWindow d)) d in
          Some (iPntSel, set_tripleSelBegin (mkQPoint 0 (py iPntSel)) d)) ;;
  let '(iPntSel, d) := r in
  let iPntSel :=
    mkQPoint (px iPntSel)
             (lineEnd (Z.to_nat (_lines d - 1 - py iPntSel)) d (_lines d - 1)
                      (py iPntSel)) in
  let d := set_screenWindow
             (setSelectionEnd (_columns d - 1) (py iPntSel) (_screenWindow d)) d in
  Some (set_iPntSel
          (mkQPoint (px iPntSel) (py iPntSel + sb_value (_scrollBar d))) d).

(** [TerminalDisplay::mousePressEvent].  Pasting, the signals sent to the
    terminal program and the configuration request of the other buttons
    leave the members modelled here alone, except for
    [_configureRequestPoint]. *)
Definition mousePressEvent (ev : QMouseEvent) (d : TerminalDisplay)
  : option TerminalDisplay :=
  if _possibleTripleClick d && MouseButton_eqb (ev_button ev) LeftButton
  then mouseTripleClickEvent ev d else
  if negb (QRect_contains (contentsRect d) (ev_pos ev)) then Some d else
  cp <- characterPosition d (ev_pos ev) ;;
  let '(charLine, charColumn) := cp in
  let pos := mkQPoint charColumn charLine in
  match ev_button ev with
  | LeftButton =>
      let d := set_lineSelectionMode false d in
      let d := set_wordSelectionMode false d in
      let selected := isSelected env (_screenWindow d) (px pos) (py pos) in
      if (negb (_ctrlDrag d) || ev_control ev) && selected then
        Some (set_dragInfo (mkDragInfo diPending (ev_pos ev)) d)
      else
        let d := set_dragInfo (mkDragInfo diNone (drag_start (dragInfo d))) d in
        let d := set_preserveLineBreaks
                   (negb (ev_control ev && negb (ev_alt ev))) d in
        let d := set_columnSelectionMode (ev_alt ev && ev_control ev) d in
        if _mouseMarks d || ev_shift ev then
          let d := set_screenWindow (clearSelection (_screenWindow d)) d in
          let pos := mkQPoint (px pos) (py pos + sb_value (_scrollBar d)) in
          let d := set_pntSel pos d in
          let d := set_iPntSel pos d in
          Some (set_actSel 1 d)
        else Some d
  | MidButton => Some d
  | RightButton =>
      if _mouseMarks d || ev_shift ev
      then Some (set_configureRequestPoint (ev_pos ev) d)
      else Some d
  | NoButton => Some d
  end.

(** [here.y() < p.y() || here.y() == p.y() && here.x() < p.x()] *)
Definition before (a b : QPoint) : bool :=
  (py a <? py b) || ((py a =? py b) && (px a <? px b)).

(** The locals [here], [ohere], [swapping] and [offset] of
    [extendSelection], with the member [_tripleSelBegin]. *)
Record ExtendLocals : Type := mkExtendLocals {
  here : QPoint;
  ohere : QPoint;
  swapping : bool;
  offset : Z;
  tripleSelBegin : QPoint
}.

(** [i >= 0 && i <= _imageSize] *)
Definition inImage (d : TerminalDisplay) (i : Z) : bool :=
  (i >=? 0) && (i <=? _imageSize d).

(** The block of [extendSelection] run in word selection mode. *)
Definition extendWord (d : TerminalDisplay) (iPntSelCorr pntSelCorr : QPoint)
  (l : ExtendLocals) : option ExtendLocals :=
  let left_not_right := before (here l) iPntSelCorr in
  let old_left_not_right := before pntSelCorr iPntSelCorr in
  let swapping := negb (Bool.eqb left_not_right old_left_not_right) in
  let left := if left_not_right then here l else iPntSelCorr in
  let i := loc d (px left) (py left) in
  left <- (if inImage d i then
             img <- _image d ;;
             let selClass := charClass d (character (cell img i)) in
             let '(_, x, y) :=
               findWordStart (wordStartSteps (_usedColumns d - 1) (px left) (py left))
                             d img selClass (_usedColumns d - 1)
                             i (px left) (py left) in
             Some (mkQPoint x y)
           else Some left) ;;
  let right := if left_not_right then iPntSelCorr else here l in
  let i := loc d (px right) (py right) in
  right <- (if inImage d i then
              img <- _image d ;;
              let selClass := charClass d (character (cell img i)) in
              let '(_, x, y) :=
                findWordEnd (wordEndSteps d (px right) (py right))
                            d img selClass i (px right) (py right) in
              Some (mkQPoint x y)
            else Some right) ;;
  let '(h, o) := if left_not_right then (left, right) else (right, left) in
  Some (mkExtendLocals h (mkQPoint (px o + 1) (py o)) swapping (offset l)
                       (tripleSelBegin l)).

(** The block of [extendSelection] run in line selection mode. *)
Definition extendLine (d : TerminalDisplay) (iPntSelCorr : QPoint)
  (l : ExtendLocals) : ExtendLocals :=
  let above_not_below := py (here l) <? py iPntSelCorr in
  let above := if above_not_below then here l else iPntSelCorr in
  let below := if above_not_below then iPntSelCorr else here l in
  let above := mkQPoint 0 (lineStart (Z.to_nat (py above)) d (py above)) in
  let below :=
    mkQPoint (_usedColumns d - 1)
             (lineEnd (Z.to_nat (_usedLines d - 1 - py below)) d
                      (_usedLines d - 1) (py below)) in
  let '(h, o) := if above_not_below then (above, below) else (below, above) in
  let newSelBegin := o in
  mkExtendLocals h (mkQPoint (px o + 1) (py o))
                 (negb (QPoint_eqb (tripleSelBegin l) newSelBegin))
                 (offset l) newSelBegin.

(** The loop of the character-wise block that runs [right] over trailing
    blanks of its row. *)
Fixpoint skipBlanks (todo : nat) (d : TerminalDisplay) (img : list Character)
  (selClass : Z) (i x y : Z) : Z * Z :=
  match todo with
  | O => (i, x)
  | S todo' =>
      if (x <? _usedColumns d - 1)
         && (charClass d (character (cell img (i + 1))) =? selClass)
         && (y <? _usedLines d - 1)
         && negb (lineWrapped d y)
      then skipBlanks todo' d img selClass (i + 1) (x + 1) y
      else (i, x)
  end.

(** The block of [extendSelection] run when neither word nor line
    selection mode is on. *)
Definition extendPlain (d : TerminalDisplay) (iPntSelCorr pntSelCorr : QPoint)
  (l : ExtendLocals) : option ExtendLocals :=
  let left_not_right := before (here l) iPntSelCorr in
  let old_left_not_right := before pntSelCorr iPntSelCorr in
  let swapping := negb (Bool.eqb left_not_right old_left_not_right) in
  let left := if left_not_right then here l else iPntSelCorr in
  let right := if left_not_right then iPntSelCorr else here l in
  right <- (if (px right >? 0) && negb (_columnSelectionMode d) then
              let i := loc d (px right) (py right) in
              if inImage d i then
                img <- _image d ;;
                let selClass := charClass d (character (cell img (i - 1))) in
                if selClass =? 32 then
                  let '(_, x) :=
                    skipBlanks (Z.to_nat (_usedColumns d - 1 - px right))
                               d img selClass i (px right) (py right) in
                  if x <? _usedColumns d - 1
                  then Some (if left_not_right then iPntSelCorr else here l)
                  else Some (mkQPoint (x + 1) (py right))
                else Some right
              else Some right
            else Some right) ;;
  if left_not_right
  then Some (mkExtendLocals left right swapping 0 (tripleSelBegin l))
  else Some (mkExtendLocals right left swapping (-1) (tripleSelBegin l)).

(** [#define yMouseScroll 1] *)
Definition yMouseScroll : Z := 1.

(** The first part of [extendSelection]: the position is brought back
    into the text area, and the view scrolls by a line when the position
    is on its first or last pixel row.  The result is the display and the
    adjusted position. *)
Definition extendSelectionScroll (pos : QPoint) (d : TerminalDisplay)
  : option (TerminalDisplay * QPoint) :=
  let tLx := rx (contentsRect d) in
  let tLy := ry (contentsRect d) in
  let x := px pos in
  let y := py pos in
  let x := if x <? tLx + _bX d then tLx + _bX d else x in
  let x := if x >? tLx + _bX d + _usedColumns d * _fontWidth d - 1
           then tLx + _bX d + _usedColumns d * _fontWidth d else x in
  let y := if y <? tLy + _bY d then tLy + _bY d else y in
  let y := if y >? tLy + _bY d + _usedLines d * _fontHeight d - 1
           then tLy + _bY d + _usedLines d * _fontHeight d - 1 else y in
  d <- (if y =? tLy + _bY d + _usedLines d * _fontHeight d - 1
        then setValue (sb_value (_scrollBar d) + yMouseScroll) d
        else Some d) ;;
  d <- (if y =? tLy + _bY d
        then setValue (sb_value (_scrollBar d) - yMouseScroll) d
        else Some d) ;;
  Some (d, mkQPoint x y).

(** [_columnSelectionMode && !_lineSelectionMode && !_wordSelectionMode] *)
Definition columnModeOnly (d : TerminalDisplay) : bool :=
  _columnSelectionMode d && negb (_lineSelectionMode d)
  && negb (_wordSelectionMode d).

(** [_iPntSelCorr] and [_pntSelCorr]: the anchor and the last live point
    in rows of the screen. *)
Definition iPntSelCorr (d : TerminalDisplay) : QPoint :=
  mkQPoint (px (_iPntSel d)) (py (_iPntSel d) - sb_value (_scrollBar d)).

Definition pntSelCorr (d : TerminalDisplay) : QPoint :=
  mkQPoint (px (_pntSel d)) (py (_pntSel d) - sb_value (_scrollBar d)).

(** The three blocks of [extendSelection] in their order, from the cell
    under the pointer. *)
Definition extendBounds (d : TerminalDisplay) (charLine charColumn : Z)
  : option ExtendLocals :=
  let l := mkExtendLocals (mkQPoint charColumn charLine) (mkQPoint 0 0) false 0
                          (_tripleSelBegin d) in
  l <- (if _wordSelectionMode d
        then extendWord d (iPntSelCorr d) (pntSelCorr d) l
        else Some l) ;;
  let l := if _lineSelectionMode d then extendLine d (iPntSelCorr d) l else l in
  if negb (_wordSelectionMode d) && negb (_lineSelectionMode d)
  then extendPlain d (iPntSelCorr d) (pntSelCorr d) l else Some l.

(** The arguments of [setSelectionStart] and of [setSelectionEnd] at the
    end of [extendSelection]. *)
Definition startBound (d : TerminalDisplay) (l : ExtendLocals) : Z * Z * bool :=
  if columnModeOnly d
  then (px (ohere l), py (ohere l), true)
  else (px (ohere l) - 1 - offset l, py (ohere l), false).

Definition endBound (d : TerminalDisplay) (l : ExtendLocals) : Z * Z :=
  if columnModeOnly d
  then (px (here l), py (here l))
  else (px (here l) + offset l, py (here l)).

(** The rest of [extendSelection], from the call of [characterPosition]
    on; [scroll] is the scroll bar's value when [extendSelection] was
    entered. *)
Definition extendSelectionAt (scroll : Z) (pos : QPoint) (d : TerminalDisplay)
  : option TerminalDisplay :=
  cp <- characterPosition d pos ;;
  let '(charLine, charColumn) := cp in
  l <- extendBounds d charLine charColumn ;;
  let pntSelCorr := pntSelCorr d in
  let d := set_tripleSelBegin (tripleSelBegin l) d in
  if QPoint_eqb (here l) pntSelCorr && (scroll =? sb_value (_scrollBar d))
  then Some d else
  if QPoint_eqb (here l) (ohere l) then Some d else
  let d :=
    if (_actSel d <? 2) || swapping l then
      let '(x, y, columnMode) := startBound d l in
      set_screenWindow (setSelectionStart x y columnMode (_screenWindow d)) d
    else d in
  let d := set_actSel 2 d in
  let d := set_pntSel
             (mkQPoint (px (here l)) (py (here l) + sb_value (_scrollBar d))) d in
  let '(x, y) := endBound d l in
  Some (set_screenWindow (setSelectionEnd x y (_screenWindow d)) d).

(** [TerminalDisplay::extendSelection] *)
Definition extendSelection (pos : QPoint) (d : TerminalDisplay)
  : option TerminalDisplay :=
  let scroll := sb_value (_scrollBar d) in
  r <- extendSelectionScroll pos d ;;
  extendSelectionAt scroll (snd r) (fst r).

(** [TerminalDisplay::mouseReleaseEvent]; hot spots, the clipboard and the
    signals sent to the terminal program are outside the members modelled
    here. *)
Definition mouseReleaseEvent (ev : QMouseEvent) (d : TerminalDisplay)
  : option TerminalDisplay :=
  characterPosition d (ev_pos ev) ;;;
  match ev_button ev with
  | LeftButton =>
      let d :=
        match drag_state (dragInfo d) with
        | diPending => set_screenWindow (clearSelection (_screenWindow d)) d
        | _ => set_actSel 0 d
        end in
      Some (set_dragInfo (mkDragInfo diNone (drag_start (dragInfo d))) d)
  | _ => Some d
  end.

End Display.

(** ** The invariant and the parts of the update *)

(** The invariant [makeImage] asserts and establishes: a grid of at least
    one cell, a used area inside it and, once the image is allocated, an
    image of [_imageSize + 1] cells for [_imageSize = _lines * _columns]. *)
Definition wellFormed (d : TerminalDisplay) : Prop :=
  0 < _lines d /\ 0 < _columns d
  /\ 0 <= _usedLines d <= _lines d
  /\ 0 <= _usedColumns d <= _columns d
  /\ forall img, _image d = Some img ->
                 _imageSize d = _lines d * _columns d
                 /\ len img = _imageSize d + 1.

(** The image after a shift that is not ignored, and the blit requested. *)
Definition scrolledImage (n : Z) (d : TerminalDisplay) (img : list Character)
  : list Character :=
  if n >? 0
  then memmove img 0 (n * _usedColumns d) ((_usedLines d - n) * _usedColumns d)
  else memmove img (Z.abs n * _usedColumns d) 0
               ((_usedLines d - Z.abs n) * _usedColumns d).

Definition scrollBlit (n : Z) (d : TerminalDisplay) : ScrollCall :=
  mkScrollCall 0 (_fontHeight d * (- n))
    (mkQRect (_bX d) (if n >? 0 then _bY d else _bY d + Z.abs n * _fontHeight d)
             (_usedColumns d * _fontWidth d)
             ((_usedLines d - Z.abs n) * _fontHeight d)).

(** The scroll shift [updateImage] applies first: none when the count is
    zero or out of range. *)
Definition shiftedImage (n : Z) (d : TerminalDisplay) (img : list Character)
  : list Character :=
  if (n =? 0) || (Z.abs n >=? _usedLines d) then img else scrolledImage n d img.

Definition shiftBlit (n : Z) (d : TerminalDisplay) : option ScrollCall :=
  if (n =? 0) || (Z.abs n >=? _usedLines d) then None else Some (scrollBlit n d).

(** The displayed image that [updateImage] compares with the incoming
    one: the image after the scroll shift. *)
Definition comparedImage (d : TerminalDisplay) (img : list Character)
  : list Character :=
  shiftedImage (scrollCount (_screenWindow d)) d img.

(** [linesToUpdate] and [columnsToUpdate] of [updateImage]. *)
Definition linesToUpdate (d : TerminalDisplay) : Z :=
  Z.min (_lines d) (Z.max 0 (windowLines (_screenWindow d))).

Definition columnsToUpdate (d : TerminalDisplay) : Z :=
  Z.min (_columns d) (Z.max 0 (windowColumns (_screenWindow d))).

(** The rectangles [diffImage] adds for the rows and the columns that were
    in use and no longer are. *)
Definition staleRectsAt (d : TerminalDisplay) (ltu ctu : Z) : QRegion :=
  (if ltu <? _usedLines d
   then [mkQRect (_bX d + rx (contentsRect d))
                 (_bY d + ry (contentsRect d) + _fontHeight d * ltu)
                 (_fontWidth d * _columns d)
                 (_fontHeight d * (_usedLines d - ltu))]
   else [])
  ++ (if ctu <? _usedColumns d
      then [mkQRect (_bX d + rx (contentsRect d) + ctu * _fontWidth d)
                    (_bY d + ry (contentsRect d))
                    (_fontWidth d * (_usedColumns d - ctu))
                    (_fontHeight d * _lines d)]
      else []).

(** The rectangles [updateImage] adds for the rows and the columns that
    were in use and no longer are. *)
Definition staleRects (d : TerminalDisplay) : QRegion :=
  staleRectsAt d (linesToUpdate d) (columnsToUpdate d).

(** The dirtiness condition of a column. *)
Definition columnDirty (d : TerminalDisplay) (y : Z)
  (newLine currentLine : Z -> Character) (x : Z) : bool :=
  imDirty d x y || Character_neqb (newLine x) (currentLine x).

(** Whether [updateImage] finds row [y] of [newimg] dirty against the
    displayed image [img]: the flag [updateLine] of that row. *)
Definition rowDirty (d : TerminalDisplay) (newimg : list Character)
  (windowColumns columnsToUpdate : Z) (img : list Character) (y : Z) : bool :=
  let currentLine := fun x => cell img (y * _columns d + x) in
  let newLine := fun x => cell newimg (y * windowColumns + x) in
  rowUpdateLine d y
    (scan_updateLine
       (rowScan d newLine (rowMask d newLine currentLine columnsToUpdate y)
                columnsToUpdate y (mkScanResult false false false false))).

(** The rows [y0 .. y0+n-1]. *)
Definition rowsFrom (y0 : Z) (n : nat) : list Z :=
  map (fun k => y0 + Z.of_nat k) (seq 0 n).

(** The rows of the update as [updateImage] runs them on a display that
    has an image [img]. *)
Definition updatedRows (d : TerminalDisplay) (img : list Character) : RowsState :=
  updateRows (Z.to_nat (linesToUpdate d)) 0 d
             (getImage (_screenWindow d)) (windowColumns (_screenWindow d))
             (columnsToUpdate d)
             (mkRowsState (comparedImage d img) false (_isIMEdit d) (_isIMSel d) []).

(** Two displays that agree on the members the loop over the rows reads. *)
Definition sameGrid (d d' : TerminalDisplay) : Prop :=
  _columns d = _columns d' /\ _resizing d = _resizing d'
  /\ _lineProperties d = _lineProperties d'
  /\ _imPreeditLength d = _imPreeditLength d' /\ _imStart d = _imStart d'
  /\ _imStartLine d = _imStartLine d' /\ _imEnd d = _imEnd d'
  /\ _imSelStart d = _imSelStart d' /\ _imSelEnd d = _imSelEnd d'
  /\ _bX d = _bX d' /\ _bY d = _bY d' /\ contentsRect d = contentsRect d'
  /\ _fontWidth d = _fontWidth d' /\ _fontHeight d = _fontHeight d'.

(** Row [y] of the incoming image and of the displayed image as
    [updateImage] reads them: [newLine] and [currentLine]. *)
Definition incomingLine (d : TerminalDisplay) (y x : Z) : Character :=
  cell (getImage (_screenWindow d)) (y * windowColumns (_screenWindow d) + x).

Definition displayedLine (d : TerminalDisplay) (img : list Character) (y x : Z)
  : Character :=
  cell (comparedImage d img) (y * _columns d + x).

(** The pixels of the cell in column [x] of row [y]. *)
Definition cellRect (d : TerminalDisplay) (x y : Z) : QRect :=
  mkQRect (_bX d + rx (contentsRect d) + _fontWidth d * x)
          (_bY d + ry (contentsRect d) + _fontHeight d * y)
          (_fontWidth d) (_fontHeight d).

(** Rectangle [r] lies inside rectangle [q]. *)
Definition QRect_inside (r q : QRect) : Prop :=
  rx q <= rx r /\ rx r + rw r <= rx q + rw q
  /\ ry q <= ry r /\ ry r + rh r <= ry q + rh q.

(** ** Words, lines and the order of selection bounds *)

(** The conditions under which the loops for the start and for the end of
    a word go on from cell [i] at [(x, y)]. *)
Definition wordStartGoesOn (env : Collaborators) (d : TerminalDisplay)
  (img : list Character) (selClass i x y : Z) : bool :=
  ((x >? 0) || ((y >? 0) && lineWrapped d (y - 1)))
  && (charClass env d (character (cell img (i - 1))) =? selClass).

Definition wordEndGoesOn (env : Collaborators) (d : TerminalDisplay)
  (img : list Character) (selClass i x y : Z) : bool :=
  ((x <? _usedColumns d - 1) || ((y <? _usedLines d - 1) && lineWrapped d y))
  && (charClass env d (character (cell img (i + 1))) =? selClass).

(** Cell [p] lies between the bounds [s] and [e] of a selection, in
    reading order. *)
Definition inSelection (s e p : QPoint) : bool :=
  negb (before p s) && negb (before e p).

(** Cell [(x1, y1)] is at or before cell [(x2, y2)] in reading order: by
    row, then by column. *)
Definition readingLe (a b : Z * Z) : Prop :=
  snd a < snd b \/ (snd a = snd b /\ fst a <= fst b).

(** The column and the row of a point. *)
Definition pt (p : QPoint) : Z * Z := (px p, py p).

(** The column and the row of a start bound. *)
Definition startCell (b : Z * Z * bool) : Z * Z := fst b.

(** The point [extendSelection] compares with the anchor in line
    selection mode: the cell under the pointer, or, when word selection
    mode is on as well, the bound the word block has put in [here]. *)
Definition pointerSide (env : Collaborators) (d : TerminalDisplay)
  (line column : Z) : option QPoint :=
  if _wordSelectionMode d
  then match extendWord env d (iPntSelCorr d) (pntSelCorr d)
               (mkExtendLocals (mkQPoint column line) (mkQPoint 0 0) false 0
                               (_tripleSelBegin d)) with
       | Some l => Some (here l)
       | None => None
       end
  else Some (mkQPoint column line).

(** Whether the pointer, on cell [(column, line)], is on the near side of
    the anchor: before it in reading order, or, in line selection mode,
    on a row above it. *)
Definition draggedBackwards (env : Collaborators) (d : TerminalDisplay)
  (line column : Z) : bool :=
  if _lineSelectionMode d
  then match pointerSide env d line column with
       | Some h => py h <? py (iPntSelCorr d)
       | None => false
       end
  else before (mkQPoint column line) (iPntSelCorr d).

(** What keeps the reads of [extendSelection] around the anchor inside the
    image and the line properties: the column of the anchor is a column
    of the grid and, in word selection mode, an anchor that passes the
    test [i >= 0 && i <= _imageSize] is on a row of the grid, with line
    properties for the rows above it. *)
Definition anchorReadable (d : TerminalDisplay) : Prop :=
  0 <= px (iPntSelCorr d) < _columns d
  /\ (_wordSelectionMode d = true ->
      inImage d (loc d (px (iPntSelCorr d)) (py (iPntSelCorr d))) = true ->
      py (iPntSelCorr d) < _lines d
      /\ py (iPntSelCorr d) <= len (_lineProperties d)).

(** ** States used in the examples *)

(** The display as the constructor leaves it, around a screen window and
    a content rectangle: one line, one column, no image yet.  The
    constructor does not initialise [_imageSize], and the scroll bar's
    extent comes from the style; 0 and 16 stand for them. *)
Definition newTerminalDisplay (w : ScreenWindow) (contents : QRect)
  : TerminalDisplay :=
  {| _screenWindow := w; contentsRect := contents; scrollBarExtent := 16;
     _scrollBar := mkQScrollBar 0 0 0 16;
     _fontHeight := 1; _fontWidth := 1; _lines := 1; _columns := 1;
     _usedLines := 1; _usedColumns := 1; _contentHeight := 1;
     _contentWidth := 1; _image := None; _imageSize := 0;
     _lineProperties := []; _resizing := false; _actSel := 0;
     _wordSelectionMode := false; _lineSelectionMode := false;
     _preserveLineBreaks := true; _columnSelectionMode := false;
     _iPntSel := mkQPoint 0 0; _pntSel := mkQPoint 0 0;
     _tripleSelBegin := mkQPoint 0 0; _scrollbarLocation := SCROLLBAR_NONE;
     _wordCharacters := [58; 64; 45; 46; 47; 95; 126];
     _hasBlinker := false; _ctrlDrag := false; _cutToBeginningOfLine := false;
     _isFixedSize := false; _possibleTripleClick := false; _mouseMarks := true;
     _rimX := 1; _rimY := 1; _bX := 1; _bY := 1;
     _imPreeditLength := 0; _imStart := 0; _imStartLine := 0; _imEnd := 0;
     _imSelStart := 0; _imSelEnd := 0; _isIMEdit := false; _isIMSel := false;
     dragInfo := mkDragInfo diNone (mkQPoint 0 0);
     _configureRequestPoint := mkQPoint 0 0 |}.

(** A screen window that shows nothing. *)
Definition emptyWindow : ScreenWindow :=
  mkScreenWindow 0 [] 0 0 0 0 [] None None.

(** A display of [lines] by [columns] cells, of which [usedLines] by
    [usedColumns] are in use, showing [img]. *)
Definition displayOf (lines columns usedLines usedColumns : Z)
  (img : list Character) : TerminalDisplay :=
  set_image (Some img)
    (set_imageSize (lines * columns)
      (set_usedColumns usedColumns
        (set_usedLines usedLines
          (set_columns columns
            (set_lines lines
              (newTerminalDisplay emptyWindow (mkQRect 0 0 640 480))))))).

(** A screen window that shows [img], of [lines] by [columns] cells, with
    nothing scrolled and nothing selected. *)
Definition windowOf (lines columns : Z) (img : list Character) : ScreenWindow :=
  mkScreenWindow 0 img lines columns 0 0 [] None None.

(** Collaborators for the examples: no slot connected, a window that
    stays as it is when scrolled and has nothing selected, and the
    character predicates on ASCII. *)
Definition asciiIsSpace (c : Z) : bool :=
  (c =? 32) || ((9 <=? c) && (c <=? 13)).

Definition asciiIsLetterOrNumber (c : Z) : bool :=
  ((48 <=? c) && (c <=? 57)) || ((65 <=? c) && (c <=? 90))
  || ((97 <=? c) && (c <=? 122)).

Definition asciiToCaseFolded (c : Z) : Z :=
  if (65 <=? c) && (c <=? 90) then c + 32 else c.

Definition plain : Collaborators :=
  {| changedContentSizeSignal := fun _ _ d => d;
     scrollTo := fun _ w => w;
     isSelected := fun _ _ _ => false;
     isSpace := asciiIsSpace;
     isLetterOrNumber := asciiIsLetterOrNumber;
     toCaseFolded := asciiToCaseFolded |}.

(** A left button event at a widget point, no modifier held. *)
Definition leftButtonAt (x y : Z) : QMouseEvent :=
  mkQMouseEvent LeftButton (mkQPoint x y) false false false.

(** A cell with the given character code in default colours. *)
Definition charCell (c : Z) : Character :=
  mkCharacter c DEFAULT_RENDITION DEFAULT_FORE_COLOR DEFAULT_BACK_COLOR.

(** The cells of row [y] in columns [0 .. n-1] of an image of width
    [columns]. *)
Definition rowCells (img : list Character) (columns n y : Z) : list Character :=
  map (fun x => cell img (y * columns + x)) (indices (Z.to_nat n)).

(** An image of [lines] by [columns] blank cells and the reserved cell. *)
Definition blankImage (lines columns : Z) : list Character :=
  repeat blankCharacter (Z.to_nat (lines * columns + 1)).

(** An image of [lines] by [columns] cells in which every cell of row [y]
    carries the character code [y], followed by the reserved blank cell. *)
Definition markedImage (lines columns : Z) : list Character :=
  map (fun i => charCell (Z.quot i columns))
      (indices (Z.to_nat (lines * columns)))
  ++ [blankCharacter].

(** The letters a to f on three rows of two columns. *)
Definition lettersImage : list Character :=
  map charCell [97; 98; 99; 100; 101; 102] ++ [blankCharacter].

(** The character codes of "hello world". *)
Definition helloWorld : list Z :=
  [104; 101; 108; 108; 111; 32; 119; 111; 114; 108; 100].

(** Three rows of two columns, marked 0, 1 and 2, all in use. *)
Definition threeRows : TerminalDisplay :=
  displayOf 3 2 3 2 (markedImage 3 2).

(** Twenty-four marked rows of two allocated columns, of which only the
    first column is in use: the screen window is narrower than the
    widget. *)
Definition narrowWindow : TerminalDisplay :=
  displayOf 24 2 24 1 (markedImage 24 2).

(** The three marked rows, about to be updated to the letters. *)
Definition threeRowsUpdate : TerminalDisplay :=
  set_screenWindow (windowOf 3 2 lettersImage) threeRows.

(** The same update arriving while a resize is in progress. *)
Definition threeRowsResizing : TerminalDisplay :=
  set_resizing true threeRowsUpdate.

(** One row of two columns that shows "ab" and is about to be updated to
    two cells of character code 0, cells that no leading cell precedes. *)
Definition zeroCellsUpdate : TerminalDisplay :=
  set_screenWindow (windowOf 1 2 [charCell 0; charCell 0; blankCharacter])
    (displayOf 1 2 1 2 [charCell 97; charCell 98; blankCharacter]).

(** The scenario of a single changed cell: 24 rows of 80 blank cells on
    display, and an incoming image that differs by an X in column 10 of
    row 5. *)
Definition singleChangeImage : list Character :=
  zset (blankImage 24 80) (5 * 80 + 10) (charCell 88).

Definition singleChange : TerminalDisplay :=
  set_screenWindow (windowOf 24 80 singleChangeImage)
    (displayOf 24 80 24 80 (blankImage 24 80)).

(** Two rows of eleven columns, the second of which reads "hello world";
    the first row is blank and neither row is wrapped. *)
Definition helloDisplay : TerminalDisplay :=
  set_lineProperties [0; 0]
    (displayOf 2 11 2 11
       (repeat blankCharacter 11 ++ map charCell helloWorld
        ++ [blankCharacter])).

(** One row of six columns that reads "ab@ cd". *)
Definition atImage : list Character :=
  map charCell [97; 98; 64; 32; 99; 100] ++ [blankCharacter].

Definition atDisplay : TerminalDisplay :=
  set_lineProperties [0] (displayOf 1 6 1 6 atImage).

(** The "hello world" display with the cut-to-beginning-of-line option
    switched on. *)
Definition helloCutDisplay : TerminalDisplay :=
  set_cutToBeginningOfLine true helloDisplay.

(** Eight rows of three columns in which row 4 is wrapped into row 5. *)
Definition wrappedDisplay : TerminalDisplay :=
  set_lineProperties [0; 0; 0; 0; LINE_WRAPPED; 0; 0; 0]
    (displayOf 8 3 8 3 (markedImage 8 3)).

(** The character codes of "aaa bbb ccc" and of "ddd eee fff". *)
Definition wordsAbc : list Z := [97; 97; 97; 32; 98; 98; 98; 32; 99; 99; 99].

Definition wordsDef : list Z :=
  [100; 100; 100; 32; 101; 101; 101; 32; 102; 102; 102].

(** Two rows of eleven columns that read "aaa bbb ccc" and "ddd eee fff",
    the first wrapped into the second, with the cut-to-beginning-of-line
    option switched on. *)
Definition wrappedCutDisplay : TerminalDisplay :=
  set_cutToBeginningOfLine true
    (set_lineProperties [LINE_WRAPPED; 0]
       (displayOf 2 11 2 11
          (map charCell wordsAbc ++ map charCell wordsDef ++ [blankCharacter]))).

(** Three rows of eleven columns, the middle one reading "hello world",
    none of them wrapped. *)
Definition helloRows : TerminalDisplay :=
  set_lineProperties [0; 0; 0]
    (displayOf 3 11 3 11
       (repeat blankCharacter 11 ++ map charCell helloWorld
        ++ repeat blankCharacter 11 ++ [blankCharacter])).

(** The display after the left button went down on column 6 of the row
    that reads "hello world" ... *)
Definition helloPressed : TerminalDisplay :=
  match mousePressEvent plain (leftButtonAt 7 2) helloRows with
  | Some d => d
  | None => helloRows
  end.

(** ... and after the pointer was then dragged left to column 2. *)
Definition helloDragged : TerminalDisplay :=
  match extendSelection plain (mkQPoint 3 2) helloPressed with
  | Some d => d
  | None => helloPressed
  end.

(** The three rows after a double click on "world" ... *)
Definition helloWordClicked : TerminalDisplay :=
  match mouseDoubleClickEvent plain (leftButtonAt 9 2) helloRows with
  | Some d => d
  | None => helloRows
  end.

(** ... and after the pointer was then dragged left to column 1. *)
Definition helloWordDragged : TerminalDisplay :=
  match extendSelection plain (mkQPoint 2 2) helloWordClicked with
  | Some d => d
  | None => helloWordClicked
  end.

(** The three rows after a triple click on "world" ... *)
Definition helloLineClicked : TerminalDisplay :=
  match mouseTripleClickEvent plain (leftButtonAt 9 2) helloRows with
  | Some d => d
  | None => helloRows
  end.

(** ... and after a fourth click, which arrives as a double click and
    switches word selection mode on beside line selection mode. *)
Definition helloBothModes : TerminalDisplay :=
  match mouseDoubleClickEvent plain (leftButtonAt 9 2) helloLineClicked with
  | Some d => d
  | None => helloLineClicked
  end.

(** ** Fixing the size of the grid *)


(** [_isFixedSize = v] *)
Definition set_isFixedSize (v : bool) (d : TerminalDisplay) : TerminalDisplay :=
  {| _screenWindow := _screenWindow d; contentsRect := contentsRect d;
     scrollBarExtent := scrollBarExtent d; _scrollBar := _scrollBar d;
     _fontHeight := _fontHeight d; _fontWidth := _fontWidth d;
     _lines := _lines d; _columns := _columns d; _usedLines := _usedLines d;
     _usedColumns := _usedColumns d; _contentHeight := _contentHeight d;
     _contentWidth := _contentWidth d; _image := _image d;
     _imageSize := _imageSize d; _lineProperties := _lineProperties d;
     _resizing := _resizing d; _actSel := _actSel d;
     _wordSelectionMode := _wordSelectionMode d;
     _lineSelectionMode := _lineSelectionMode d;
     _preserveLineBreaks := _preserveLineBreaks d;
     _columnSelectionMode := _columnSelectionMode d; _iPntSel := _iPntSel d;
     _pntSel := _pntSel d; _tripleSelBegin := _tripleSelBegin d;
     _scrollbarLocation := _scrollbarLocation d;
     _wordCharacters := _wordCharacters d; _hasBlinker := _hasBlinker d;
     _ctrlDrag := _ctrlDrag d;
     _cutToBeginningOfLine := _cutToBeginningOfLine d; _isFixedSize := v;
     _possibleTripleClick := _possibleTripleClick d;
     _mouseMarks := _mouseMarks d; _rimX := _rimX d; _rimY := _rimY d;
     _bX := _bX d; _bY := _bY d; _imPreeditLength := _imPreeditLength d;
     _imStart := _imStart d; _imStartLine := _imStartLine d;
     _imEnd := _imEnd d; _imSelStart := _imSelStart d;
     _imSelEnd := _imSelEnd d; _isIMEdit := _isIMEdit d;
     _isIMSel := _isIMSel d; dragInfo := dragInfo d;
     _configureRequestPoint := _configureRequestPoint d |}.



(** [TerminalDisplay::resizeEvent] *)
Definition resizeEvent (env : Collaborators) (d : TerminalDisplay)
  : option TerminalDisplay :=
  updateImageSize env d.

(** The image [updateImageSize] has built when it emits the signal: the
    new blank image with the rows of the old one copied over it. *)
Definition resizedImage (old : list Character) (oldlin oldcol lines columns : Z)
  : list Character :=
  copyOldImage (Z.to_nat (Z.min oldlin lines)) 0 columns oldcol
               (Z.min oldcol columns)
               (repeat blankCharacter (Z.to_nat (lines * columns + 1))) old.

(** Two rows of two columns showing the letters a to d, in a widget whose
    content rectangle has room for two lines of three columns. *)
Definition lettersGrown : TerminalDisplay :=
  set_image (Some (map charCell [97; 98; 99; 100] ++ [blankCharacter]))
    (set_imageSize 4
      (set_usedColumns 2
        (set_usedLines 2
          (set_columns 2
            (set_lines 2
              (newTerminalDisplay emptyWindow (mkQRect 0 0 5 3))))))).

(** The same display once its size has been fixed. *)
Definition lettersFixed : TerminalDisplay := set_isFixedSize true lettersGrown.

(** The display [makeImage] returns for the two rows of two columns. *)
Definition lettersGrownMade : TerminalDisplay :=
  match makeImage lettersGrown with
  | Some g => g
  | None => lettersGrown
  end.

(** The three marked rows once the screen window has shrunk to two lines
    of one column. *)
Definition threeRowsShrunk : TerminalDisplay :=
  set_screenWindow (windowOf 2 1 [charCell 97; charCell 98; blankCharacter])
                   threeRows.

(** The three marked rows, about to be updated to the letters, with the
    middle row flagged double height. *)
Definition threeRowsDoubleHeight : TerminalDisplay :=
  set_lineProperties [0; LINE_DOUBLEHEIGHT; 0] threeRowsUpdate.

(** * Properties *)

(** ** Arrays *)

Lemma length_indices (n : nat) : length (indices n) = n.
Proof. unfold indices. now rewrite length_map, length_seq. Qed.

Lemma nth_indices (n k : nat) (d : Z) :
  (k < n)%nat -> nth k (indices n) d = Z.of_nat k.
Proof.
  intros Hk. unfold indices.
  rewrite (nth_indep _ d (Z.of_nat 0)) by (now rewrite length_map, length_seq).
  rewrite map_nth, seq_nth by assumption. reflexivity.
Qed.

Lemma zth_map_indices {A : Type} (d : A) (f : Z -> A) (n : nat) (i : Z) :
  zth d (map f (indices n)) i
  = if (0 <=? i) && (i <? Z.of_nat n) then f i else d.
Proof.
  unfold zth.
  destruct (Z.ltb_spec i 0) as [Hneg | Hpos].
  - replace (0 <=? i) with false by (symmetry; apply Z.leb_gt; lia).
    reflexivity.
  - replace (0 <=? i) with true by (symmetry; apply Z.leb_le; lia).
    simpl. destruct (Z.ltb_spec i (Z.of_nat n)) as [Hin | Hout].
    + rewrite (nth_indep _ d (f 0)) by (rewrite length_map, length_indices; lia).
      rewrite map_nth, nth_indices by lia.
      f_equal. lia.
    + apply nth_overflow. rewrite length_map, length_indices. lia.
Qed.

Lemma zth_outside {A : Type} (d : A) (l : list A) (i : Z) :
  i < 0 \/ len l <= i -> zth d l i = d.
Proof.
  unfold zth, len. intros [H | H].
  - replace (i <? 0) with true by (symmetry; apply Z.ltb_lt; lia). reflexivity.
  - destruct (i <? 0); [reflexivity |]. apply nth_overflow. lia.
Qed.

Lemma length_copyCells (dst src : list Character) (d s n : Z) :
  length (copyCells dst src d s n) = length dst.
Proof. unfold copyCells. now rewrite length_map, length_indices. Qed.

Lemma len_copyCells (dst src : list Character) (d s n : Z) :
  len (copyCells dst src d s n) = len dst.
Proof. unfold len. now rewrite length_copyCells. Qed.

(** Reading a cell after a block copy. *)
Lemma cell_copyCells (dst src : list Character) (d s n i : Z) :
  cell (copyCells dst src d s n) i
  = if (d <=? i) && (i <? d + n) && (0 <=? i) && (i <? len dst)
    then cell src (i - d + s) else cell dst i.
Proof.
  unfold cell at 1, copyCells. rewrite zth_map_indices. fold (len dst).
  destruct (0 <=? i) eqn:H0; destruct (i <? len dst) eqn:H1;
    destruct ((d <=? i) && (i <? d + n)) eqn:H2; simpl;
    rewrite ?andb_false_r; simpl; try reflexivity;
    symmetry; apply zth_outside; lia.
Qed.

(** ** Scrolling *)

Ltac boolZ :=
  repeat match goal with
  | H : (_ <? _) = true |- _ => apply Z.ltb_lt in H
  | H : (_ <? _) = false |- _ => apply Z.ltb_ge in H
  | H : (_ <=? _) = true |- _ => apply Z.leb_le in H
  | H : (_ <=? _) = false |- _ => apply Z.leb_gt in H
  | H : (_ >? _) = true |- _ => rewrite Z.gtb_ltb in H
  | H : (_ >? _) = false |- _ => rewrite Z.gtb_ltb in H
  | H : (_ >=? _) = true |- _ => rewrite Z.geb_leb in H
  | H : (_ >=? _) = false |- _ => rewrite Z.geb_leb in H
  | H : (_ =? _) = true |- _ => apply Z.eqb_eq in H
  | H : (_ =? _) = false |- _ => apply Z.eqb_neq in H
  | H : (_ && _) = true |- _ => apply andb_true_iff in H; destruct H
  | H : (_ || _) = false |- _ => apply orb_false_iff in H; destruct H
  | H : negb _ = true |- _ => apply negb_true_iff in H
  | H : negb _ = false |- _ => apply negb_false_iff in H
  end.

Lemma scrollImage_shift (n : Z) (d : TerminalDisplay) (img : list Character) :
  wellFormed d -> _image d = Some img ->
  n <> 0 -> Z.abs n < _usedLines d ->
  scrollImage n d
  = Some (set_image (Some (scrolledImage n d img)) d, Some (scrollBlit n d)).
Proof.
  intros (Hl & Hc & Hul & Huc & Hsize) Himg Hn Habs.
  destruct (Hsize img Himg) as [Hsz Hlen].
  unfold scrollImage, scrolledImage, scrollBlit. rewrite Himg.
  replace (n =? 0) with false by (symmetry; apply Z.eqb_neq; exact Hn).
  replace (Z.abs n >=? _usedLines d) with false
    by (symmetry; rewrite Z.geb_leb; apply Z.leb_gt; exact Habs).
  destruct (n >? 0) eqn:Hpos.
  - boolZ.
    assert (Hlt : (n * _usedColumns d <? _imageSize d) = true).
    { apply Z.ltb_lt. rewrite Hsz. nia. }
    rewrite Hlt. simpl. replace (Z.abs n) with n by lia. reflexivity.
  - reflexivity.
Qed.

Lemma wellFormed_set_image (d : TerminalDisplay) (img img' : list Character) :
  wellFormed d -> _image d = Some img -> len img' = len img ->
  wellFormed (set_image (Some img') d).
Proof.
  intros (Hl & Hc & Hul & Huc & Hsize) Himg Hlen'.
  destruct (Hsize img Himg) as [Hsz Hlen].
  unfold wellFormed. simpl.
  split; [lia |]. split; [lia |]. split; [lia |]. split; [lia |].
  intros i Hi. injection Hi as <-. split; [exact Hsz |].
  rewrite Hlen'. exact Hlen.
Qed.

Lemma len_scrolledImage (n : Z) (d : TerminalDisplay) (img : list Character) :
  len (scrolledImage n d img) = len img.
Proof.
  unfold scrolledImage, memmove. destruct (n >? 0); apply len_copyCells.
Qed.

(** Shifting by [n] and back by [-n], cell by cell of the flat image: the
    cells the first shift kept inside the block of used cells return to
    their places. *)
Lemma scrollImage_back_cells (n : Z) (d : TerminalDisplay)
  (img : list Character) (i : Z) :
  wellFormed d -> _image d = Some img ->
  n <> 0 -> Z.abs n < _usedLines d ->
  (if n >? 0
   then n * _usedColumns d <= i < _usedLines d * _usedColumns d
   else 0 <= i < (_usedLines d - Z.abs n) * _usedColumns d) ->
  cell (scrolledImage (- n) (set_image (Some (scrolledImage n d img)) d)
                      (scrolledImage n d img)) i
  = cell img i.
Proof.
  intros Hwf Himg Hn Habs Hi.
  destruct Hwf as (Hl & Hc & Hul & Huc & Hsize).
  destruct (Hsize img Himg) as [Hsz Hlen].
  assert (Hcap : _usedLines d * _usedColumns d <= _lines d * _columns d) by nia.
  unfold scrolledImage, memmove. simpl.
  destruct (n >? 0) eqn:Hpos; boolZ.
  - replace (- n >? 0) with false by (symmetry; rewrite Z.gtb_ltb; apply Z.ltb_ge; lia).
    replace (Z.abs (- n)) with n by lia.
    rewrite !cell_copyCells, !len_copyCells.
    replace ((n * _usedColumns d <=? i)
             && (i <? n * _usedColumns d + (_usedLines d - n) * _usedColumns d)
             && (0 <=? i) && (i <? len img)) with true
      by (symmetry; rewrite !andb_true_iff, !Z.leb_le, !Z.ltb_lt; nia).
    replace ((0 <=? i - n * _usedColumns d + 0)
             && (i - n * _usedColumns d + 0 <? 0 + (_usedLines d - n) * _usedColumns d)
             && (0 <=? i - n * _usedColumns d + 0)
             && (i - n * _usedColumns d + 0 <? len img)) with true
      by (symmetry; rewrite !andb_true_iff, !Z.leb_le, !Z.ltb_lt; nia).
    f_equal. lia.
  - replace (- n >? 0) with true by (symmetry; rewrite Z.gtb_ltb; apply Z.ltb_lt; lia).
    replace (Z.abs n) with (- n) in * by lia.
    rewrite !cell_copyCells, !len_copyCells.
    replace ((0 <=? i) && (i <? 0 + (_usedLines d - - n) * _usedColumns d)
             && (0 <=? i) && (i <? len img)) with true
      by (symmetry; rewrite !andb_true_iff, !Z.leb_le, !Z.ltb_lt; nia).
    replace ((- n * _usedColumns d <=? i - 0 + - n * _usedColumns d)
             && (i - 0 + - n * _usedColumns d
                 <? - n * _usedColumns d + (_usedLines d - - n) * _usedColumns d)
             && (0 <=? i - 0 + - n * _usedColumns d)
             && (i - 0 + - n * _usedColumns d <? len img)) with true
      by (symmetry; rewrite !andb_true_iff, !Z.leb_le, !Z.ltb_lt; nia).
    f_equal. lia.
Qed.

(** With every allocated column in use, a shift up by [n] moves rows
    [n .. usedLines-1] to the top, and a shift down moves rows
    [0 .. usedLines-|n|-1] to the bottom of the used area. *)
Lemma scrolledImage_rows (n : Z) (d : TerminalDisplay) (img : list Character)
  (x y : Z) :
  wellFormed d -> _image d = Some img ->
  _usedColumns d = _columns d ->
  n <> 0 -> Z.abs n < _usedLines d ->
  0 <= x < _columns d ->
  (if n >? 0 then 0 <= y < _usedLines d - n
   else Z.abs n <= y < _usedLines d) ->
  cell (scrolledImage n d img) (loc d x y) = cell img (loc d x (y + n)).
Proof.
  intros (Hl & Hc & Hul & Huc & Hsize) Himg Hfull Hn Habs Hx Hy.
  destruct (Hsize img Himg) as [Hsz Hlen].
  unfold scrolledImage, memmove, loc. rewrite Hfull.
  destruct (n >? 0) eqn:Hpos; boolZ; rewrite cell_copyCells.
  - replace ((0 <=? y * _columns d + x)
             && (y * _columns d + x <? 0 + (_usedLines d - n) * _columns d)
             && (0 <=? y * _columns d + x)
             && (y * _columns d + x <? len img)) with true
      by (symmetry; rewrite !andb_true_iff, !Z.leb_le, !Z.ltb_lt; nia).
    f_equal. lia.
  - replace (Z.abs n) with (- n) in * by lia.
    replace ((- n * _columns d <=? y * _columns d + x)
             && (y * _columns d + x
                 <? - n * _columns d + (_usedLines d - - n) * _columns d)
             && (0 <=? y * _columns d + x)
             && (y * _columns d + x <? len img)) with true
      by (symmetry; rewrite !andb_true_iff, !Z.leb_le, !Z.ltb_lt; nia).
    f_equal. lia.
Qed.

(** C10.  [scrollImage(n)] called with [n == 0], with no image allocated,
    or with [|n| >= usedLines] returns at once: the display, its image
    included, is unchanged and no blit is requested.  This holds of every
    [int] [n] that has an absolute value, that is of every [n] above
    [INT_MIN]. *)
Theorem scrollImage_out_of_range_ignored (n : Z) (d : TerminalDisplay) :
  INT_MIN < n ->
  n = 0 \/ _image d = None \/ Z.abs n >= _usedLines d ->
  scrollImage n d = Some (d, None).
Proof.
  intros _ H. unfold scrollImage.
  destruct (n =? 0) eqn:Hn; [reflexivity |].
  destruct (_image d) as [img |] eqn:Himg; [| reflexivity].
  destruct (Z.abs n >=? _usedLines d) eqn:Habs; [reflexivity |].
  boolZ. destruct H as [H | [H | H]]; [lia | discriminate | lia].
Qed.

(** C4, as the code has it.  With every allocated column in use and
    [0 < |n| < usedLines], [scrollImage(n)] followed by [scrollImage(-n)]
    succeeds and puts back the rows the first shift kept in the used
    area: rows [n .. usedLines-1] when [n > 0], rows
    [0 .. usedLines-|n|-1] when [n < 0]. *)
Theorem scrollImage_there_and_back (n : Z) (d : TerminalDisplay)
  (img : list Character) :
  wellFormed d -> _image d = Some img ->
  _usedColumns d = _columns d ->
  0 < Z.abs n < _usedLines d ->
  exists d1 b1 d2 b2 img2,
    scrollImage n d = Some (d1, b1)
    /\ scrollImage (- n) d1 = Some (d2, b2)
    /\ _image d2 = Some img2
    /\ forall x y,
         0 <= x < _columns d ->
         (if n >? 0 then n <= y < _usedLines d
          else 0 <= y < _usedLines d - Z.abs n) ->
         cell img2 (loc d x y) = cell img (loc d x y).
Proof.
  intros Hwf Himg Hfull Hn.
  set (img1 := scrolledImage n d img).
  set (d1 := set_image (Some img1) d).
  assert (Hwf1 : wellFormed d1).
  { apply (wellFormed_set_image d img); auto. apply len_scrolledImage. }
  exists d1, (Some (scrollBlit n d)),
    (set_image (Some (scrolledImage (- n) d1 img1)) d1),
    (Some (scrollBlit (- n) d1)), (scrolledImage (- n) d1 img1).
  split; [apply scrollImage_shift; auto; lia |].
  split; [apply scrollImage_shift; auto; simpl; lia |].
  split; [reflexivity |].
  intros x y Hx Hy.
  apply scrollImage_back_cells; auto; try lia.
  destruct Hwf as (Hl & Hc & Hul & Huc & Hsize).
  unfold loc. rewrite Hfull. destruct (n >? 0); nia.
Qed.

Ltac wellFormed_concrete :=
  unfold wellFormed; simpl; repeat split; try lia;
  match goal with
  | H : Some _ = Some _ |- _ => injection H as <-; reflexivity
  end.

Ltac wellFormed_computed :=
  unfold wellFormed; vm_compute;
  split; [reflexivity |]; split; [reflexivity |];
  split; [split; discriminate |]; split; [split; discriminate |];
  let img := fresh "img" in
  let H := fresh "H" in
  intros img H; injection H as <-; split; reflexivity.

Lemma scrollImage_out_of_range_ignored_witness :
  INT_MIN < 5
  /\ (5 = 0 \/ _image threeRows = None \/ Z.abs 5 >= _usedLines threeRows)
  /\ scrollImage 5 threeRows = Some (threeRows, None).
Proof.
  assert (H0 : INT_MIN < 5) by (unfold INT_MIN; lia).
  assert (H : 5 = 0 \/ _image threeRows = None
              \/ Z.abs 5 >= _usedLines threeRows)
    by (right; right; simpl; lia).
  split; [exact H0 |]. split; [exact H |].
  exact (scrollImage_out_of_range_ignored 5 threeRows H0 H).
Defined.

Lemma scrollImage_there_and_back_witness :
  wellFormed threeRows
  /\ exists d1 b1 d2 b2 img2,
       scrollImage 1 threeRows = Some (d1, b1)
       /\ scrollImage (- (1)) d1 = Some (d2, b2)
       /\ _image d2 = Some img2
       /\ forall x y,
            0 <= x < _columns threeRows ->
            (if 1 >? 0 then 1 <= y < _usedLines threeRows
             else 0 <= y < _usedLines threeRows - Z.abs 1) ->
            cell img2 (loc threeRows x y)
            = cell (markedImage 3 2) (loc threeRows x y).
Proof.
  split; [wellFormed_concrete |].
  apply (scrollImage_there_and_back 1 threeRows (markedImage 3 2)).
  - wellFormed_concrete.
  - reflexivity.
  - reflexivity.
  - simpl. lia.
Defined.

(** C4 as stated fails: after [scrollImage(1)] and [scrollImage(-1)] on
    three marked rows, the first row holds the marker of the second. *)
Lemma scrollImage_there_and_back_loses_row :
  exists d1 b1 d2 b2 img2,
    scrollImage 1 threeRows = Some (d1, b1)
    /\ scrollImage (-1) d1 = Some (d2, b2)
    /\ _image d2 = Some img2
    /\ 0 < Z.abs 1 < _usedLines threeRows
    /\ rowCells (markedImage 3 2) 2 2 0 = [charCell 0; charCell 0]
    /\ rowCells img2 2 2 0 = [charCell 1; charCell 1]
    /\ rowCells img2 2 2 0 <> rowCells (markedImage 3 2) 2 2 0.
Proof.
  do 5 eexists.
  split; [vm_compute; reflexivity |].
  split; [vm_compute; reflexivity |].
  split; [reflexivity |].
  split; [simpl; lia |].
  split; [reflexivity |].
  split; [reflexivity |].
  vm_compute. discriminate.
Qed.

(** With every allocated column in use, [scrollImage(n)] for
    [0 < |n| < usedLines] moves the rows as rows: row [y + n] arrives on
    row [y], and the blit is the rectangle of the [usedLines - |n|] rows
    moved, shifted by [-n] rows. *)
Lemma scrollImage_full_width (n : Z) (d : TerminalDisplay)
  (img : list Character) :
  wellFormed d -> _image d = Some img ->
  _usedColumns d = _columns d ->
  0 < Z.abs n < _usedLines d ->
  exists d1 img1,
    scrollImage n d = Some (d1, Some (scrollBlit n d))
    /\ _image d1 = Some img1
    /\ forall x y,
         0 <= x < _columns d ->
         (if n >? 0 then 0 <= y < _usedLines d - n
          else Z.abs n <= y < _usedLines d) ->
         cell img1 (loc d x y) = cell img (loc d x (y + n)).
Proof.
  intros Hwf Himg Hfull Hn.
  exists (set_image (Some (scrolledImage n d img)) d), (scrolledImage n d img).
  split; [apply scrollImage_shift; auto; lia |].
  split; [reflexivity |].
  intros x y Hx Hy. apply scrolledImage_rows; auto; lia.
Qed.

(** Twenty-four rows, all columns in use, shifted by three: rows 3 to 23
    arrive on rows 0 to 20, and the blit is the rectangle of 21 rows at
    the top of the grid, moved up by three rows. *)
Lemma scrollImage_three_of_twenty_four (d : TerminalDisplay)
  (img : list Character) :
  wellFormed d -> _image d = Some img ->
  _usedColumns d = _columns d -> _usedLines d = 24 ->
  exists d1 img1,
    scrollImage 3 d
    = Some (d1, Some (mkScrollCall 0 (_fontHeight d * -3)
                        (mkQRect (_bX d) (_bY d) (_usedColumns d * _fontWidth d)
                                 ((24 - 3) * _fontHeight d))))
    /\ _image d1 = Some img1
    /\ forall x y, 0 <= x < _columns d -> 0 <= y < 21 ->
                   cell img1 (loc d x y) = cell img (loc d x (y + 3)).
Proof.
  intros Hwf Himg Hfull Hrows.
  destruct (scrollImage_full_width 3 d img Hwf Himg Hfull ltac:(simpl; lia))
    as (d1 & img1 & E & I & Hmove).
  exists d1, img1. split; [| split; [exact I |]].
  - rewrite E. unfold scrollBlit. rewrite Hrows. reflexivity.
  - intros x y Hx Hy. apply Hmove; [exact Hx |]. simpl. lia.
Qed.

(** C5, at a display whose screen window is narrower than the widget:
    [scrollImage(3)] moves cells by three used widths, not by three rows
    of the image, and the first used cell of the top row ends up with the
    marker of row 1 where row 3 was to arrive. *)
Theorem scrollImage_narrow_window_scrambles :
  exists d1 b1 img1,
    scrollImage 3 narrowWindow = Some (d1, b1)
    /\ _image d1 = Some img1
    /\ rowCells img1 2 1 0 = [charCell 1]
    /\ rowCells (markedImage 24 2) 2 1 3 = [charCell 3].
Proof.
  do 3 eexists.
  split; [vm_compute; reflexivity |].
  split; [reflexivity |].
  split; reflexivity.
Qed.

(** ** The dirty mask *)

Lemma nth_map_in {A B : Type} (f : A -> B) (l : list A) (k : nat) (d : B) (d' : A) :
  (k < length l)%nat -> nth k (map f l) d = f (nth k l d').
Proof.
  revert k. induction l as [| a l IH]; intros [| k] Hk; simpl in *; try lia; auto.
  apply IH. lia.
Qed.

Lemma length_zset {A : Type} (l : list A) (i : Z) (v : A) :
  length (zset l i v) = length l.
Proof.
  unfold zset. rewrite length_map, length_combine, length_indices. lia.
Qed.

Lemma zth_zset {A : Type} (d : A) (l : list A) (i j : Z) (v : A) :
  zth d (zset l i v) j
  = if (j =? i) && (0 <=? j) && (j <? len l) then v else zth d l j.
Proof.
  unfold zth, len.
  destruct (Z.ltb_spec j 0) as [Hneg | Hpos].
  - replace (0 <=? j) with false by (symmetry; apply Z.leb_gt; lia).
    now rewrite andb_false_r.
  - replace (0 <=? j) with true by (symmetry; apply Z.leb_le; lia).
    rewrite andb_true_r.
    destruct (Z.ltb_spec j (Z.of_nat (length l))) as [Hin | Hout].
    + rewrite andb_true_r. unfold zset.
      rewrite (nth_map_in _ _ _ d (0, d))
        by (rewrite length_combine, length_indices; lia).
      rewrite combine_nth by (now rewrite length_indices).
      simpl. rewrite nth_indices by lia.
      replace (Z.of_nat (Z.to_nat j)) with j by lia. reflexivity.
    + rewrite andb_false_r. rewrite !nth_overflow; auto; try lia.
      rewrite length_zset. lia.
Qed.

Lemma length_markDirty (todo : nat) (x : Z) (d : TerminalDisplay) (y : Z)
  (newLine currentLine : Z -> Character) (m : list Z) :
  length (markDirty todo x d y newLine currentLine m) = length m.
Proof.
  revert x m. induction todo as [| todo IH]; intros x m; simpl; [reflexivity |].
  rewrite IH. destruct (_ || _); [| reflexivity].
  now rewrite !length_zset.
Qed.

Lemma zth_markDirty (todo : nat) (x0 : Z) (d : TerminalDisplay) (y : Z)
  (newLine currentLine : Z -> Character) (m : list Z) (j : Z) :
  zth 0 (markDirty todo x0 d y newLine currentLine m) j <> 0
  <-> zth 0 m j <> 0
      \/ (0 <= j < len m
          /\ exists x, x0 <= x < x0 + Z.of_nat todo
                       /\ columnDirty d y newLine currentLine x = true
                       /\ x <= j <= x + 2).
Proof.
  revert x0 m. induction todo as [| todo IH]; intros x0 m.
  - simpl. split; [tauto |]. intros [H | (_ & x & Hx & _)]; [exact H | lia].
  - cbn [markDirty]. rewrite IH. fold (columnDirty d y newLine currentLine x0).
    destruct (columnDirty d y newLine currentLine x0) eqn:Hc.
    + unfold len. rewrite !length_zset. fold (len m).
      rewrite !zth_zset. unfold len. rewrite !length_zset. fold (len m).
      split.
      * intros [H | (Hj & x & Hx & Hd & Hr)].
        -- destruct ((j =? x0 + 2) && (0 <=? j) && (j <? len m)) eqn:E2;
             [boolZ; right; split; [lia |]; exists x0; repeat split; auto; lia |].
           destruct ((j =? x0 + 1) && (0 <=? j) && (j <? len m)) eqn:E1;
             [boolZ; right; split; [lia |]; exists x0; repeat split; auto; lia |].
           destruct ((j =? x0) && (0 <=? j) && (j <? len m)) eqn:E0;
             [boolZ; right; split; [lia |]; exists x0; repeat split; auto; lia |].
           now left.
        -- right. split; [exact Hj |]. exists x. repeat split; auto; lia.
      * intros [H | (Hj & x & Hx & Hd & Hr)].
        -- left.
           destruct ((j =? x0 + 2) && (0 <=? j) && (j <? len m)); [lia |].
           destruct ((j =? x0 + 1) && (0 <=? j) && (j <? len m)); [lia |].
           destruct ((j =? x0) && (0 <=? j) && (j <? len m)); [lia | exact H].
        -- destruct (Z.eq_dec x x0) as [-> | Hne].
           ++ left.
              destruct (Z.eqb_spec j (x0 + 2)); destruct (Z.eqb_spec j (x0 + 1));
                destruct (Z.eqb_spec j x0);
                replace (0 <=? j) with true by (symmetry; apply Z.leb_le; lia);
                replace (j <? len m) with true by (symmetry; apply Z.ltb_lt; lia);
                simpl; lia.
           ++ right. split; [exact Hj |]. exists x. repeat split; auto; lia.
    + split.
      * intros [H | (Hj & x & Hx & Hd & Hr)]; [now left |].
        right. split; [exact Hj |]. exists x. repeat split; auto; lia.
      * intros [H | (Hj & x & Hx & Hd & Hr)]; [now left |].
        right. split; [exact Hj |].
        destruct (Z.eq_dec x x0) as [-> | Hne]; [congruence |].
        exists x. repeat split; auto; lia.
Qed.

(** ** The scan of a row *)

Lemma runLength_ge (todo : nat) (len p lln x : Z) (newLine : Z -> Character)
  (m : list Z) (c : Z) (cf cb : CharacterColor) (cr : Z) (ld dw : bool) :
  len <= fst (runLength todo len p lln x newLine m c cf cb cr ld dw).
Proof.
  revert len p. induction todo as [| todo IH]; intros len p; cbn [runLength].
  - simpl. lia.
  - destruct (len <? lln); [| simpl; lia].
    destruct (character (newLine (x + len)) =? 0).
    + specialize (IH (len + 1) p). lia.
    + destruct (_ || _); [simpl; lia |].
      specialize (IH (len + 1) (p + 1)). lia.
Qed.

(** Once set, [updateLine] stays set. *)
Lemma scanLine_updateLine_kept (todo : nat) (x : Z) (d : TerminalDisplay)
  (y ctu : Z) (newLine : Z -> Character) (m : list Z) (r : ScanResult) :
  scan_updateLine r = true ->
  scan_updateLine (scanLine todo x d y ctu newLine m r) = true.
Proof.
  revert x r. induction todo as [| todo IH]; intros x r Hr; cbn [scanLine].
  - exact Hr.
  - destruct (x <? ctu); [| exact Hr].
    destruct (negb (maskAt m x =? 0)).
    + destruct (character (newLine x) =? 0).
      * apply IH. exact Hr.
      * destruct (runLength _ _ _ _ _ _ _ _ _ _ _ _ _) as [len p].
        apply IH. reflexivity.
    + apply IH. exact Hr.
Qed.

(** A row without a dirty column that holds a character leaves
    [updateLine] as it was. *)
Lemma scanLine_clean (todo : nat) (x : Z) (d : TerminalDisplay)
  (y ctu : Z) (newLine : Z -> Character) (m : list Z) (r : ScanResult) :
  (forall x', x <= x' < ctu ->
              maskAt m x' = 0 \/ character (newLine x') = 0) ->
  scan_updateLine (scanLine todo x d y ctu newLine m r) = scan_updateLine r.
Proof.
  revert x r. induction todo as [| todo IH]; intros x r Hclean; cbn [scanLine].
  - reflexivity.
  - destruct (x <? ctu) eqn:Hx; [| reflexivity]. boolZ.
    destruct (negb (maskAt m x =? 0)) eqn:Hm.
    + destruct (character (newLine x) =? 0) eqn:Hc.
      * rewrite IH; [reflexivity |]. intros x' Hx'. apply Hclean. lia.
      * boolZ. destruct (Hclean x) as [H | H]; [lia | congruence | congruence].
    + rewrite IH; [reflexivity |]. intros x' Hx'. apply Hclean. lia.
Qed.

(** A dirty column that holds a character sets [updateLine]. *)
Lemma scanLine_dirty (todo : nat) (x : Z) (d : TerminalDisplay)
  (y ctu : Z) (newLine : Z -> Character) (m : list Z) (r : ScanResult)
  (x' : Z) :
  x <= x' < ctu -> (Z.to_nat (ctu - x) <= todo)%nat ->
  maskAt m x' <> 0 -> character (newLine x') <> 0 ->
  scan_updateLine (scanLine todo x d y ctu newLine m r) = true.
Proof.
  revert x r. induction todo as [| todo IH]; intros x r Hx Hfuel Hm Hc.
  - lia.
  - cbn [scanLine].
    replace (x <? ctu) with true by (symmetry; apply Z.ltb_lt; lia).
    destruct (negb (maskAt m x =? 0)) eqn:Hmx.
    + destruct (character (newLine x) =? 0) eqn:Hcx.
      * boolZ. apply IH; auto; try lia.
        assert (x <> x') by congruence. lia.
      * destruct (runLength _ _ _ _ _ _ _ _ _ _ _ _ _) as [len p].
        apply scanLine_updateLine_kept. reflexivity.
    + boolZ. apply IH; auto; try lia.
      assert (x <> x') by congruence. lia.
Qed.

(** The scan does not depend on the iterations allowed beyond the
    columns that remain. *)
Lemma scanLine_fuel (f1 f2 : nat) (x : Z) (d : TerminalDisplay)
  (y ctu : Z) (newLine : Z -> Character) (m : list Z) (r : ScanResult) :
  (Z.to_nat (ctu - x) <= f1)%nat -> (Z.to_nat (ctu - x) <= f2)%nat ->
  scanLine f1 x d y ctu newLine m r = scanLine f2 x d y ctu newLine m r.
Proof.
  revert f2 x r. induction f1 as [| f1 IH]; intros f2 x r H1 H2.
  - destruct f2; cbn [scanLine]; [reflexivity |].
    replace (x <? ctu) with false by (symmetry; apply Z.ltb_ge; lia). reflexivity.
  - destruct f2 as [| f2]; cbn [scanLine].
    + replace (x <? ctu) with false by (symmetry; apply Z.ltb_ge; lia). reflexivity.
    + destruct (x <? ctu) eqn:Hx; [| reflexivity]. boolZ.
      destruct (negb (maskAt m x =? 0)).
      * destruct (character (newLine x) =? 0).
        -- apply IH; lia.
        -- pose proof (runLength_ge (Z.to_nat (ctu - x)) 1 1 (ctu - x) x newLine m
                         (character (newLine x)) (foregroundColor (newLine x))
                         (backgroundColor (newLine x)) (rendition (newLine x))
                         (isLineChar (character (newLine x)))
                         (character (newLine (x + 1)) =? 0)) as Hge.
           destruct (runLength _ _ _ _ _ _ _ _ _ _ _ _ _) as [len p].
           simpl in Hge. apply IH; lia.
      * apply IH; lia.
Qed.

(** ** The loop over the rows *)

Lemma markDirty_ext (todo : nat) (x0 : Z) (d : TerminalDisplay) (y : Z)
  (newLine cur1 cur2 : Z -> Character) (m : list Z) :
  (forall x, x0 <= x < x0 + Z.of_nat todo -> cur1 x = cur2 x) ->
  markDirty todo x0 d y newLine cur1 m = markDirty todo x0 d y newLine cur2 m.
Proof.
  revert x0 m. induction todo as [| todo IH]; intros x0 m H; cbn [markDirty].
  - reflexivity.
  - rewrite (H x0) by lia. apply IH. intros x Hx. apply H. lia.
Qed.

(** The flag [updateLine] found by the scan depends on its start value
    only. *)
Lemma scanLine_updateLine_indep (todo : nat) (x : Z) (d : TerminalDisplay)
  (y ctu : Z) (newLine : Z -> Character) (m : list Z) (r r' : ScanResult) :
  scan_updateLine r = scan_updateLine r' ->
  scan_updateLine (scanLine todo x d y ctu newLine m r)
  = scan_updateLine (scanLine todo x d y ctu newLine m r').
Proof.
  revert x r r'. induction todo as [| todo IH]; intros x r r' H; cbn [scanLine].
  - exact H.
  - destruct (x <? ctu); [| exact H].
    destruct (negb (maskAt m x =? 0)).
    + destruct (character (newLine x) =? 0).
      * apply IH. exact H.
      * destruct (runLength _ _ _ _ _ _ _ _ _ _ _ _ _) as [len p].
        apply IH. reflexivity.
    + apply IH. exact H.
Qed.

Lemma rowScan_updateLine_indep (d : TerminalDisplay) (newLine : Z -> Character)
  (m : list Z) (ctu y : Z) (r r' : ScanResult) :
  scan_updateLine r = scan_updateLine r' ->
  scan_updateLine (rowScan d newLine m ctu y r)
  = scan_updateLine (rowScan d newLine m ctu y r').
Proof.
  intros H. unfold rowScan. destruct (_resizing d); [exact H |].
  now apply scanLine_updateLine_indep.
Qed.

Lemma rowDirty_ext (d : TerminalDisplay) (newimg : list Character)
  (wc ctu : Z) (img1 img2 : list Character) (y : Z) :
  (forall x, 0 <= x < ctu ->
             cell img1 (y * _columns d + x) = cell img2 (y * _columns d + x)) ->
  rowDirty d newimg wc ctu img1 y = rowDirty d newimg wc ctu img2 y.
Proof.
  intros H. unfold rowDirty, rowMask.
  rewrite (markDirty_ext _ _ _ _ _ _ (fun x => cell img2 (y * _columns d + x))).
  - reflexivity.
  - intros x Hx. apply H. lia.
Qed.

(** What one row does to the image and to the dirty region. *)
Lemma updateRow_image (d : TerminalDisplay) (newimg : list Character)
  (wc ctu y : Z) (s : RowsState) :
  rows_image (updateRow d newimg wc ctu y s)
  = memcpy (rows_image s) newimg (y * _columns d) (y * wc) ctu.
Proof. reflexivity. Qed.

Lemma updateRow_region (d : TerminalDisplay) (newimg : list Character)
  (wc ctu y : Z) (s : RowsState) :
  rows_dirtyRegion (updateRow d newimg wc ctu y s)
  = if rowDirty d newimg wc ctu (rows_image s) y
    then rows_dirtyRegion s ++ [dirtyRect d ctu y]
    else rows_dirtyRegion s.
Proof.
  unfold updateRow, rowDirty. cbn [rows_dirtyRegion].
  rewrite (rowScan_updateLine_indep d _ _ ctu y _
             (mkScanResult false false false false)) by reflexivity.
  reflexivity.
Qed.

Lemma rowsFrom_S (y0 : Z) (n : nat) :
  rowsFrom y0 (S n) = y0 :: rowsFrom (y0 + 1) n.
Proof.
  unfold rowsFrom. rewrite <- cons_seq, <- seq_shift. simpl.
  f_equal; [lia |]. rewrite map_map. apply map_ext. intros k. lia.
Qed.

Lemma in_rowsFrom (y0 : Z) (n : nat) (y : Z) :
  In y (rowsFrom y0 n) <-> y0 <= y < y0 + Z.of_nat n.
Proof.
  unfold rowsFrom. rewrite in_map_iff. split.
  - intros (k & <- & Hk). apply in_seq in Hk. lia.
  - intros H. exists (Z.to_nat (y - y0)). split; [lia |]. apply in_seq. lia.
Qed.

(** The rows of the image that the loop has not reached are as before. *)
Lemma updateRows_image_other (todo : nat) (y0 : Z) (d : TerminalDisplay)
  (newimg : list Character) (wc ctu : Z) (s : RowsState) (i : Z) :
  0 <= ctu <= _columns d ->
  (forall y, y0 <= y < y0 + Z.of_nat todo ->
             ~ (y * _columns d <= i < y * _columns d + ctu)) ->
  cell (rows_image (updateRows todo y0 d newimg wc ctu s)) i
  = cell (rows_image s) i.
Proof.
  intros Hctu. revert y0 s. induction todo as [| todo IH]; intros y0 s H.
  - reflexivity.
  - cbn [updateRows]. rewrite IH by (intros y Hy; apply H; lia).
    rewrite updateRow_image. unfold memcpy. rewrite cell_copyCells.
    specialize (H y0 ltac:(lia)).
    destruct (y0 * _columns d <=? i) eqn:E1;
      destruct (i <? y0 * _columns d + ctu) eqn:E2; simpl; try reflexivity.
    boolZ. lia.
Qed.

Lemma len_updateRows (todo : nat) (y0 : Z) (d : TerminalDisplay)
  (newimg : list Character) (wc ctu : Z) (s : RowsState) :
  len (rows_image (updateRows todo y0 d newimg wc ctu s)) = len (rows_image s).
Proof.
  revert y0 s. induction todo as [| todo IH]; intros y0 s; cbn [updateRows].
  - reflexivity.
  - rewrite IH, updateRow_image. apply len_copyCells.
Qed.

(** The rows the loop has gone over hold the incoming cells. *)
Lemma updateRows_image_copied (todo : nat) (y0 : Z) (d : TerminalDisplay)
  (newimg : list Character) (wc ctu : Z) (s : RowsState) (x y : Z) :
  0 <= ctu <= _columns d ->
  y0 <= y < y0 + Z.of_nat todo -> 0 <= x < ctu ->
  0 <= y * _columns d + x < len (rows_image s) ->
  cell (rows_image (updateRows todo y0 d newimg wc ctu s)) (y * _columns d + x)
  = cell newimg (y * wc + x).
Proof.
  intros Hctu. revert y0 s. induction todo as [| todo IH]; intros y0 s Hy Hx Hin.
  - lia.
  - cbn [updateRows]. destruct (Z.eq_dec y y0) as [-> | Hne].
    + rewrite updateRows_image_other; auto.
      * rewrite updateRow_image. unfold memcpy. rewrite cell_copyCells.
        replace ((y0 * _columns d <=? y0 * _columns d + x)
                 && (y0 * _columns d + x <? y0 * _columns d + ctu)
                 && (0 <=? y0 * _columns d + x)
                 && (y0 * _columns d + x <? len (rows_image s))) with true
          by (symmetry; rewrite !andb_true_iff, !Z.leb_le, !Z.ltb_lt; lia).
        f_equal. lia.
      * intros y Hy'. nia.
    + apply IH; auto; try lia.
      rewrite updateRow_image. unfold memcpy. rewrite len_copyCells. exact Hin.
Qed.

(** The dirty region after the loop: one rectangle for each dirty row, in
    the order of the rows. *)
Lemma updateRows_region (todo : nat) (y0 : Z) (d : TerminalDisplay)
  (newimg : list Character) (wc ctu : Z) (s : RowsState) :
  0 <= ctu <= _columns d ->
  rows_dirtyRegion (updateRows todo y0 d newimg wc ctu s)
  = rows_dirtyRegion s
    ++ map (dirtyRect d ctu)
           (filter (rowDirty d newimg wc ctu (rows_image s)) (rowsFrom y0 todo)).
Proof.
  intros Hctu. revert y0 s. induction todo as [| todo IH]; intros y0 s.
  - simpl. now rewrite app_nil_r.
  - cbn [updateRows]. rewrite IH, updateRow_region, rowsFrom_S. cbn [filter].
    assert (Hsame :
      filter (rowDirty d newimg wc ctu
                (rows_image (updateRow d newimg wc ctu y0 s))) (rowsFrom (y0 + 1) todo)
      = filter (rowDirty d newimg wc ctu (rows_image s)) (rowsFrom (y0 + 1) todo)).
    { apply filter_ext_in. intros y Hy. apply in_rowsFrom in Hy.
      apply rowDirty_ext. intros x Hx.
      rewrite updateRow_image. unfold memcpy. rewrite cell_copyCells.
      destruct (y0 * _columns d <=? y * _columns d + x) eqn:E1;
        destruct (y * _columns d + x <? y0 * _columns d + ctu) eqn:E2;
        simpl; try reflexivity.
      boolZ. nia. }
    rewrite Hsame.
    destruct (rowDirty d newimg wc ctu (rows_image s) y0).
    + cbn [map]. now rewrite <- app_assoc.
    + reflexivity.
Qed.

(** ** The whole update *)

Lemma markDirty_sameGrid (todo : nat) (x : Z) (d d' : TerminalDisplay) (y : Z)
  (newLine cur : Z -> Character) (m : list Z) :
  sameGrid d d' ->
  markDirty todo x d y newLine cur m = markDirty todo x d' y newLine cur m.
Proof.
  intros (_ & _ & _ & H1 & H2 & H3 & H4 & H5 & H6 & _).
  revert x m. induction todo as [| todo IH]; intros x m; cbn [markDirty].
  - reflexivity.
  - unfold imDirty. rewrite H1, H2, H3, H4, H5, H6. apply IH.
Qed.

Lemma scanLine_sameGrid (todo : nat) (x : Z) (d d' : TerminalDisplay)
  (y ctu : Z) (newLine : Z -> Character) (m : list Z) (r : ScanResult) :
  sameGrid d d' ->
  scanLine todo x d y ctu newLine m r = scanLine todo x d' y ctu newLine m r.
Proof.
  intros (_ & _ & _ & H1 & H2 & H3 & H4 & H5 & H6 & _).
  revert x r. induction todo as [| todo IH]; intros x r; cbn [scanLine].
  - reflexivity.
  - rewrite H2, H3, H4, H5, H6.
    destruct (x <? ctu); [| reflexivity].
    destruct (negb (maskAt m x =? 0)); [| apply IH].
    destruct (character (newLine x) =? 0); [apply IH |].
    destruct (runLength _ _ _ _ _ _ _ _ _ _ _ _ _) as [len p]. apply IH.
Qed.

Lemma updateRow_sameGrid (d d' : TerminalDisplay) (newimg : list Character)
  (wc ctu y : Z) (s : RowsState) :
  sameGrid d d' ->
  updateRow d newimg wc ctu y s = updateRow d' newimg wc ctu y s.
Proof.
  intros H. pose proof H as (Hc & Hr & Hp & _ & _ & _ & _ & _ & _
                              & Hx & Hy & Hcr & Hfw & Hfh).
  unfold updateRow, rowMask, rowScan, rowUpdateLine, dirtyRect.
  rewrite (markDirty_sameGrid _ _ d d') by exact H.
  rewrite (scanLine_sameGrid _ _ d d') by exact H.
  rewrite Hc, Hr, Hp, Hx, Hy, Hcr, Hfw, Hfh. reflexivity.
Qed.

Lemma updateRows_sameGrid (todo : nat) (y : Z) (d d' : TerminalDisplay)
  (newimg : list Character) (wc ctu : Z) (s : RowsState) :
  sameGrid d d' ->
  updateRows todo y d newimg wc ctu s = updateRows todo y d' newimg wc ctu s.
Proof.
  intros H. revert y s. induction todo as [| todo IH]; intros y s;
    cbn [updateRows]; [reflexivity |].
  rewrite (updateRow_sameGrid d d') by exact H. apply IH.
Qed.

Lemma set_image_same (d : TerminalDisplay) : set_image (_image d) d = d.
Proof. destruct d. reflexivity. Qed.

Lemma scrollImage_allocated (n : Z) (d : TerminalDisplay) (img : list Character) :
  wellFormed d -> _image d = Some img ->
  scrollImage n d
  = Some (set_image (Some (shiftedImage n d img)) d, shiftBlit n d).
Proof.
  intros Hwf Himg. unfold shiftedImage, shiftBlit.
  destruct ((n =? 0) || (Z.abs n >=? _usedLines d)) eqn:E.
  - rewrite <- Himg, set_image_same. unfold scrollImage.
    destruct (n =? 0); [reflexivity |]. simpl in E. rewrite E.
    destruct (_image d); reflexivity.
  - apply orb_false_iff in E. destruct E as [E1 E2]. boolZ.
    apply scrollImage_shift; auto; lia.
Qed.

Lemma len_shiftedImage (n : Z) (d : TerminalDisplay) (img : list Character) :
  len (shiftedImage n d img) = len img.
Proof.
  unfold shiftedImage. destruct (_ || _); [reflexivity | apply len_scrolledImage].
Qed.

Lemma setScroll_fields (cursor slines : Z) (d : TerminalDisplay) :
  _image (setScroll cursor slines d) = _image d
  /\ _screenWindow (setScroll cursor slines d) = _screenWindow d
  /\ _lines (setScroll cursor slines d) = _lines d
  /\ _usedLines (setScroll cursor slines d) = _usedLines d
  /\ _usedColumns (setScroll cursor slines d) = _usedColumns d
  /\ _imageSize (setScroll cursor slines d) = _imageSize d
  /\ _isIMEdit (setScroll cursor slines d) = _isIMEdit d
  /\ _isIMSel (setScroll cursor slines d) = _isIMSel d
  /\ sameGrid (setScroll cursor slines d) d.
Proof.
  unfold setScroll, sameGrid. destruct (_ && _); simpl; repeat split; reflexivity.
Qed.

Lemma sameGrid_refl (d : TerminalDisplay) : sameGrid d d.
Proof. unfold sameGrid. repeat split; reflexivity. Qed.

Lemma sameGrid_trans (a b c : TerminalDisplay) :
  sameGrid a b -> sameGrid b c -> sameGrid a c.
Proof. unfold sameGrid. intuition congruence. Qed.

Lemma diffImage_spec (d : TerminalDisplay) (newimg : list Character)
  (lines columns : Z) (img : list Character) (blit : option ScrollCall) :
  let ltu := Z.min (_lines d) (Z.max 0 lines) in
  let ctu := Z.min (_columns d) (Z.max 0 columns) in
  let s := updateRows (Z.to_nat ltu) 0 d newimg columns ctu
             (mkRowsState img false (_isIMEdit d) (_isIMSel d) []) in
  exists d',
    diffImage d newimg lines columns img blit
    = (d', mkUpdateOutput blit (rows_dirtyRegion s ++ staleRectsAt d ltu ctu))
    /\ _image d' = Some (rows_image s)
    /\ _lines d' = _lines d /\ _columns d' = _columns d
    /\ _usedLines d' = ltu /\ _usedColumns d' = ctu
    /\ _imageSize d' = _imageSize d.
Proof.
  intros ltu ctu s. unfold diffImage. cbv zeta.
  assert (Hs : updateRows (Z.to_nat ltu) 0 (set_hasBlinker false d) newimg
                 columns ctu
                 (mkRowsState img false (_isIMEdit d) (_isIMSel d) []) = s).
  { apply updateRows_sameGrid. unfold sameGrid. simpl. repeat split; reflexivity. }
  cbn [_lines _columns _hasBlinker _isIMEdit _isIMSel _usedLines _usedColumns
       _bX _bY _fontHeight _fontWidth contentsRect set_hasBlinker].
  fold ltu ctu. rewrite Hs.
  eexists. split.
  - f_equal. f_equal. unfold staleRectsAt, QRegion_unite.
    destruct (ltu <? _usedLines d); destruct (ctu <? _usedColumns d);
      rewrite <- ?app_assoc, ?app_nil_r; reflexivity.
  - simpl. repeat split; reflexivity.
Qed.

Section UpdateProperties.

Variable env : Collaborators.

Lemma updateImage_allocated (d : TerminalDisplay) (img : list Character) :
  wellFormed d -> _image d = Some img ->
  exists d',
    updateImage env d
    = Some (d', mkUpdateOutput (shiftBlit (scrollCount (_screenWindow d)) d)
                  (rows_dirtyRegion (updatedRows d img) ++ staleRects d))
    /\ _image d' = Some (rows_image (updatedRows d img))
    /\ _lines d' = _lines d /\ _columns d' = _columns d
    /\ _usedLines d' = linesToUpdate d /\ _usedColumns d' = columnsToUpdate d
    /\ _imageSize d' = _imageSize d.
Proof.
  intros Hwf Himg.
  pose proof Hwf as (Hl & Hc & Hul & Huc & Hsize).
  unfold updateImage.
  rewrite (scrollImage_allocated _ d img Hwf Himg).
  set (A := shiftedImage (scrollCount (_screenWindow d)) d img).
  set (d2 := set_screenWindow _ _).
  set (d3 := setScroll _ _ d2).
  destruct (setScroll_fields (currentLine (_screenWindow d2))
              (lineCount (_screenWindow d2)) d2)
    as (F1 & F2 & F3 & F4 & F5 & F6 & F7 & F8 & F9).
  fold d3 in F1, F2, F3, F4, F5, F6, F7, F8, F9.
  assert (G : sameGrid d3 d).
  { apply (sameGrid_trans _ d2); [exact F9 |].
    unfold sameGrid, d2. simpl. repeat split; reflexivity. }
  pose proof G as (Gc & _).
  rewrite F1. simpl (_image d2). cbv beta iota.
  rewrite F4, F3, F5, Gc. simpl (_usedLines d2). simpl (_lines d2).
  simpl (_usedColumns d2).
  replace (_usedLines d <=? _lines d) with true by (symmetry; apply Z.leb_le; lia).
  replace (_usedColumns d <=? _columns d) with true
    by (symmetry; apply Z.leb_le; lia).
  simpl (assert true). cbv beta iota.
  destruct (diffImage_spec d3 (getImage (_screenWindow d2))
              (windowLines (_screenWindow d2)) (windowColumns (_screenWindow d2))
              A (shiftBlit (scrollCount (_screenWindow d)) d))
    as (d' & E & I1 & I2 & I3 & I4 & I5 & I6).
  exists d'. rewrite F1. simpl (_image d2). cbv beta iota. rewrite E.
  assert (Hrows :
    updateRows (Z.to_nat (Z.min (_lines d3) (Z.max 0 (windowLines (_screenWindow d2)))))
      0 d3 (getImage (_screenWindow d2)) (windowColumns (_screenWindow d2))
      (Z.min (_columns d3) (Z.max 0 (windowColumns (_screenWindow d2))))
      (mkRowsState A false (_isIMEdit d3) (_isIMSel d3) [])
    = updatedRows d img).
  { rewrite (updateRows_sameGrid _ _ d3 d) by exact G.
    rewrite F3, Gc, F7, F8. reflexivity. }
  rewrite Hrows in *.
  split.
  - f_equal. f_equal. f_equal. f_equal.
    destruct G as (G1 & _ & _ & _ & _ & _ & _ & _ & _ & G2 & G3 & G4 & G5 & G6).
    unfold staleRectsAt, staleRects, linesToUpdate, columnsToUpdate.
    rewrite F3, F4, F5, G1, G2, G3, G4, G5, G6. reflexivity.
  - rewrite I1, I2, I3, I4, I5, I6, F3, Gc, F6. repeat split; reflexivity.
Qed.

End UpdateProperties.


(** ** What the update reports and copies *)

Lemma len_repeat {A : Type} (a : A) (n : nat) : len (repeat a n) = Z.of_nat n.
Proof. unfold len. now rewrite repeat_length. Qed.

Lemma len_rowMask (d : TerminalDisplay) (newLine cur : Z -> Character)
  (ctu y : Z) : 0 <= ctu -> len (rowMask d newLine cur ctu y) = ctu + 2.
Proof.
  intros H. unfold rowMask, len. rewrite length_markDirty, repeat_length. lia.
Qed.

Lemma zth_repeat_zero (n : nat) (j : Z) : zth 0 (repeat 0 n) j = 0.
Proof.
  unfold zth. destruct (j <? 0); [reflexivity |].
  destruct (Nat.lt_ge_cases (Z.to_nat j) n) as [H | H].
  - now apply nth_repeat_lt.
  - apply nth_overflow. now rewrite repeat_length.
Qed.

(** The mask after [dirtyMask++]: column [x] is set exactly when a dirty
    column lies at most one column away. *)
Lemma maskAt_rowMask (d : TerminalDisplay) (newLine cur : Z -> Character)
  (ctu y x : Z) :
  0 <= ctu ->
  (maskAt (rowMask d newLine cur ctu y) x <> 0
   <-> exists x', 0 <= x' < ctu
                  /\ columnDirty d y newLine cur x' = true
                  /\ x' - 1 <= x <= x' + 1).
Proof.
  intros Hctu. unfold maskAt, rowMask. rewrite zth_markDirty.
  rewrite zth_repeat_zero, len_repeat. split.
  - intros [H | (Hj & x' & Hx' & Hd & Hr)]; [lia |].
    exists x'. repeat split; auto; lia.
  - intros (x' & Hx' & Hd & Hr). right. split; [lia |].
    exists x'. repeat split; auto; lia.
Qed.

(** A row is found dirty when a dirty column or one of its neighbours
    holds a character and no resize is in progress. *)
Lemma rowDirty_changed (d : TerminalDisplay) (newimg : list Character)
  (wc ctu : Z) (img : list Character) (x x' y : Z) :
  _resizing d = false ->
  0 <= x < ctu -> 0 <= x' < ctu -> x - 1 <= x' <= x + 1 ->
  columnDirty d y (fun x => cell newimg (y * wc + x))
                  (fun x => cell img (y * _columns d + x)) x = true ->
  character (cell newimg (y * wc + x')) <> 0 ->
  rowDirty d newimg wc ctu img y = true.
Proof.
  intros Hres Hx Hx' Hnear Hdirty Hchar.
  unfold rowDirty, rowScan. rewrite Hres.
  rewrite (scanLine_dirty _ _ _ _ _ _ _ _ x'); auto; try lia.
  - unfold rowUpdateLine. destruct (_ >? _); reflexivity.
  - apply maskAt_rowMask; [lia |]. exists x. repeat split; auto; lia.
Qed.

(** A row without a dirty column and without the double-height flag is
    not found dirty. *)
Lemma rowDirty_unchanged (d : TerminalDisplay) (newimg : list Character)
  (wc ctu : Z) (img : list Character) (y : Z) :
  0 <= ctu ->
  (forall x, 0 <= x < ctu ->
             columnDirty d y (fun x => cell newimg (y * wc + x))
                             (fun x => cell img (y * _columns d + x)) x = false) ->
  Z.land (zth 0 (_lineProperties d) y) LINE_DOUBLEHEIGHT = 0 ->
  rowDirty d newimg wc ctu img y = false.
Proof.
  intros Hctu Hclean Hflag. unfold rowDirty, rowScan, rowUpdateLine.
  rewrite Hflag. simpl (negb (0 =? 0)).
  assert (Hscan : forall r, scan_updateLine r = false ->
            scan_updateLine
              (if _resizing d then r
               else scanLine (Z.to_nat ctu) 0 d y ctu
                      (fun x => cell newimg (y * wc + x))
                      (rowMask d (fun x => cell newimg (y * wc + x))
                               (fun x => cell img (y * _columns d + x)) ctu y) r)
            = false).
  { intros r Hr. destruct (_resizing d); [exact Hr |].
    rewrite scanLine_clean; [exact Hr |].
    intros x Hx. left.
    destruct (Z.eq_dec (maskAt (rowMask d (fun x => cell newimg (y * wc + x))
                (fun x => cell img (y * _columns d + x)) ctu y) x) 0) as [E | E];
      [exact E |].
    apply maskAt_rowMask in E; [| exact Hctu].
    destruct E as (x' & Hx' & Hd & _). rewrite Hclean in Hd by exact Hx'.
    discriminate. }
  rewrite Hscan by reflexivity. rewrite orb_false_r. destruct (_ >? _); reflexivity.
Qed.

Lemma cellRect_inside_dirtyRect (d : TerminalDisplay) (ctu x y : Z) :
  0 <= _fontWidth d -> 0 <= x < ctu ->
  QRect_inside (cellRect d x y) (dirtyRect d ctu y).
Proof.
  intros Hfw Hx. unfold QRect_inside, cellRect, dirtyRect. simpl.
  repeat split; nia.
Qed.

Section UpdateClaims.

Variable env : Collaborators.

(** C1.  After [updateImage] on a display with an image, every cell of
    the displayed image in the first [linesToUpdate] rows and
    [columnsToUpdate] columns equals the cell of the incoming image at
    the same row and column. *)
Theorem updateImage_copies_incoming (d : TerminalDisplay) (A : list Character) :
  wellFormed d -> _image d = Some A ->
  exists d' out img',
    updateImage env d = Some (d', out)
    /\ _image d' = Some img'
    /\ forall x y,
         0 <= y < linesToUpdate d -> 0 <= x < columnsToUpdate d ->
         cell img' (loc d' x y)
         = cell (getImage (_screenWindow d))
                (y * windowColumns (_screenWindow d) + x).
Proof.
  intros Hwf HA.
  destruct (updateImage_allocated env d A Hwf HA)
    as (d' & E & I1 & I2 & I3 & I4 & I5 & I6).
  destruct Hwf as (Hl & Hc & Hul & Huc & Hsize).
  destruct (Hsize A HA) as [Hsz Hlen].
  exists d', (mkUpdateOutput (shiftBlit (scrollCount (_screenWindow d)) d)
                (rows_dirtyRegion (updatedRows d A) ++ staleRects d)),
    (rows_image (updatedRows d A)).
  split; [exact E |]. split; [exact I1 |].
  intros x y Hy Hx. unfold loc. rewrite I3. unfold updatedRows.
  unfold linesToUpdate, columnsToUpdate in *.
  apply updateRows_image_copied; cbn [rows_image]; try lia.
  unfold comparedImage. rewrite len_shiftedImage. nia.
Qed.

(** C2, as the code has it.  While no resize is in progress, a cell of
    the updated rows and columns at which the incoming image differs from
    the displayed one lies in the dirty region whenever that cell or a
    cell next to it in the incoming row holds a character: the row's
    rectangle, which spans the updated columns, is part of the region. *)
Theorem updateImage_reports_changes (d : TerminalDisplay) (A : list Character) :
  wellFormed d -> _image d = Some A -> _resizing d = false ->
  exists d' out,
    updateImage env d = Some (d', out)
    /\ forall x y,
         0 <= y < linesToUpdate d -> 0 <= x < columnsToUpdate d ->
         let B := fun x => cell (getImage (_screenWindow d))
                                (y * windowColumns (_screenWindow d) + x) in
         Character_neqb (B x) (cell (comparedImage d A) (loc d x y)) = true ->
         character (B x) <> 0
         \/ (0 < x /\ character (B (x - 1)) <> 0)
         \/ (x + 1 < columnsToUpdate d /\ character (B (x + 1)) <> 0) ->
         In (dirtyRect d (columnsToUpdate d) y) (out_dirtyRegion out)
         /\ (0 <= _fontWidth d ->
             QRect_inside (cellRect d x y)
                          (dirtyRect d (columnsToUpdate d) y)).
Proof.
  intros Hwf HA Hres.
  destruct (updateImage_allocated env d A Hwf HA)
    as (d' & E & _).
  destruct Hwf as (Hl & Hc & Hul & Huc & Hsize).
  eexists d', _. split; [exact E |].
  intros x y Hy Hx B Hdiff Hchar. split.
  - cbn [out_dirtyRegion]. apply in_or_app. left.
    unfold updatedRows. rewrite updateRows_region
      by (unfold columnsToUpdate; lia).
    cbn [rows_dirtyRegion rows_image app]. apply in_map.
    apply filter_In. split; [apply in_rowsFrom; lia |].
    assert (Hcol : columnDirty d y
              (fun x => cell (getImage (_screenWindow d))
                             (y * windowColumns (_screenWindow d) + x))
              (fun x => cell (comparedImage d A) (y * _columns d + x)) x = true).
    { unfold columnDirty. unfold loc, B in Hdiff. rewrite Hdiff.
      apply orb_true_r. }
    destruct Hchar as [Hc0 | [(Hx1 & Hc1) | (Hx1 & Hc1)]].
    + apply (rowDirty_changed d _ _ _ _ x x); auto; lia.
    + apply (rowDirty_changed d _ _ _ _ x (x - 1)); auto; lia.
    + apply (rowDirty_changed d _ _ _ _ x (x + 1)); auto; lia.
  - intros Hfw. now apply cellRect_inside_dirtyRect.
Qed.

End UpdateClaims.

Lemma updateImage_copies_incoming_witness :
  wellFormed threeRowsUpdate
  /\ _image threeRowsUpdate = Some (markedImage 3 2)
  /\ exists d' out img',
       updateImage plain threeRowsUpdate = Some (d', out)
       /\ _image d' = Some img'
       /\ forall x y,
            0 <= y < linesToUpdate threeRowsUpdate ->
            0 <= x < columnsToUpdate threeRowsUpdate ->
            cell img' (loc d' x y)
            = cell (getImage (_screenWindow threeRowsUpdate))
                   (y * windowColumns (_screenWindow threeRowsUpdate) + x).
Proof.
  split; [wellFormed_concrete |]. split; [reflexivity |].
  apply (updateImage_copies_incoming plain threeRowsUpdate (markedImage 3 2)).
  - wellFormed_concrete.
  - reflexivity.
Defined.

Lemma updateImage_reports_changes_witness :
  wellFormed threeRowsUpdate
  /\ _image threeRowsUpdate = Some (markedImage 3 2)
  /\ _resizing threeRowsUpdate = false
  /\ exists d' out,
       updateImage plain threeRowsUpdate = Some (d', out)
       /\ forall x y,
            0 <= y < linesToUpdate threeRowsUpdate ->
            0 <= x < columnsToUpdate threeRowsUpdate ->
            let B := fun x => cell (getImage (_screenWindow threeRowsUpdate))
                       (y * windowColumns (_screenWindow threeRowsUpdate) + x) in
            Character_neqb (B x)
              (cell (comparedImage threeRowsUpdate (markedImage 3 2))
                    (loc threeRowsUpdate x y)) = true ->
            character (B x) <> 0
            \/ (0 < x /\ character (B (x - 1)) <> 0)
            \/ (x + 1 < columnsToUpdate threeRowsUpdate
                /\ character (B (x + 1)) <> 0) ->
            In (dirtyRect threeRowsUpdate (columnsToUpdate threeRowsUpdate) y)
               (out_dirtyRegion out)
            /\ (0 <= _fontWidth threeRowsUpdate ->
                QRect_inside (cellRect threeRowsUpdate x y)
                  (dirtyRect threeRowsUpdate
                             (columnsToUpdate threeRowsUpdate) y)).
Proof.
  split; [wellFormed_concrete |]. split; [reflexivity |]. split; [reflexivity |].
  apply (updateImage_reports_changes plain threeRowsUpdate (markedImage 3 2)).
  - wellFormed_concrete.
  - reflexivity.
  - reflexivity.
Defined.

(** C2 as stated fails: while a resize is in progress the update copies
    the incoming image, every cell of which differs from the displayed
    one, and reports an empty dirty region. *)
Lemma updateImage_resizing_reports_nothing :
  exists d' out,
    updateImage plain threeRowsResizing = Some (d', out)
    /\ out_dirtyRegion out = []
    /\ _image threeRowsResizing = Some (markedImage 3 2)
    /\ comparedImage threeRowsResizing (markedImage 3 2) = markedImage 3 2
    /\ Character_neqb
         (cell (getImage (_screenWindow threeRowsResizing))
               (0 * windowColumns (_screenWindow threeRowsResizing) + 0))
         (cell (markedImage 3 2) (loc threeRowsResizing 0 0)) = true.
Proof.
  do 2 eexists.
  split; [vm_compute; reflexivity |].
  repeat split; reflexivity.
Qed.

(** ** The scenario of a single changed cell *)

Lemma cell_blankImage (lines columns i : Z) :
  cell (blankImage lines columns) i = blankCharacter.
Proof.
  unfold cell, blankImage, zth. destruct (i <? 0); [reflexivity |].
  destruct (Nat.lt_ge_cases (Z.to_nat i) (Z.to_nat (lines * columns + 1))) as [H | H].
  - now apply nth_repeat_lt.
  - apply nth_overflow. now rewrite repeat_length.
Qed.

Lemma cell_shiftedImage_blank (n : Z) (d : TerminalDisplay)
  (img : list Character) (i : Z) :
  (forall j, cell img j = blankCharacter) ->
  cell (shiftedImage n d img) i = blankCharacter.
Proof.
  intros H. unfold shiftedImage, scrolledImage, memmove.
  destruct (_ || _); [apply H |].
  destruct (n >? 0); rewrite cell_copyCells; destruct (_ && _); apply H.
Qed.

Lemma Character_eqb_refl (c : Character) : Character_eqb c c = true.
Proof. unfold Character_eqb. now rewrite !Z.eqb_refl. Qed.

Lemma imDirty_off (d : TerminalDisplay) (x y : Z) :
  _imPreeditLength d <= 0 -> imDirty d x y = false.
Proof.
  intros H. unfold imDirty.
  replace (_imPreeditLength d >? 0) with false
    by (symmetry; rewrite Z.gtb_ltb; apply Z.ltb_ge; lia).
  reflexivity.
Qed.

Lemma cell_singleChangeImage (i : Z) :
  cell singleChangeImage i
  = if i =? 410 then charCell 88 else blankCharacter.
Proof.
  unfold singleChangeImage, cell. rewrite zth_zset.
  change (5 * 80 + 10) with 410.
  change (len (blankImage 24 80)) with 1921.
  fold (cell (blankImage 24 80) i). rewrite cell_blankImage.
  destruct (Z.eqb_spec i 410) as [-> | Hne]; reflexivity.
Qed.

Section SingleChange.

Variable env : Collaborators.

Variable d : TerminalDisplay.
Hypothesis Hwf : wellFormed d.
Hypothesis Hlines : _lines d = 24.
Hypothesis Hcolumns : _columns d = 80.
Hypothesis Himage : _image d = Some (blankImage 24 80).
Hypothesis HwindowLines : windowLines (_screenWindow d) = 24.
Hypothesis HwindowColumns : windowColumns (_screenWindow d) = 80.
Hypothesis Hincoming : getImage (_screenWindow d) = singleChangeImage.
Hypothesis Hresizing : _resizing d = false.
Hypothesis Hpreedit : _imPreeditLength d <= 0.
Hypothesis Hsingle :
  forall y, 0 <= y < 24 ->
            Z.land (zth 0 (_lineProperties d) y) LINE_DOUBLEHEIGHT = 0.

Lemma singleChange_columnDirty (x y : Z) :
  0 <= x < 80 ->
  columnDirty d y (incomingLine d y) (displayedLine d (blankImage 24 80) y) x
  = (y =? 5) && (x =? 10).
Proof.
  intros Hx. unfold columnDirty, incomingLine, displayedLine, comparedImage.
  rewrite Hincoming, HwindowColumns.
  rewrite imDirty_off by exact Hpreedit.
  rewrite cell_shiftedImage_blank by (intros; apply cell_blankImage).
  rewrite cell_singleChangeImage. simpl.
  destruct (Z.eqb_spec (y * 80 + x) 410) as [E | E].
  - replace (y =? 5) with true by (symmetry; apply Z.eqb_eq; lia).
    replace (x =? 10) with true by (symmetry; apply Z.eqb_eq; lia).
    reflexivity.
  - unfold Character_neqb. rewrite Character_eqb_refl. simpl.
    destruct (Z.eqb_spec y 5) as [-> | Hy]; [| reflexivity].
    destruct (Z.eqb_spec x 10) as [-> | Hx10]; [lia | reflexivity].
Qed.

Lemma singleChange_rowDirty (y : Z) :
  0 <= y < 24 ->
  rowDirty d singleChangeImage 80 80 (comparedImage d (blankImage 24 80)) y
  = (y =? 5).
Proof.
  intros Hy. destruct (Z.eqb_spec y 5) as [-> | Hne].
  - apply (rowDirty_changed d _ _ _ _ 10 10); auto; try lia.
    + pose proof (singleChange_columnDirty 10 5 ltac:(lia)) as H.
      unfold incomingLine, displayedLine in H.
      rewrite Hincoming, HwindowColumns in H. exact H.
    + rewrite cell_singleChangeImage. simpl. discriminate.
  - apply rowDirty_unchanged; [lia | | now apply Hsingle].
    intros x Hx. pose proof (singleChange_columnDirty x y Hx) as H.
    unfold incomingLine, displayedLine in H.
    rewrite Hincoming, HwindowColumns in H. rewrite H.
    replace (y =? 5) with false by (symmetry; now apply Z.eqb_neq).
    reflexivity.
Qed.

(** C8.  Eighty by twenty-four blank cells on display, an incoming image
    that differs by an X in column 10 of row 5, no resize in progress, no
    text being composed and no double-height line: the mask of row 5 is
    set in columns 9 to 11 exactly, and the dirty region is the one
    rectangle of row 5, which spans the eighty columns and so contains
    the cells of columns 9 to 11. *)
Theorem updateImage_single_change :
  exists d' out,
    updateImage env d = Some (d', out)
    /\ out_dirtyRegion out = [dirtyRect d 80 5]
    /\ (forall x,
          maskAt (rowMask d (incomingLine d 5)
                          (displayedLine d (blankImage 24 80) 5) 80 5) x <> 0
          <-> 9 <= x <= 11)
    /\ (0 <= _fontWidth d ->
        forall x, 9 <= x <= 11 ->
                  QRect_inside (cellRect d x 5) (dirtyRect d 80 5)).
Proof.
  destruct (updateImage_allocated env d _ Hwf Himage)
    as (d' & E & _).
  pose proof Hwf as (Hl & Hc & Hul & Huc & Hsize).
  eexists d', _. split; [exact E |]. split; [| split].
  - cbn [out_dirtyRegion].
    assert (Hltu : linesToUpdate d = 24)
      by (unfold linesToUpdate; rewrite Hlines, HwindowLines; reflexivity).
    assert (Hctu : columnsToUpdate d = 80)
      by (unfold columnsToUpdate; rewrite Hcolumns, HwindowColumns; reflexivity).
    unfold staleRects, staleRectsAt. rewrite Hltu, Hctu.
    replace (24 <? _usedLines d) with false by (symmetry; apply Z.ltb_ge; lia).
    replace (80 <? _usedColumns d) with false by (symmetry; apply Z.ltb_ge; lia).
    rewrite !app_nil_r.
    unfold updatedRows. rewrite updateRows_region by lia.
    rewrite Hltu, Hctu, Hincoming, HwindowColumns.
    cbn [rows_dirtyRegion rows_image app].
    rewrite (filter_ext_in _ (fun y => y =? 5)).
    + reflexivity.
    + intros y Hy. apply in_rowsFrom in Hy. apply singleChange_rowDirty. lia.
  - intros x. rewrite maskAt_rowMask by lia. split.
    + intros (x' & Hx' & Hd & Hr).
      rewrite singleChange_columnDirty in Hd by lia.
      simpl in Hd. apply Z.eqb_eq in Hd. lia.
    + intros Hx. exists 10. split; [lia |]. split; [| lia].
      rewrite singleChange_columnDirty by lia. reflexivity.
  - intros Hfw x Hx. apply cellRect_inside_dirtyRect; [exact Hfw | lia].
Qed.

End SingleChange.

Lemma updateImage_single_change_witness :
  exists d' out,
    updateImage plain singleChange = Some (d', out)
    /\ out_dirtyRegion out = [dirtyRect singleChange 80 5]
    /\ (forall x,
          maskAt (rowMask singleChange (incomingLine singleChange 5)
                    (displayedLine singleChange (blankImage 24 80) 5) 80 5) x
          <> 0
          <-> 9 <= x <= 11)
    /\ (0 <= _fontWidth singleChange ->
        forall x, 9 <= x <= 11 ->
                  QRect_inside (cellRect singleChange x 5)
                               (dirtyRect singleChange 80 5)).
Proof.
  apply (updateImage_single_change plain singleChange).
  - wellFormed_concrete.
  - reflexivity.
  - reflexivity.
  - reflexivity.
  - reflexivity.
  - reflexivity.
  - reflexivity.
  - reflexivity.
  - simpl. lia.
  - intros y _. unfold zth. simpl.
    destruct (y <? 0); [reflexivity |]. destruct (Z.to_nat y); reflexivity.
Defined.


(** ** From widget points to cells *)

Lemma wrapInt_range (z : Z) : INT_MIN <= wrapInt z <= INT_MAX.
Proof.
  unfold wrapInt, INT_MIN, INT_MAX.
  pose proof (Z.mod_pos_bound (z + 2147483648) 4294967296 ltac:(lia)). lia.
Qed.

Lemma wrapInt_int (z : Z) : INT_MIN <= z <= INT_MAX -> wrapInt z = z.
Proof.
  unfold wrapInt, INT_MIN, INT_MAX. intros H.
  rewrite Z.mod_small by lia. lia.
Qed.

(** C9.  With at least one used row and one used column, and font metrics
    that are neither 0 nor -1, the two divisors on which a division on
    [int] aborts, [characterPosition] returns for every widget point a
    line in [0, usedLines) and a column in [0, usedColumns).  For a point
    whose distance from the corner of the text is an [int], they are the
    row and the column of the cell the point falls in, brought back to the
    nearest row and column of the used grid when it falls outside. *)
Theorem characterPosition_in_grid (d : TerminalDisplay) (p : QPoint) :
  1 <= _usedLines d -> 1 <= _usedColumns d ->
  _fontWidth d <> 0 -> _fontHeight d <> 0 ->
  _fontWidth d <> -1 -> _fontHeight d <> -1 ->
  exists line column,
    characterPosition d p = Some (line, column)
    /\ 0 <= line < _usedLines d
    /\ 0 <= column < _usedColumns d
    /\ (INT_MIN <= py p - ry (contentsRect d) <= INT_MAX ->
        INT_MIN <= py p - ry (contentsRect d) - _bY d <= INT_MAX ->
        line = Z.max 0 (Z.min (_usedLines d - 1)
                 (Z.quot (py p - ry (contentsRect d) - _bY d) (_fontHeight d))))
    /\ (INT_MIN <= px p - rx (contentsRect d) <= INT_MAX ->
        INT_MIN <= px p - rx (contentsRect d) - _bX d <= INT_MAX ->
        column = Z.max 0 (Z.min (_usedColumns d - 1)
                   (Z.quot (px p - rx (contentsRect d) - _bX d) (_fontWidth d)))).
Proof.
  intros Hl Hc Hfw Hfh Hfw1 Hfh1. unfold characterPosition, intDivAny.
  replace (_fontWidth d =? 0) with false by (symmetry; now apply Z.eqb_neq).
  replace (_fontHeight d =? 0) with false by (symmetry; now apply Z.eqb_neq).
  replace (_fontWidth d =? -1) with false by (symmetry; now apply Z.eqb_neq).
  replace (_fontHeight d =? -1) with false by (symmetry; now apply Z.eqb_neq).
  rewrite !andb_false_r. cbn [orb].
  set (c := Z.quot _ (_fontWidth d)). set (l := Z.quot _ (_fontHeight d)).
  eexists _, _. split; [reflexivity |].
  assert (El : INT_MIN <= py p - ry (contentsRect d) <= INT_MAX ->
               INT_MIN <= py p - ry (contentsRect d) - _bY d <= INT_MAX ->
               l = Z.quot (py p - ry (contentsRect d) - _bY d) (_fontHeight d)).
  { intros H1 H2. unfold l. now rewrite (wrapInt_int _ H1), (wrapInt_int _ H2). }
  assert (Ec : INT_MIN <= px p - rx (contentsRect d) <= INT_MAX ->
               INT_MIN <= px p - rx (contentsRect d) - _bX d <= INT_MAX ->
               c = Z.quot (px p - rx (contentsRect d) - _bX d) (_fontWidth d)).
  { intros H1 H2. unfold c. now rewrite (wrapInt_int _ H1), (wrapInt_int _ H2). }
  clearbody c l.
  destruct (l <? 0) eqn:E1; destruct (c <? 0) eqn:E2; boolZ;
    repeat match goal with
    | |- context [?a >=? ?b] =>
        let E := fresh "E" in destruct (a >=? b) eqn:E; boolZ
    end;
    (split; [lia |]); (split; [lia |]);
    (split; [intros H1 H2; specialize (El H1 H2); lia
            | intros H1 H2; specialize (Ec H1 H2); lia]).
Qed.

Lemma characterPosition_in_grid_witness :
  exists line column,
    characterPosition threeRows (mkQPoint INT_MIN INT_MIN) = Some (line, column)
    /\ 0 <= line < _usedLines threeRows
    /\ 0 <= column < _usedColumns threeRows
    /\ (INT_MIN <= py (mkQPoint INT_MIN INT_MIN) - ry (contentsRect threeRows)
                 <= INT_MAX ->
        INT_MIN <= py (mkQPoint INT_MIN INT_MIN) - ry (contentsRect threeRows)
                   - _bY threeRows <= INT_MAX ->
        line = Z.max 0 (Z.min (_usedLines threeRows - 1)
                 (Z.quot (py (mkQPoint INT_MIN INT_MIN)
                          - ry (contentsRect threeRows) - _bY threeRows)
                         (_fontHeight threeRows))))
    /\ (INT_MIN <= px (mkQPoint INT_MIN INT_MIN) - rx (contentsRect threeRows)
                 <= INT_MAX ->
        INT_MIN <= px (mkQPoint INT_MIN INT_MIN) - rx (contentsRect threeRows)
                   - _bX threeRows <= INT_MAX ->
        column = Z.max 0 (Z.min (_usedColumns threeRows - 1)
                   (Z.quot (px (mkQPoint INT_MIN INT_MIN)
                            - rx (contentsRect threeRows) - _bX threeRows)
                           (_fontWidth threeRows)))).
Proof.
  apply (characterPosition_in_grid threeRows (mkQPoint INT_MIN INT_MIN));
    simpl; lia.
Defined.

(** At the least point there is, the subtraction leaves [int] and the
    answer is the last cell of the used grid. *)
Example characterPosition_at_least_point :
  characterPosition threeRows (mkQPoint INT_MIN INT_MIN) = Some (2, 1).
Proof. reflexivity. Qed.

(** ** Word selection *)

(** Whatever the point, the cell is in the used grid. *)
Lemma characterPosition_range (d : TerminalDisplay) (p : QPoint)
  (line column : Z) :
  1 <= _usedLines d -> 1 <= _usedColumns d ->
  characterPosition d p = Some (line, column) ->
  0 <= line < _usedLines d /\ 0 <= column < _usedColumns d.
Proof.
  intros Hl Hc. unfold characterPosition, intDivAny.
  destruct (_ || _); [discriminate |].
  destruct (_ || _); [discriminate |].
  intros H. injection H as <- <-.
  repeat match goal with
  | |- context [if ?c then _ else _] =>
      let E := fresh "E" in destruct c eqn:E; boolZ
  end; lia.
Qed.

Section WordLoops.

Variable env : Collaborators.

(** The loop for the start of a word stops by its own condition within
    the iterations it is given, and every cell it has passed over is of
    the class looked for. *)
Lemma findWordStart_spec (todo : nat) (d : TerminalDisplay)
  (img : list Character) (selClass lastColumn i x y : Z) :
  (Z.to_nat (Z.max 0 x + Z.max 0 y * Z.max 1 (lastColumn + 1)) <= todo)%nat ->
  let '(i', x', y') := findWordStart env todo d img selClass lastColumn i x y in
  i' <= i
  /\ (forall j, i' <= j < i -> charClass env d (character (cell img j)) = selClass)
  /\ wordStartGoesOn env d img selClass i' x' y' = false.
Proof.
  revert i x y. induction todo as [| todo IH]; intros i x y Hfuel.
  - cbn [findWordStart]. split; [lia |]. split; [intros; lia |].
    unfold wordStartGoesOn.
    replace (x >? 0) with false by (symmetry; rewrite Z.gtb_ltb; apply Z.ltb_ge; lia).
    replace (y >? 0) with false by (symmetry; rewrite Z.gtb_ltb; apply Z.ltb_ge; nia).
    reflexivity.
  - cbn [findWordStart]. fold (wordStartGoesOn env d img selClass i x y).
    destruct (wordStartGoesOn env d img selClass i x y) eqn:Hgo.
    + unfold wordStartGoesOn in Hgo. apply andb_true_iff in Hgo.
      destruct Hgo as [Hpos Hcls]. apply Z.eqb_eq in Hcls.
      destruct (x >? 0) eqn:Hx.
      * boolZ. specialize (IH (i - 1) (x - 1) y).
        destruct (findWordStart env todo d img selClass lastColumn (i - 1) (x - 1) y)
          as [[i' x'] y'].
        destruct IH as (H1 & H2 & H3); [nia |].
        split; [lia |]. split; [| exact H3].
        intros j Hj. destruct (Z.eq_dec j (i - 1)) as [-> | Hne];
          [exact Hcls | apply H2; lia].
      * simpl in Hpos. boolZ. specialize (IH (i - 1) lastColumn (y - 1)).
        destruct (findWordStart env todo d img selClass lastColumn (i - 1) lastColumn (y - 1))
          as [[i' x'] y'].
        destruct IH as (H1 & H2 & H3); [nia |].
        split; [lia |]. split; [| exact H3].
        intros j Hj. destruct (Z.eq_dec j (i - 1)) as [-> | Hne];
          [exact Hcls | apply H2; lia].
    + split; [lia |]. split; [intros; lia | exact Hgo].
Qed.

Lemma findWordEnd_spec (todo : nat) (d : TerminalDisplay)
  (img : list Character) (selClass i x y : Z) :
  (Z.to_nat (Z.max 0 (_usedColumns d - 1 - x)
             + Z.max 0 (_usedLines d - 1 - y) * Z.max 1 (_usedColumns d))
   <= todo)%nat ->
  let '(i', x', y') := findWordEnd env todo d img selClass i x y in
  i <= i'
  /\ (forall j, i < j <= i' -> charClass env d (character (cell img j)) = selClass)
  /\ wordEndGoesOn env d img selClass i' x' y' = false.
Proof.
  revert i x y. induction todo as [| todo IH]; intros i x y Hfuel.
  - cbn [findWordEnd]. split; [lia |]. split; [intros; lia |].
    unfold wordEndGoesOn.
    replace (x <? _usedColumns d - 1) with false by (symmetry; apply Z.ltb_ge; lia).
    replace (y <? _usedLines d - 1) with false by (symmetry; apply Z.ltb_ge; nia).
    reflexivity.
  - cbn [findWordEnd]. fold (wordEndGoesOn env d img selClass i x y).
    destruct (wordEndGoesOn env d img selClass i x y) eqn:Hgo.
    + unfold wordEndGoesOn in Hgo. apply andb_true_iff in Hgo.
      destruct Hgo as [Hpos Hcls]. apply Z.eqb_eq in Hcls.
      destruct (x <? _usedColumns d - 1) eqn:Hx.
      * boolZ. specialize (IH (i + 1) (x + 1) y).
        destruct (findWordEnd env todo d img selClass (i + 1) (x + 1) y) as [[i' x'] y'].
        destruct IH as (H1 & H2 & H3); [nia |].
        split; [lia |]. split; [| exact H3].
        intros j Hj. destruct (Z.eq_dec j (i + 1)) as [-> | Hne];
          [exact Hcls | apply H2; lia].
      * simpl in Hpos. boolZ. specialize (IH (i + 1) 0 (y + 1)).
        destruct (findWordEnd env todo d img selClass (i + 1) 0 (y + 1)) as [[i' x'] y'].
        destruct IH as (H1 & H2 & H3); [nia |].
        split; [lia |]. split; [| exact H3].
        intros j Hj. destruct (Z.eq_dec j (i + 1)) as [-> | Hne];
          [exact Hcls | apply H2; lia].
    + split; [lia |]. split; [intros; lia | exact Hgo].
Qed.

(** On one row: the start of the word is the column [x0] reached over
    cells of the class looked for, where the loop's condition fails. *)
Lemma findWordStart_row (todo : nat) (d : TerminalDisplay)
  (img : list Character) (selClass lastColumn i x y x0 : Z) :
  0 <= x0 <= x -> (Z.to_nat (x - x0) <= todo)%nat ->
  (forall k, x0 <= k < x ->
             charClass env d (character (cell img (i - (x - k)))) = selClass) ->
  wordStartGoesOn env d img selClass (i - (x - x0)) x0 y = false ->
  findWordStart env todo d img selClass lastColumn i x y = (i - (x - x0), x0, y).
Proof.
  revert i x. induction todo as [| todo IH]; intros i x Hx Hfuel Hrun Hstop.
  - assert (x = x0) by lia. subst x. cbn [findWordStart].
    replace (i - (x0 - x0)) with i by lia. reflexivity.
  - cbn [findWordStart]. fold (wordStartGoesOn env d img selClass i x y).
    destruct (Z.eq_dec x x0) as [-> | Hne].
    + replace (i - (x0 - x0)) with i in * by lia. rewrite Hstop. reflexivity.
    + assert (Hgo : wordStartGoesOn env d img selClass i x y = true).
      { unfold wordStartGoesOn.
        replace (x >? 0) with true by (symmetry; rewrite Z.gtb_ltb; apply Z.ltb_lt; lia).
        simpl. apply Z.eqb_eq.
        specialize (Hrun (x - 1) ltac:(lia)).
        replace (i - (x - (x - 1))) with (i - 1) in Hrun by lia. exact Hrun. }
      rewrite Hgo.
      replace (x >? 0) with true by (symmetry; rewrite Z.gtb_ltb; apply Z.ltb_lt; lia).
      rewrite (IH (i - 1) (x - 1)); try lia.
      * f_equal. f_equal. lia.
      * intros k Hk. specialize (Hrun k ltac:(lia)).
        replace (i - 1 - (x - 1 - k)) with (i - (x - k)) by lia. exact Hrun.
      * replace (i - 1 - (x - 1 - x0)) with (i - (x - x0)) by lia. exact Hstop.
Qed.

Lemma findWordEnd_row (todo : nat) (d : TerminalDisplay)
  (img : list Character) (selClass i x y x1 : Z) :
  x <= x1 <= _usedColumns d - 1 -> (Z.to_nat (x1 - x) <= todo)%nat ->
  (forall k, x < k <= x1 ->
             charClass env d (character (cell img (i + (k - x)))) = selClass) ->
  wordEndGoesOn env d img selClass (i + (x1 - x)) x1 y = false ->
  findWordEnd env todo d img selClass i x y = (i + (x1 - x), x1, y).
Proof.
  revert i x. induction todo as [| todo IH]; intros i x Hx Hfuel Hrun Hstop.
  - assert (x = x1) by lia. subst x. cbn [findWordEnd].
    replace (i + (x1 - x1)) with i by lia. reflexivity.
  - cbn [findWordEnd]. fold (wordEndGoesOn env d img selClass i x y).
    destruct (Z.eq_dec x x1) as [-> | Hne].
    + replace (i + (x1 - x1)) with i in * by lia. rewrite Hstop. reflexivity.
    + assert (Hlt : (x <? _usedColumns d - 1) = true) by (apply Z.ltb_lt; lia).
      assert (Hgo : wordEndGoesOn env d img selClass i x y = true).
      { unfold wordEndGoesOn. rewrite Hlt. simpl. apply Z.eqb_eq.
        specialize (Hrun (x + 1) ltac:(lia)).
        replace (i + (x + 1 - x)) with (i + 1) in Hrun by lia. exact Hrun. }
      rewrite Hgo, Hlt.
      rewrite (IH (i + 1) (x + 1)); try lia.
      * f_equal. f_equal. lia.
      * intros k Hk. specialize (Hrun k ltac:(lia)).
        replace (i + 1 + (k - (x + 1))) with (i + (k - x)) by lia. exact Hrun.
      * replace (i + 1 + (x1 - (x + 1))) with (i + (x1 - x)) by lia. exact Hstop.
Qed.

End WordLoops.

Lemma zth_helloWorld (k : Z) :
  0 <= k < 11 -> In (zth 0 helloWorld k) helloWorld.
Proof.
  intros H.
  assert (k = 0 \/ k = 1 \/ k = 2 \/ k = 3 \/ k = 4 \/ k = 5 \/ k = 6
          \/ k = 7 \/ k = 8 \/ k = 9 \/ k = 10) as Hk by lia.
  repeat (destruct Hk as [-> | Hk]; [vm_compute; tauto |]).
  subst k. vm_compute. tauto.
Qed.

Section WordSelection.

Variable env : Collaborators.

(** The cells stepped over and the columns and rows counted agree: the
    loops step through the used columns of a row, one cell of the image
    for each, and go from the first used column of a row to the last
    used column of the row above, or the other way round, in one step,
    which they take only where the upper of the two rows is wrapped; and
    they stay on the used rows. *)
Lemma findWordStart_linear (todo : nat) (d : TerminalDisplay)
  (img : list Character) (selClass lastColumn i x y : Z) :
  0 <= x <= lastColumn -> 0 <= y ->
  let '(i', x', y') := findWordStart env todo d img selClass lastColumn i x y in
  0 <= x' <= lastColumn /\ 0 <= y' <= y
  /\ (y - y') * (lastColumn + 1) + (x - x') = i - i'
  /\ forall r, y' <= r < y -> lineWrapped d r = true.
Proof.
  revert i x y. induction todo as [| todo IH]; intros i x y Hx Hy;
    cbn [findWordStart].
  - split; [lia |]. split; [lia |]. split; [lia | intros; lia].
  - destruct (_ && _) eqn:Hgo;
      [| split; [lia |]; split; [lia |]; split; [lia | intros; lia]].
    apply andb_true_iff in Hgo. destruct Hgo as [Hgo _].
    destruct (x >? 0) eqn:Hpos; boolZ.
    + specialize (IH (i - 1) (x - 1) y ltac:(lia) Hy).
      destruct (findWordStart env todo d img selClass lastColumn (i - 1) (x - 1) y)
        as [[i' x'] y'].
      destruct IH as (H1 & H2 & H3 & H4).
      split; [lia |]. split; [lia |]. split; [lia | exact H4].
    + cbn [orb] in Hgo. apply andb_true_iff in Hgo. destruct Hgo as [Hrow Hw].
      boolZ.
      specialize (IH (i - 1) lastColumn (y - 1) ltac:(lia) ltac:(lia)).
      destruct (findWordStart env todo d img selClass lastColumn (i - 1)
                  lastColumn (y - 1)) as [[i' x'] y'].
      destruct IH as (H1 & H2 & H3 & H4).
      split; [lia |]. split; [lia |]. split; [lia |].
      intros r Hr. destruct (Z.eq_dec r (y - 1)) as [-> | Hne];
        [exact Hw | apply H4; lia].
Qed.

Lemma findWordEnd_linear (todo : nat) (d : TerminalDisplay)
  (img : list Character) (selClass i x y : Z) :
  0 <= x <= _usedColumns d - 1 -> y <= _usedLines d - 1 ->
  let '(i', x', y') := findWordEnd env todo d img selClass i x y in
  0 <= x' <= _usedColumns d - 1 /\ y <= y' <= _usedLines d - 1
  /\ (y' - y) * _usedColumns d + (x' - x) = i' - i
  /\ forall r, y <= r < y' -> lineWrapped d r = true.
Proof.
  revert i x y. induction todo as [| todo IH]; intros i x y Hx Hy;
    cbn [findWordEnd].
  - split; [lia |]. split; [lia |]. split; [lia | intros; lia].
  - destruct (_ && _) eqn:Hgo;
      [| split; [lia |]; split; [lia |]; split; [lia | intros; lia]].
    apply andb_true_iff in Hgo. destruct Hgo as [Hgo _].
    destruct (x <? _usedColumns d - 1) eqn:Hlt; boolZ.
    + specialize (IH (i + 1) (x + 1) y ltac:(lia) Hy).
      destruct (findWordEnd env todo d img selClass (i + 1) (x + 1) y)
        as [[i' x'] y'].
      destruct IH as (H1 & H2 & H3 & H4).
      split; [lia |]. split; [lia |]. split; [lia | exact H4].
    + cbn [orb] in Hgo. apply andb_true_iff in Hgo. destruct Hgo as [Hrow Hw].
      boolZ.
      specialize (IH (i + 1) 0 (y + 1) ltac:(lia) ltac:(lia)).
      destruct (findWordEnd env todo d img selClass (i + 1) 0 (y + 1))
        as [[i' x'] y'].
      destruct IH as (H1 & H2 & H3 & H4).
      split; [lia |]. split; [lia |]. split; [lia |].
      intros r Hr. destruct (Z.eq_dec r y) as [-> | Hne];
        [exact Hw | apply H4; lia].
Qed.

(** Membership in the word characters, whatever the case. *)
Lemma containsCaseInsensitive_spec (s : list Z) (ch : Z) :
  containsCaseInsensitive env s ch = true
  <-> exists w, In w s /\ toCaseFolded env w = toCaseFolded env ch.
Proof.
  unfold containsCaseInsensitive. rewrite existsb_exists.
  split; intros (w & Hin & Hw); exists w; split; auto;
    [apply Z.eqb_eq | apply Z.eqb_eq]; exact Hw.
Qed.

Lemma charClass_classes (d : TerminalDisplay) (ch : Z) :
  (charClass env d ch = 32 <-> isSpace env ch = true)
  /\ (charClass env d ch = 97
      <-> isSpace env ch = false
          /\ (isLetterOrNumber env ch = true
              \/ exists w, In w (_wordCharacters d)
                           /\ toCaseFolded env w = toCaseFolded env ch))
  /\ (charClass env d ch = 1
      <-> isSpace env ch = false /\ isLetterOrNumber env ch = false
          /\ ~ exists w, In w (_wordCharacters d)
                         /\ toCaseFolded env w = toCaseFolded env ch)
  /\ (charClass env d ch = 32 \/ charClass env d ch = 97
      \/ charClass env d ch = 1).
Proof.
  pose proof (containsCaseInsensitive_spec (_wordCharacters d) ch) as Hc.
  unfold charClass.
  destruct (isSpace env ch).
  - split; [tauto |]. split; [split; [discriminate | intros [H _]; discriminate] |].
    split; [split; [discriminate | intros [H _]; discriminate] | tauto].
  - destruct (isLetterOrNumber env ch); cbn [orb].
    + split; [split; discriminate |].
      split; [split; [intros _; split; [reflexivity | left; reflexivity] | reflexivity] |].
      split; [split; [discriminate | intros (_ & H & _); discriminate] | tauto].
    + destruct (containsCaseInsensitive env (_wordCharacters d) ch).
      * split; [split; discriminate |].
        split; [split; [intros _; split; [reflexivity | right; apply Hc; reflexivity]
                       | reflexivity] |].
        split; [split; [discriminate | intros (_ & _ & H); exfalso; apply H;
                                       apply Hc; reflexivity] | tauto].
      * split; [split; discriminate |].
        split; [split; [discriminate
                       | intros (_ & [H | H]); [discriminate |];
                         apply Hc in H; discriminate] |].
        split; [split; [intros _; repeat split;
                        intros H; apply Hc in H; discriminate
                       | reflexivity] | tauto].
Qed.

(** C7, as the code has it.  [charClass] sorts every character into
    exactly one of three classes: white space; word, for a character that
    is not white space and is a letter, a digit or, whatever its case, one
    of the word characters; and other.  A double click with the left
    button grows the selection from the cell clicked on over cells that
    follow one another in the image, [i0] to [i1], all of the class of
    the cell clicked on, as far as the loops go: leftwards to the first
    used column and on to the last used column of the row above where
    that row is wrapped, rightwards likewise; neither loop can go on from
    where it has stopped, and every row left on the way is wrapped.  The
    columns and rows of the two ends, which are on the used grid, count
    the cells stepped over, a row for every [_usedColumns] cells.  The
    start sent is the first of these cells; the end sent is the last, or
    the column before it when the last cell holds an at sign and the end
    is right of the start.  On one row this is the run of cells of one
    class around the column clicked on.  And a double click on column 2
    of a row that reads "hello world" and does not continue a wrapped row
    selects columns 0 to 4 of that row. *)
Theorem doubleClick_grows_word :
  (forall d ch,
     (charClass env d ch = 32 <-> isSpace env ch = true)
     /\ (charClass env d ch = 97
         <-> isSpace env ch = false
             /\ (isLetterOrNumber env ch = true
                 \/ exists w, In w (_wordCharacters d)
                              /\ toCaseFolded env w = toCaseFolded env ch))
     /\ (charClass env d ch = 1
         <-> isSpace env ch = false /\ isLetterOrNumber env ch = false
             /\ ~ exists w, In w (_wordCharacters d)
                            /\ toCaseFolded env w = toCaseFolded env ch)
     /\ (charClass env d ch = 32 \/ charClass env d ch = 97
         \/ charClass env d ch = 1))
  /\ (forall ev d img line column,
        wellFormed d -> _image d = Some img ->
        1 <= _usedLines d -> 1 <= _usedColumns d ->
        _usedLines d <= len (_lineProperties d) ->
        ev_button ev = LeftButton -> (_mouseMarks d || ev_shift ev) = true ->
        characterPosition d (ev_pos ev) = Some (line, column) ->
        let selClass :=
          charClass env d (character (cell img (loc d column line))) in
        exists d' i0 x0 y0 i1 x1 y1,
          mouseDoubleClickEvent env ev d = Some d'
          /\ selectionStart (_screenWindow d') = Some (x0, y0, false)
          /\ selectionEnd (_screenWindow d')
             = Some (if (character (cell img i1) =? 64) && (x1 - x0 >? 0)
                     then x1 - 1 else x1, y1)
          /\ i0 <= loc d column line <= i1
          /\ (forall j, i0 <= j <= i1 ->
                        charClass env d (character (cell img j)) = selClass)
          /\ wordStartGoesOn env d img selClass i0 x0 y0 = false
          /\ wordEndGoesOn env d img selClass i1 x1 y1 = false
          /\ 0 <= y0 <= line /\ line <= y1 < _usedLines d
          /\ (forall r, y0 <= r < y1 -> lineWrapped d r = true)
          /\ 0 <= x0 < _usedColumns d /\ 0 <= x1 < _usedColumns d
          /\ (line - y0) * _usedColumns d + (column - x0)
             = loc d column line - i0
          /\ (y1 - line) * _usedColumns d + (x1 - column)
             = i1 - loc d column line
          /\ _actSel d' = 2 /\ _wordSelectionMode d' = true
          /\ _possibleTripleClick d' = true
          /\ _iPntSel d' = mkQPoint column (line + sb_value (_scrollBar d)))
  /\ (forall ev d img line column x0 x1,
        wellFormed d -> _image d = Some img ->
        1 <= _usedLines d -> 1 <= _usedColumns d ->
        _usedLines d <= len (_lineProperties d) ->
        ev_button ev = LeftButton -> (_mouseMarks d || ev_shift ev) = true ->
        characterPosition d (ev_pos ev) = Some (line, column) ->
        let selClass :=
          charClass env d (character (cell img (loc d column line))) in
        0 <= x0 <= column -> column <= x1 <= _usedColumns d - 1 ->
        (forall x, x0 <= x <= x1 ->
                   charClass env d (character (cell img (loc d x line)))
                   = selClass) ->
        wordStartGoesOn env d img selClass (loc d x0 line) x0 line = false ->
        wordEndGoesOn env d img selClass (loc d x1 line) x1 line = false ->
        exists d',
          mouseDoubleClickEvent env ev d = Some d'
          /\ selectionStart (_screenWindow d') = Some (x0, line, false)
          /\ selectionEnd (_screenWindow d')
             = Some (if (character (cell img (loc d x1 line)) =? 64)
                        && (x1 - x0 >? 0)
                     then x1 - 1 else x1, line))
  /\ (forall d img ev y,
        isSpace env 32 = true ->
        (forall c, In c helloWorld -> c <> 32 ->
                   isSpace env c = false /\ isLetterOrNumber env c = true) ->
        wellFormed d -> _image d = Some img ->
        1 <= _usedLines d -> 11 <= _usedColumns d ->
        _usedLines d <= len (_lineProperties d) ->
        ev_button ev = LeftButton -> (_mouseMarks d || ev_shift ev) = true ->
        characterPosition d (ev_pos ev) = Some (y, 2) ->
        y <= 0 \/ lineWrapped d (y - 1) = false ->
        (forall k, 0 <= k < 11 ->
                   character (cell img (loc d k y)) = zth 0 helloWorld k) ->
        exists d',
          mouseDoubleClickEvent env ev d = Some d'
          /\ selectionStart (_screenWindow d') = Some (0, y, false)
          /\ selectionEnd (_screenWindow d') = Some (4, y)).
Proof.
  assert (Hrow : forall ev d img line column x0 x1,
        _image d = Some img ->
        ev_button ev = LeftButton -> (_mouseMarks d || ev_shift ev) = true ->
        characterPosition d (ev_pos ev) = Some (line, column) ->
        let selClass :=
          charClass env d (character (cell img (loc d column line))) in
        0 <= x0 <= column -> column <= x1 <= _usedColumns d - 1 ->
        (forall x, x0 <= x <= x1 ->
                   charClass env d (character (cell img (loc d x line)))
                   = selClass) ->
        wordStartGoesOn env d img selClass (loc d x0 line) x0 line = false ->
        wordEndGoesOn env d img selClass (loc d x1 line) x1 line = false ->
        exists d',
          mouseDoubleClickEvent env ev d = Some d'
          /\ selectionStart (_screenWindow d') = Some (x0, line, false)
          /\ selectionEnd (_screenWindow d')
             = Some (if (character (cell img (loc d x1 line)) =? 64)
                        && (x1 - x0 >? 0)
                     then x1 - 1 else x1, line)).
  { intros ev d img line column x0 x1 Himg Hbtn Hmarks Hpos selClass Hx0 Hx1
           Hrun Hstart Hend.
    unfold mouseDoubleClickEvent. rewrite Hbtn. cbn [MouseButton_eqb negb].
    rewrite Hpos. cbv beta iota.
    replace (negb (_mouseMarks d) && negb (ev_shift ev)) with false
      by (destruct (_mouseMarks d); destruct (ev_shift ev); simpl in *;
          congruence).
    cbn [px py _image set_wordSelectionMode set_iPntSel set_screenWindow].
    rewrite Himg.
    set (d2 := set_wordSelectionMode true _).
    change (loc (set_screenWindow (clearSelection (_screenWindow d)) d)
                column line) with (loc d column line).
    change (charClass env d2 (character (cell img (loc d column line))))
      with selClass.
    rewrite (findWordStart_row env _ d2 img selClass (_usedColumns d2 - 1)
               (loc d column line) column line x0).
    2: lia.
    2: unfold wordStartSteps; lia.
    2: { intros k Hk.
         replace (loc d column line - (column - k)) with (loc d k line)
           by (unfold loc; lia).
         change (charClass env d2 (character (cell img (loc d k line))))
           with (charClass env d (character (cell img (loc d k line)))).
         apply Hrun. lia. }
    2: { replace (loc d column line - (column - x0)) with (loc d x0 line)
           by (unfold loc; lia).
         exact Hstart. }
    cbv beta iota.
    set (d3 := set_screenWindow _ d2).
    change (loc d3 column line) with (loc d column line).
    rewrite (findWordEnd_row env _ d3 img selClass (loc d column line)
               column line x1).
    2: unfold d3, d2; cbn [_usedColumns set_screenWindow set_wordSelectionMode
                           set_iPntSel]; lia.
    2: { unfold wordEndSteps, d3, d2.
         cbn [_usedColumns _usedLines set_screenWindow set_wordSelectionMode
              set_iPntSel].
         assert (0 <= Z.max 0 (_usedLines d - 1 - line)
                      * Z.max 1 (_usedColumns d))
           by (apply Z.mul_nonneg_nonneg; lia).
         lia. }
    2: { intros k Hk.
         replace (loc d column line + (k - column)) with (loc d k line)
           by (unfold loc; lia).
         change (charClass env d3 (character (cell img (loc d k line))))
           with (charClass env d (character (cell img (loc d k line)))).
         apply Hrun. lia. }
    2: { replace (loc d column line + (x1 - column)) with (loc d x1 line)
           by (unfold loc; lia).
         exact Hend. }
    cbv beta iota.
    replace (loc d column line + (x1 - column)) with (loc d x1 line)
      by (unfold loc; lia).
    cbn [px py].
    eexists. split; [reflexivity |].
    cbn [_screenWindow set_possibleTripleClick set_screenWindow set_actSel
         selectionStart selectionEnd setSelectionEnd].
    split; [reflexivity |]. destruct (_ && _); reflexivity. }
  split; [exact charClass_classes |]. split; [| split].
  - intros ev d img line column _ Himg Hul Huc _ Hbtn Hmarks Hpos selClass.
    pose proof (characterPosition_range d _ _ _ Hul Huc Hpos) as [Hlin Hcol].
    unfold mouseDoubleClickEvent. rewrite Hbtn. cbn [MouseButton_eqb negb].
    rewrite Hpos. cbv beta iota.
    replace (negb (_mouseMarks d) && negb (ev_shift ev)) with false
      by (destruct (_mouseMarks d); destruct (ev_shift ev); simpl in *;
          congruence).
    cbn [px py _image set_wordSelectionMode set_iPntSel set_screenWindow].
    rewrite Himg.
    set (d2 := set_wordSelectionMode true _).
    change (loc (set_screenWindow (clearSelection (_screenWindow d)) d)
                column line) with (loc d column line).
    change (charClass env d2 (character (cell img (loc d column line))))
      with selClass.
    pose proof (findWordStart_spec env
                  (wordStartSteps (_usedColumns d2 - 1) column line) d2 img
                  selClass (_usedColumns d2 - 1) (loc d column line)
                  column line (le_n _)) as Hs.
    pose proof (findWordStart_linear
                  (wordStartSteps (_usedColumns d2 - 1) column line) d2 img
                  selClass (_usedColumns d2 - 1) (loc d column line)
                  column line) as Hsr.
    change (_usedColumns d2) with (_usedColumns d) in *.
    destruct (findWordStart _ _ _ _ _ _ _ _ _) as [[i0 xs] ys].
    destruct Hs as (S1 & S2 & S3).
    destruct Hsr as (R0 & R1 & R2 & R3); [lia | lia |].
    replace (_usedColumns d - 1 + 1) with (_usedColumns d) in R2 by lia.
    cbv beta iota.
    set (d3 := set_screenWindow _ d2).
    change (loc d3 column line) with (loc d column line).
    pose proof (findWordEnd_spec env (wordEndSteps d3 column line) d3 img
                  selClass (loc d column line) column line (le_n _)) as He.
    pose proof (findWordEnd_linear (wordEndSteps d3 column line) d3 img
                  selClass (loc d column line) column line) as Her.
    change (_usedColumns d3) with (_usedColumns d) in *.
    change (_usedLines d3) with (_usedLines d) in *.
    destruct (findWordEnd _ _ _ _ _ _ _ _) as [[i1 xe] ye].
    destruct He as (E1 & E2 & E3).
    destruct Her as (Q0 & Q1 & Q2 & Q3); [lia | lia |].
    cbv beta iota. cbn [px py].
    eexists. exists i0, xs, ys, i1, xe, ye.
    split; [reflexivity |].
    cbn [_screenWindow _iPntSel _actSel _wordSelectionMode _possibleTripleClick
         set_possibleTripleClick set_screenWindow
         set_actSel selectionStart selectionEnd setSelectionEnd].
    split; [reflexivity |].
    split; [destruct (_ && _); reflexivity |].
    split; [lia |].
    split.
    { intros j Hj.
      destruct (Z_lt_le_dec j (loc d column line)) as [Hlt | Hge].
      - apply (S2 j). lia.
      - destruct (Z.eq_dec j (loc d column line)) as [-> | Hne];
          [reflexivity | apply (E2 j); lia]. }
    split; [exact S3 |]. split; [exact E3 |].
    split; [lia |]. split; [lia |].
    split.
    { intros r Hr. destruct (Z_lt_le_dec r line) as [Hlt | Hge];
        [apply R3 | apply Q3]; lia. }
    split; [lia |]. split; [lia |].
    split; [exact R2 |]. split; [exact Q2 |].
    repeat split; reflexivity.
  - intros ev d img line column x0 x1 _ Himg _ _ _. apply Hrow. exact Himg.
  - intros d img ev y Hsp Hletters _ Himg _ Hcols _ Hbtn Hmarks Hpos Hrow'
           Hcells.
    assert (Hclass : forall k, 0 <= k < 11 -> k <> 5 ->
              charClass env d (character (cell img (loc d k y))) = 97).
    { intros k Hk Hk5. rewrite Hcells by exact Hk.
      destruct (Hletters (zth 0 helloWorld k)) as [H1 H2].
      - now apply zth_helloWorld.
      - assert (k = 0 \/ k = 1 \/ k = 2 \/ k = 3 \/ k = 4 \/ k = 6
                \/ k = 7 \/ k = 8 \/ k = 9 \/ k = 10) as Hcase by lia.
        repeat (destruct Hcase as [-> | Hcase]; [vm_compute; discriminate |]).
        subst k. vm_compute. discriminate.
      - unfold charClass. now rewrite H1, H2. }
    assert (Hspace : charClass env d (character (cell img (loc d 5 y))) = 32).
    { rewrite Hcells by lia. change (zth 0 helloWorld 5) with 32.
      unfold charClass. now rewrite Hsp. }
    destruct (Hrow ev d img y 2 0 4 Himg Hbtn Hmarks Hpos) as (d' & E & S & F);
      try lia.
    + intros x Hx. rewrite !Hclass by lia. reflexivity.
    + unfold wordStartGoesOn.
      destruct Hrow' as [Hy | Hw].
      * replace (y >? 0) with false
          by (symmetry; rewrite Z.gtb_ltb; apply Z.ltb_ge; lia).
        reflexivity.
      * rewrite Hw. rewrite andb_false_r. reflexivity.
    + unfold wordEndGoesOn.
      replace (loc d 4 y + 1) with (loc d 5 y) by (unfold loc; lia).
      rewrite Hspace, (Hclass 2) by lia. cbn. apply andb_false_r.
    + exists d'. split; [exact E |]. split; [exact S |].
      rewrite F. rewrite Hcells by lia.
      change (zth 0 helloWorld 4 =? 64) with false. reflexivity.
Qed.

End WordSelection.

Lemma doubleClick_grows_word_witness :
  (exists d',
     mouseDoubleClickEvent plain (leftButtonAt 3 2) helloDisplay = Some d'
     /\ selectionStart (_screenWindow d') = Some (0, 1, false)
     /\ selectionEnd (_screenWindow d') = Some (4, 1))
  /\ (let selClass :=
        charClass plain atDisplay (character (cell atImage (loc atDisplay 0 0))) in
      exists d' i0 x0 y0 i1 x1 y1,
        mouseDoubleClickEvent plain (leftButtonAt 1 1) atDisplay = Some d'
        /\ selectionStart (_screenWindow d') = Some (x0, y0, false)
        /\ selectionEnd (_screenWindow d')
           = Some (if (character (cell atImage i1) =? 64) && (x1 - x0 >? 0)
                   then x1 - 1 else x1, y1)
        /\ i0 <= loc atDisplay 0 0 <= i1
        /\ (forall j, i0 <= j <= i1 ->
                      charClass plain atDisplay (character (cell atImage j))
                      = selClass)
        /\ wordStartGoesOn plain atDisplay atImage selClass i0 x0 y0 = false
        /\ wordEndGoesOn plain atDisplay atImage selClass i1 x1 y1 = false
        /\ 0 <= y0 <= 0 /\ 0 <= y1 < _usedLines atDisplay
        /\ (forall r, y0 <= r < y1 -> lineWrapped atDisplay r = true)
        /\ 0 <= x0 < _usedColumns atDisplay /\ 0 <= x1 < _usedColumns atDisplay
        /\ (0 - y0) * _usedColumns atDisplay + (0 - x0)
           = loc atDisplay 0 0 - i0
        /\ (y1 - 0) * _usedColumns atDisplay + (x1 - 0)
           = i1 - loc atDisplay 0 0
        /\ _actSel d' = 2 /\ _wordSelectionMode d' = true
        /\ _possibleTripleClick d' = true
        /\ _iPntSel d' = mkQPoint 0 (0 + sb_value (_scrollBar atDisplay))).
Proof.
  destruct (doubleClick_grows_word plain) as (_ & Hany & _ & Hhello).
  split.
  - apply (Hhello helloDisplay
             (repeat blankCharacter 11 ++ map charCell helloWorld
              ++ [blankCharacter])).
    + reflexivity.
    + intros c Hc Hne. simpl in Hc.
      repeat (destruct Hc as [<- | Hc]; [split; reflexivity || congruence |]).
      contradiction.
    + wellFormed_concrete.
    + reflexivity.
    + simpl. lia.
    + simpl. lia.
    + vm_compute. discriminate.
    + reflexivity.
    + reflexivity.
    + reflexivity.
    + right. reflexivity.
    + intros k Hk.
      assert (k = 0 \/ k = 1 \/ k = 2 \/ k = 3 \/ k = 4 \/ k = 5 \/ k = 6
              \/ k = 7 \/ k = 8 \/ k = 9 \/ k = 10) as Hcase by lia.
      repeat (destruct Hcase as [-> | Hcase]; [reflexivity |]).
      subst k. reflexivity.
  - apply (Hany (leftButtonAt 1 1) atDisplay atImage 0 0).
    + wellFormed_concrete.
    + reflexivity.
    + simpl. lia.
    + simpl. lia.
    + vm_compute. discriminate.
    + reflexivity.
    + reflexivity.
    + reflexivity.
Defined.

(** C7 as stated fails: on a row that reads "ab@ cd" a double click on
    column 0 selects columns 0 and 1 only, although the at sign in column
    2 is a word character, of the class of the letters, and the space
    only follows in column 3. *)
Lemma doubleClick_leaves_out_trailing_at :
  exists d',
    mouseDoubleClickEvent plain (leftButtonAt 1 1) atDisplay = Some d'
    /\ characterPosition atDisplay (ev_pos (leftButtonAt 1 1)) = Some (0, 0)
    /\ map character (rowCells atImage 6 6 0) = [97; 98; 64; 32; 99; 100]
    /\ charClass plain atDisplay 64 = charClass plain atDisplay 97
    /\ charClass plain atDisplay 32 <> charClass plain atDisplay 97
    /\ selectionStart (_screenWindow d') = Some (0, 0, false)
    /\ selectionEnd (_screenWindow d') = Some (1, 0).
Proof.
  eexists. split; [vm_compute; reflexivity |].
  repeat split; try reflexivity. vm_compute. discriminate.
Qed.

(** ** Line selection *)

(** The loop upwards stops by its own condition and passes only over rows
    that are wrapped into the next one. *)
Lemma lineStart_spec (todo : nat) (d : TerminalDisplay) (y : Z) :
  (Z.to_nat y <= todo)%nat ->
  lineStart todo d y <= y
  /\ (forall r, lineStart todo d y <= r < y -> lineWrapped d r = true)
  /\ (lineStart todo d y <= 0 \/ lineWrapped d (lineStart todo d y - 1) = false).
Proof.
  revert y. induction todo as [| todo IH]; intros y Hfuel; cbn [lineStart].
  - split; [lia |]. split; [intros; lia | left; lia].
  - destruct (y >? 0) eqn:Hy; cbn [andb].
    + boolZ. destruct (lineWrapped d (y - 1)) eqn:Hw.
      * destruct (IH (y - 1)) as (H1 & H2 & H3); [lia |].
        split; [lia |]. split; [| exact H3].
        intros r Hr. destruct (Z.eq_dec r (y - 1)) as [-> | Hne];
          [exact Hw | apply H2; lia].
      * split; [lia |]. split; [intros; lia | right; exact Hw].
    + boolZ. split; [lia |]. split; [intros; lia | left; lia].
Qed.

Lemma lineEnd_spec (todo : nat) (d : TerminalDisplay) (last y : Z) :
  (Z.to_nat (last - y) <= todo)%nat ->
  y <= lineEnd todo d last y
  /\ (forall r, y <= r < lineEnd todo d last y -> lineWrapped d r = true)
  /\ (last <= lineEnd todo d last y
      \/ lineWrapped d (lineEnd todo d last y) = false).
Proof.
  revert y. induction todo as [| todo IH]; intros y Hfuel; cbn [lineEnd].
  - split; [lia |]. split; [intros; lia | left; lia].
  - destruct (y <? last) eqn:Hy; cbn [andb].
    + boolZ. destruct (lineWrapped d y) eqn:Hw.
      * destruct (IH (y + 1)) as (H1 & H2 & H3); [lia |].
        split; [lia |]. split; [| exact H3].
        intros r Hr. destruct (Z.eq_dec r y) as [-> | Hne];
          [exact Hw | apply H2; lia].
      * split; [lia |]. split; [intros; lia | right; exact Hw].
    + boolZ. split; [lia |]. split; [intros; lia | left; lia].
Qed.

(** The loop downwards does not stop before the end of a run of wrapped
    rows. *)
Lemma lineEnd_reaches (todo : nat) (d : TerminalDisplay) (last y b : Z) :
  (Z.to_nat (last - y) <= todo)%nat ->
  y <= b <= last -> (forall r, y <= r < b -> lineWrapped d r = true) ->
  b <= lineEnd todo d last y.
Proof.
  intros Hfuel Hb Hrun.
  destruct (lineEnd_spec todo d last y Hfuel) as (H1 & H2 & [H3 | H3]); [lia |].
  destruct (Z_lt_le_dec (lineEnd todo d last y) b) as [Hlt | Hge]; [| exact Hge].
  rewrite Hrun in H3 by lia. discriminate.
Qed.

Lemma characterPosition_line (d : TerminalDisplay) (p : QPoint) (line column : Z) :
  characterPosition d p = Some (line, column) -> line < _usedLines d.
Proof.
  unfold characterPosition, intDivAny.
  destruct (_ || _); [discriminate |].
  destruct (_ || _); [discriminate |].
  intros H. injection H as <- _.
  repeat match goal with
  | |- context [if ?c then _ else _] =>
      let E := fresh "E" in destruct c eqn:E; boolZ
  end; lia.
Qed.

Lemma inSelection_rows (columns top bottom c r : Z) :
  top <= r <= bottom -> 0 <= c < columns ->
  inSelection (mkQPoint 0 top) (mkQPoint (columns - 1) bottom) (mkQPoint c r)
  = true.
Proof.
  intros Hr Hc. unfold inSelection, before. simpl.
  apply andb_true_iff. split; apply negb_true_iff; apply orb_false_iff; split;
    try (apply Z.ltb_ge; lia);
    apply andb_false_iff; destruct (Z.eq_dec r top), (Z.eq_dec bottom r);
    try (left; apply Z.eqb_neq; lia); right; apply Z.ltb_ge; lia.
Qed.

(** The two loops stay on the rows of the grid. *)
Lemma lineStart_nonneg (todo : nat) (d : TerminalDisplay) (y : Z) :
  0 <= y -> 0 <= lineStart todo d y.
Proof.
  revert y. induction todo as [| todo IH]; intros y Hy; cbn [lineStart];
    [exact Hy |].
  destruct (y >? 0) eqn:Hpos; cbn [andb]; [| exact Hy]. boolZ.
  destruct (lineWrapped d (y - 1)); [apply IH; lia | exact Hy].
Qed.

Lemma lineEnd_le (todo : nat) (d : TerminalDisplay) (last y : Z) :
  y <= last -> lineEnd todo d last y <= last.
Proof.
  revert y. induction todo as [| todo IH]; intros y Hy; cbn [lineEnd];
    [exact Hy |].
  destruct (y <? last) eqn:Hlt; cbn [andb]; [| exact Hy]. boolZ.
  destruct (lineWrapped d y); [apply IH; lia | exact Hy].
Qed.

Section LineSelection.

Variable env : Collaborators.

(** On a row that does not continue a wrapped row, the loop for the start
    of a word stays on the row. *)
Lemma findWordStart_stays (todo : nat) (d : TerminalDisplay)
  (img : list Character) (selClass lastColumn i x y : Z) :
  y <= 0 \/ lineWrapped d (y - 1) = false -> 0 <= x ->
  let '(i', x', y') := findWordStart env todo d img selClass lastColumn i x y in
  y' = y /\ 0 <= x' <= x /\ i - i' = x - x'.
Proof.
  intros Hrow. revert i x. induction todo as [| todo IH]; intros i x Hx;
    cbn [findWordStart].
  - repeat split; lia.
  - destruct (x >? 0) eqn:Hpos; boolZ.
    + cbn [orb]. destruct (_ && _); [| repeat split; lia].
      specialize (IH (i - 1) (x - 1) ltac:(lia)).
      destruct (findWordStart env todo d img selClass lastColumn (i - 1) (x - 1) y)
        as [[i' x'] y'].
      destruct IH as (H1 & H2 & H3). repeat split; lia.
    + replace ((y >? 0) && lineWrapped d (y - 1)) with false.
      * cbn [orb andb]. repeat split; lia.
      * symmetry. destruct Hrow as [Hy | Hw].
        -- replace (y >? 0) with false
             by (symmetry; rewrite Z.gtb_ltb; apply Z.ltb_ge; lia).
           reflexivity.
        -- rewrite Hw. apply andb_false_r.
Qed.

(** C6, as the code has it.  A triple click finds the logical line of the
    row clicked on: rows [top] to [bottom], wrapped into one another, with
    no wrapped row before [top] and with [bottom] not wrapped or the last
    row of the grid; with row 4 wrapped into row 5 and neither row 3 nor
    row 5 wrapped, a click on row 4 or on row 5 gives rows 4 and 5.  The
    selection ends at the last allocated column of [bottom].  With the
    cut-to-beginning-of-line option off it starts at column 0 of [top],
    and every cell of the rows of the line lies inside it.  With the
    option on it starts on row [top] at the start [x0] of the run of
    cells of one class that ends at the column clicked on: the start of
    the word that the first row of the line has at that column. *)
Theorem tripleClick_selects_logical_line (ev : QMouseEvent) (d : TerminalDisplay)
  (line column : Z) :
  wellFormed d -> 1 <= _usedLines d -> 1 <= _usedColumns d ->
  _lines d <= len (_lineProperties d) ->
  characterPosition d (ev_pos ev) = Some (line, column) ->
  exists top bottom,
    0 <= top <= line /\ line <= bottom <= _lines d - 1
    /\ (forall r, top <= r < bottom -> lineWrapped d r = true)
    /\ (top <= 0 \/ lineWrapped d (top - 1) = false)
    /\ (_lines d - 1 <= bottom \/ lineWrapped d bottom = false)
    /\ (lineWrapped d 3 = false -> lineWrapped d 4 = true ->
        lineWrapped d 5 = false -> 4 <= line <= 5 -> 5 < _lines d ->
        top = 4 /\ bottom = 5)
    /\ (_cutToBeginningOfLine d = false ->
        exists d',
          mouseTripleClickEvent env ev d = Some d'
          /\ selectionStart (_screenWindow d') = Some (0, top, false)
          /\ selectionEnd (_screenWindow d') = Some (_columns d - 1, bottom)
          /\ _tripleSelBegin d' = mkQPoint 0 top
          /\ _iPntSel d' = mkQPoint column (bottom + sb_value (_scrollBar d))
          /\ _lineSelectionMode d' = true /\ _wordSelectionMode d' = false
          /\ _actSel d' = 2
          /\ forall c r, top <= r <= bottom -> 0 <= c < _columns d ->
               inSelection (mkQPoint 0 top) (mkQPoint (_columns d - 1) bottom)
                           (mkQPoint c r) = true)
    /\ (forall img,
          _cutToBeginningOfLine d = true -> _image d = Some img ->
          let selClass :=
            charClass env d (character (cell img (loc d column top))) in
          exists d' x0,
            mouseTripleClickEvent env ev d = Some d'
            /\ 0 <= x0 <= column
            /\ (forall x, x0 <= x <= column ->
                  charClass env d (character (cell img (loc d x top)))
                  = selClass)
            /\ (x0 = 0
                \/ charClass env d (character (cell img (loc d (x0 - 1) top)))
                   <> selClass)
            /\ selectionStart (_screenWindow d') = Some (x0, top, false)
            /\ selectionEnd (_screenWindow d') = Some (_columns d - 1, bottom)
            /\ _tripleSelBegin d' = mkQPoint x0 top
            /\ _iPntSel d' = mkQPoint column (bottom + sb_value (_scrollBar d))
            /\ _lineSelectionMode d' = true /\ _wordSelectionMode d' = false
            /\ _actSel d' = 2).
Proof.
  intros Hwf Hul Huc Hlp Hpos.
  pose proof Hwf as (_ & _ & Hused & _).
  pose proof (characterPosition_line d _ _ _ Hpos) as Hline.
  set (d1 := set_actSel 2
               (set_wordSelectionMode false
                  (set_lineSelectionMode true
                     (set_screenWindow (clearSelection (_screenWindow d)) d)))).
  set (top := lineStart (Z.to_nat line) d1 line).
  set (bottom := lineEnd (Z.to_nat (_lines d - 1 - top)) d (_lines d - 1) top).
  assert (Hw1 : forall r, lineWrapped d1 r = lineWrapped d r) by reflexivity.
  destruct (lineStart_spec (Z.to_nat line) d1 line (le_n _)) as (T1 & T2 & T3).
  fold top in T1, T2, T3.
  destruct (lineEnd_spec (Z.to_nat (_lines d - 1 - top)) d (_lines d - 1) top
              (le_n _)) as (B1 & B2 & B3).
  fold bottom in B1, B2, B3.
  assert (Hreach : line <= bottom).
  { apply lineEnd_reaches; [lia | lia |].
    intros r Hr. rewrite <- Hw1. apply T2. lia. }
  assert (Hend : forall d2, _lines d2 = _lines d ->
                   _lineProperties d2 = _lineProperties d ->
                   lineEnd (Z.to_nat (_lines d2 - 1 - top)) d2 (_lines d2 - 1) top
                   = bottom).
  { intros d2 E1 E2. rewrite E1. unfold bottom.
    generalize (Z.to_nat (_lines d - 1 - top)) as n. generalize top as yy.
    intros yy n. revert yy. induction n as [| n IH]; intros yy; cbn [lineEnd];
      [reflexivity |].
    unfold lineWrapped. rewrite E2, IH. reflexivity. }
  pose proof (characterPosition_range d _ _ _ Hul Huc Hpos) as [Hlin Hcol].
  assert (Htop0 : 0 <= top) by (apply lineStart_nonneg; lia).
  assert (Hbot : bottom <= _lines d - 1) by (apply lineEnd_le; lia).
  exists top, bottom.
  split; [lia |]. split; [lia |].
  split; [intros r Hr; apply B2; lia |].
  split; [rewrite <- Hw1; exact T3 |].
  split; [exact B3 |].
  split.
  { intros W3 W4 W5 H45 Hrows.
    assert (Htop : top = 4).
    { destruct (Z_lt_le_dec top 4) as [Hlt | Hge].
      - specialize (T2 3 ltac:(lia)). rewrite Hw1 in T2. congruence.
      - destruct (Z.eq_dec top 4) as [E | E]; [exact E |].
        assert (top = 5) by lia.
        destruct T3 as [T3 | T3]; [lia |].
        rewrite Hw1 in T3. replace (top - 1) with 4 in T3 by lia. congruence. }
    split; [exact Htop |].
    destruct (Z_lt_le_dec 5 bottom) as [Hlt | Hge].
    - specialize (B2 5 ltac:(lia)). congruence.
    - destruct (Z.eq_dec bottom 5) as [E | E]; [exact E |].
      assert (bottom = 4) by lia.
      destruct B3 as [B3 | B3]; [lia |].
      replace bottom with 4 in B3. congruence. }
  split.
  - intros Hcut.
    unfold mouseTripleClickEvent. rewrite Hpos. cbv beta iota.
    fold d1. change (_cutToBeginningOfLine d1) with (_cutToBeginningOfLine d).
    rewrite Hcut. cbv beta iota. cbn [px py]. fold top.
    set (d2 := set_tripleSelBegin _ _).
    rewrite (Hend d2) by reflexivity.
    change (_columns d2) with (_columns d).
    eexists. split; [reflexivity |].
    split; [reflexivity |]. split; [reflexivity |]. split; [reflexivity |].
    split; [reflexivity |]. split; [reflexivity |]. split; [reflexivity |].
    split; [reflexivity |].
    intros c r Hr Hc. now apply inSelection_rows.
  - intros img Hcut Himg selClass.
    unfold mouseTripleClickEvent. rewrite Hpos. cbv beta iota.
    fold d1. change (_cutToBeginningOfLine d1) with (_cutToBeginningOfLine d).
    rewrite Hcut. cbv beta iota. cbn [px py]. fold top.
    change (_image d1) with (_image d). rewrite Himg.
    change (loc d1 column top) with (loc d column top).
    change (charClass env d1 (character (cell img (loc d column top))))
      with selClass.
    pose proof (findWordStart_spec env
                  (wordStartSteps (_columns d1 - 1) column top) d1 img
                  selClass (_columns d1 - 1) (loc d column top)
                  column top (le_n _)) as Hs.
    pose proof (findWordStart_stays
                  (wordStartSteps (_columns d1 - 1) column top) d1 img
                  selClass (_columns d1 - 1) (loc d column top)
                  column top T3 ltac:(lia)) as Hst.
    destruct (findWordStart _ _ _ _ _ _ _ _ _) as [[i0 x0] y0].
    destruct Hs as (S1 & S2 & S3). destruct Hst as (-> & R1 & R2).
    cbv beta iota. cbn [px py].
    set (d2 := set_tripleSelBegin _ _).
    rewrite (Hend d2) by reflexivity.
    change (_columns d2) with (_columns d).
    assert (Hi0 : i0 = loc d x0 top) by (unfold loc in *; lia).
    eexists. exists x0. split; [reflexivity |].
    split; [lia |].
    split.
    { intros x Hx. destruct (Z.eq_dec x column) as [-> | Hne]; [reflexivity |].
      change (charClass env d (character (cell img (loc d x top))))
        with (charClass env d1 (character (cell img (loc d x top)))).
      apply S2. unfold loc in *. lia. }
    split.
    { unfold wordStartGoesOn in S3.
      destruct (Z.eq_dec x0 0) as [E0 | Hne]; [left; exact E0 | right].
      replace (x0 >? 0) with true in S3
        by (symmetry; rewrite Z.gtb_ltb; apply Z.ltb_lt; lia).
      cbn [orb andb] in S3. apply Z.eqb_neq in S3.
      replace (loc d (x0 - 1) top) with (i0 - 1) by (unfold loc in *; lia).
      exact S3. }
    repeat split; reflexivity.
Qed.

End LineSelection.

Lemma tripleClick_selects_logical_line_witness :
  (exists d',
     mouseTripleClickEvent plain (leftButtonAt 2 6) wrappedDisplay = Some d'
     /\ selectionStart (_screenWindow d') = Some (0, 4, false)
     /\ selectionEnd (_screenWindow d') = Some (2, 5))
  /\ (exists d' x0 top bottom,
        mouseTripleClickEvent plain (leftButtonAt 10 2) wrappedCutDisplay
        = Some d'
        /\ 0 <= top <= 1 /\ 1 <= bottom <= 1 /\ 0 <= x0 <= 9
        /\ selectionStart (_screenWindow d') = Some (x0, top, false)
        /\ selectionEnd (_screenWindow d') = Some (10, bottom)
        /\ _tripleSelBegin d' = mkQPoint x0 top).
Proof.
  split.
  - destruct (tripleClick_selects_logical_line plain (leftButtonAt 2 6)
                wrappedDisplay 5 1)
      as (top & bottom & _ & _ & _ & _ & _ & Hrows & Hoff & _).
    + wellFormed_concrete.
    + simpl. lia.
    + simpl. lia.
    + vm_compute. discriminate.
    + reflexivity.
    + destruct Hrows as [Ht Hb]; try reflexivity; try (simpl; lia).
      subst top bottom.
      destruct (Hoff eq_refl) as (d' & E & S1 & S2 & _).
      exists d'. split; [exact E |]. split; [exact S1 | exact S2].
  - destruct (tripleClick_selects_logical_line plain (leftButtonAt 10 2)
                wrappedCutDisplay 1 9)
      as (top & bottom & Htop & Hbottom & _ & _ & _ & _ & _ & Hcut).
    + wellFormed_concrete.
    + simpl. lia.
    + simpl. lia.
    + vm_compute. discriminate.
    + reflexivity.
    + destruct (Hcut (map charCell wordsAbc ++ map charCell wordsDef
                      ++ [blankCharacter]) eq_refl eq_refl)
        as (d' & x0 & E & Hx0 & _ & _ & S1 & S2 & T & _).
      exists d', x0, top, bottom.
      split; [exact E |]. split; [exact Htop |].
      split; [simpl in Hbottom; lia |]. split; [exact Hx0 |].
      split; [exact S1 |]. split; [exact S2 | exact T].
Defined.

(** The scenario of the wrapped line: row 4 is wrapped into row 5, and a
    triple click on row 5, or on row 4, selects rows 4 and 5 in full. *)
Example tripleClick_on_rows_4_and_5 :
  (exists d',
     mouseTripleClickEvent plain (leftButtonAt 2 6) wrappedDisplay = Some d'
     /\ characterPosition wrappedDisplay (ev_pos (leftButtonAt 2 6))
        = Some (5, 1)
     /\ selectionStart (_screenWindow d') = Some (0, 4, false)
     /\ selectionEnd (_screenWindow d') = Some (2, 5))
  /\ (exists d',
        mouseTripleClickEvent plain (leftButtonAt 2 5) wrappedDisplay = Some d'
        /\ characterPosition wrappedDisplay (ev_pos (leftButtonAt 2 5))
           = Some (4, 1)
        /\ selectionStart (_screenWindow d') = Some (0, 4, false)
        /\ selectionEnd (_screenWindow d') = Some (2, 5)).
Proof.
  split; eexists; (split; [vm_compute; reflexivity |]);
    repeat split; reflexivity.
Qed.

(** With the option on and the first row wrapped into the second, a
    triple click on "fff" in the second row starts the selection at
    "ccc", the word at the column of the pointer in the first row. *)
Example tripleClick_cut_on_wrapped_rows :
  exists d',
    mouseTripleClickEvent plain (leftButtonAt 10 2) wrappedCutDisplay = Some d'
    /\ characterPosition wrappedCutDisplay (ev_pos (leftButtonAt 10 2))
       = Some (1, 9)
    /\ selectionStart (_screenWindow d') = Some (8, 0, false)
    /\ selectionEnd (_screenWindow d') = Some (10, 1).
Proof.
  eexists. split; [vm_compute; reflexivity |]. repeat split; reflexivity.
Qed.

(** C6 as stated fails: with the cut-to-beginning-of-line option on, a
    triple click on "world" starts the selection at column 6, the start
    of the word, and leaves columns 0 to 5 of the row out. *)
Lemma tripleClick_cut_starts_at_word :
  exists d',
    mouseTripleClickEvent plain (leftButtonAt 9 2) helloCutDisplay = Some d'
    /\ characterPosition helloCutDisplay (ev_pos (leftButtonAt 9 2))
       = Some (1, 8)
    /\ len (_lineProperties helloCutDisplay) = _lines helloCutDisplay
    /\ selectionStart (_screenWindow d') = Some (6, 1, false)
    /\ selectionEnd (_screenWindow d') = Some (10, 1)
    /\ inSelection (mkQPoint 6 1) (mkQPoint 10 1) (mkQPoint 0 1) = false.
Proof.
  eexists. split; [vm_compute; reflexivity |].
  repeat split; reflexivity.
Qed.

(** ** The bounds of a dragged selection *)

Lemma before_true (a b : QPoint) :
  before a b = true <-> py a < py b \/ (py a = py b /\ px a < px b).
Proof.
  unfold before. rewrite orb_true_iff, andb_true_iff, !Z.ltb_lt, Z.eqb_eq.
  tauto.
Qed.

Lemma before_false (a b : QPoint) :
  before a b = false <-> py b < py a \/ (py a = py b /\ px b <= px a).
Proof.
  unfold before. rewrite orb_false_iff, andb_false_iff, !Z.ltb_ge, Z.eqb_neq.
  lia.
Qed.

Lemma QPoint_eqb_false (a b : QPoint) :
  QPoint_eqb a b = false <-> px a <> px b \/ py a <> py b.
Proof.
  unfold QPoint_eqb. rewrite andb_false_iff, !Z.eqb_neq. tauto.
Qed.

Section SelectionOrder.

Variable env : Collaborators.

(** The start of a word is at or before the cell the loop starts from,
    the end of a word at or after it. *)
Lemma findWordStart_before (todo : nat) (d : TerminalDisplay)
  (img : list Character) (selClass lastColumn i x y : Z) :
  let '(_, x', y') := findWordStart env todo d img selClass lastColumn i x y in
  readingLe (x', y') (x, y).
Proof.
  revert i x y. induction todo as [| todo IH]; intros i x y; cbn [findWordStart].
  - right. simpl. lia.
  - destruct (_ && _); [| right; simpl; lia].
    destruct (x >? 0) eqn:Hx.
    + specialize (IH (i - 1) (x - 1) y).
      destruct (findWordStart env todo d img selClass lastColumn (i - 1) (x - 1) y)
        as [[i' x'] y'].
      unfold readingLe in *. simpl in *. lia.
    + specialize (IH (i - 1) lastColumn (y - 1)).
      destruct (findWordStart env todo d img selClass lastColumn (i - 1)
                  lastColumn (y - 1)) as [[i' x'] y'].
      unfold readingLe in *. simpl in *. lia.
Qed.

Lemma findWordEnd_after (todo : nat) (d : TerminalDisplay)
  (img : list Character) (selClass i x y : Z) :
  let '(_, x', y') := findWordEnd env todo d img selClass i x y in
  readingLe (x, y) (x', y').
Proof.
  revert i x y. induction todo as [| todo IH]; intros i x y; cbn [findWordEnd].
  - right. simpl. lia.
  - destruct (_ && _); [| right; simpl; lia].
    destruct (x <? _usedColumns d - 1) eqn:Hlt.
    + specialize (IH (i + 1) (x + 1) y).
      destruct (findWordEnd env todo d img selClass (i + 1) (x + 1) y)
        as [[i' x'] y'].
      unfold readingLe in *. simpl in *. lia.
    + specialize (IH (i + 1) 0 (y + 1)).
      destruct (findWordEnd env todo d img selClass (i + 1) 0 (y + 1))
        as [[i' x'] y'].
      unfold readingLe in *. simpl in *. lia.
Qed.

Lemma skipBlanks_after (todo : nat) (d : TerminalDisplay)
  (img : list Character) (selClass i x y : Z) :
  x <= snd (skipBlanks env todo d img selClass i x y).
Proof.
  revert i x. induction todo as [| todo IH]; intros i x; cbn [skipBlanks].
  - simpl. lia.
  - destruct (_ && _); [| simpl; lia]. specialize (IH (i + 1) (x + 1)). lia.
Qed.


Lemma lineStart_le (todo : nat) (d : TerminalDisplay) (y : Z) :
  lineStart todo d y <= y.
Proof.
  revert y. induction todo as [| todo IH]; intros y; cbn [lineStart]; [lia |].
  destruct (_ && _); [specialize (IH (y - 1)) |]; lia.
Qed.

Lemma lineEnd_ge (todo : nat) (d : TerminalDisplay) (last y : Z) :
  y <= lineEnd todo d last y.
Proof.
  revert y. induction todo as [| todo IH]; intros y; cbn [lineEnd]; [lia |].
  destruct (_ && _); [specialize (IH (y + 1)) |]; lia.
Qed.

(** The character-wise block: the bound on the side of the pointer is
    [here], the bound on the side of the anchor is [ohere]; on the far
    side a bound may have run to the end of its row over blanks. *)
Lemma extendPlain_spec (d : TerminalDisplay) (iC pC : QPoint)
  (l0 l : ExtendLocals) :
  extendPlain env d iC pC l0 = Some l ->
  swapping l = negb (Bool.eqb (before (here l0) iC) (before pC iC))
  /\ (before (here l0) iC = true ->
      here l = here l0 /\ offset l = 0 /\ py (ohere l) = py iC
      /\ (px (ohere l) = px iC
          \/ (_columnSelectionMode d = false /\ px iC + 1 <= px (ohere l))))
  /\ (before (here l0) iC = false ->
      ohere l = iC /\ offset l = -1 /\ py (here l) = py (here l0)
      /\ (px (here l) = px (here l0)
          \/ (_columnSelectionMode d = false
              /\ px (here l0) + 1 <= px (here l)))).
Proof.
  unfold extendPlain.
  set (right := if before (here l0) iC then iC else here l0).
  set (right' := if (px right >? 0) && negb (_columnSelectionMode d) then _ else _).
  intros H.
  assert (Hright : forall r, right' = Some r ->
            py r = py right
            /\ (px r = px right
                \/ (_columnSelectionMode d = false /\ px right + 1 <= px r))).
  { intros r Hr. unfold right' in Hr.
    destruct ((px right >? 0) && negb (_columnSelectionMode d)) eqn:Hc.
    - apply andb_true_iff in Hc. destruct Hc as [_ Hc].
      apply negb_true_iff in Hc.
      destruct (inImage d (loc d (px right) (py right))).
      + destruct (_image d) as [img |]; [| discriminate].
        destruct (_ =? 32).
        * pose proof (skipBlanks_after (Z.to_nat (_usedColumns d - 1 - px right))
                        d img
                        (charClass env d
                           (character (cell img (loc d (px right) (py right) - 1))))
                        (loc d (px right) (py right)) (px right) (py right)) as Hge.
          destruct (skipBlanks env _ d img _ _ _ _) as [i x]. simpl in Hge.
          destruct (x <? _usedColumns d - 1).
          -- injection Hr as <-. fold right. split; [reflexivity | left; reflexivity].
          -- injection Hr as <-. simpl. split; [reflexivity | right; split; [exact Hc | lia]].
        * injection Hr as <-. split; [reflexivity | left; reflexivity].
      + injection Hr as <-. split; [reflexivity | left; reflexivity].
    - injection Hr as <-. split; [reflexivity | left; reflexivity]. }
  destruct right' as [r |]; [| discriminate].
  specialize (Hright r eq_refl). unfold right in Hright.
  destruct (before (here l0) iC) eqn:Hlr; injection H as <-; simpl.
  - split; [reflexivity |]. split; [| discriminate].
    intros _. repeat split; tauto.
  - split; [reflexivity |]. split; [discriminate |].
    intros _. repeat split; tauto.
Qed.

(** The word block: [here] is the word bound on the side of the pointer,
    and [ohere], one column to the right of the word bound on the side of
    the anchor. *)
Lemma extendWord_spec (d : TerminalDisplay) (iC pC : QPoint)
  (l0 l : ExtendLocals) :
  extendWord env d iC pC l0 = Some l ->
  offset l = offset l0
  /\ swapping l = negb (Bool.eqb (before (here l0) iC) (before pC iC))
  /\ (before (here l0) iC = true ->
      readingLe (pt (here l)) (pt (here l0))
      /\ readingLe (pt iC) (px (ohere l) - 1, py (ohere l)))
  /\ (before (here l0) iC = false ->
      readingLe (px (ohere l) - 1, py (ohere l)) (pt iC)
      /\ readingLe (pt (here l0)) (pt (here l))).
Proof.
  unfold extendWord.
  set (left := if before (here l0) iC then here l0 else iC).
  set (right := if before (here l0) iC then iC else here l0).
  set (left' := if inImage d (loc d (px left) (py left)) then _ else _).
  intros H.
  assert (Hleft : forall r, left' = Some r -> readingLe (pt r) (pt left)).
  { intros r Hr. unfold left' in Hr.
    destruct (inImage d (loc d (px left) (py left))).
    - destruct (_image d) as [img |]; [| discriminate].
      pose proof (findWordStart_before
                    (wordStartSteps (_usedColumns d - 1) (px left) (py left))
                    d img
                    (charClass env d (character (cell img (loc d (px left) (py left)))))
                    (_usedColumns d - 1) (loc d (px left) (py left))
                    (px left) (py left)) as Hm.
      destruct (findWordStart env _ d img _ _ _ _ _) as [[i x] y].
      injection Hr as <-. exact Hm.
    - injection Hr as <-. right. simpl. lia. }
  destruct left' as [lf |]; [| discriminate].
  specialize (Hleft lf eq_refl).
  set (right' := if inImage d (loc d (px right) (py right)) then _ else _) in H.
  assert (Hright : forall r, right' = Some r -> readingLe (pt right) (pt r)).
  { intros r Hr. unfold right' in Hr.
    destruct (inImage d (loc d (px right) (py right))).
    - destruct (_image d) as [img |]; [| discriminate].
      pose proof (findWordEnd_after
                    (wordEndSteps d (px right) (py right)) d img
                    (charClass env d (character (cell img (loc d (px right) (py right)))))
                    (loc d (px right) (py right)) (px right) (py right)) as Hm.
      destruct (findWordEnd env _ d img _ _ _ _) as [[i x] y].
      injection Hr as <-. exact Hm.
    - injection Hr as <-. right. simpl. lia. }
  destruct right' as [rt |]; [| discriminate].
  specialize (Hright rt eq_refl). unfold left, right in *.
  destruct (before (here l0) iC) eqn:Hlr; injection H as <-; simpl.
  - split; [reflexivity |]. split; [reflexivity |]. split; [| discriminate].
    intros _. split; [exact Hleft |].
    unfold readingLe, pt in *. simpl in *. lia.
  - split; [reflexivity |]. split; [reflexivity |]. split; [discriminate |].
    intros _. split; [| exact Hright].
    unfold readingLe, pt in *. simpl in *. lia.
Qed.

(** The line block: the bounds are column 0 of a row at or above, and the
    last used column of a row at or below, the rows of the pointer and of
    the anchor. *)
Lemma extendLine_spec (d : TerminalDisplay) (iC : QPoint) (l0 : ExtendLocals) :
  let l := extendLine d iC l0 in
  offset l = offset l0
  /\ ((py (here l0) <? py iC) = true ->
      px (here l) = 0 /\ py (here l) <= py (here l0)
      /\ px (ohere l) - 1 = _usedColumns d - 1 /\ py iC <= py (ohere l))
  /\ ((py (here l0) <? py iC) = false ->
      px (ohere l) - 1 = 0 /\ py (ohere l) <= py iC
      /\ px (here l) = _usedColumns d - 1 /\ py (here l0) <= py (here l)).
Proof.
  unfold extendLine.
  destruct (py (here l0) <? py iC) eqn:Hab; simpl.
  - split; [reflexivity |]. split; [| discriminate]. intros _.
    repeat split; try lia; [apply lineStart_le | apply lineEnd_ge].
  - split; [reflexivity |]. split; [discriminate |]. intros _.
    repeat split; try lia; [apply lineStart_le | apply lineEnd_ge].
Qed.

End SelectionOrder.

Section SelectionBounds.

Variable env : Collaborators.

Lemma extendWord_tripleSelBegin (d : TerminalDisplay) (iC pC : QPoint)
  (l0 l : ExtendLocals) :
  extendWord env d iC pC l0 = Some l -> tripleSelBegin l = tripleSelBegin l0.
Proof.
  unfold extendWord. intros H.
  destruct (if inImage d _ then _ else _) as [lf |]; [| discriminate].
  destruct (if inImage d _ then _ else _) as [rt |]; [| discriminate].
  destruct (before (here l0) iC); injection H as <-; reflexivity.
Qed.

(** What the three blocks hand on, in every mode: the two bounds, in the
    order of the drag. *)
Lemma extendBounds_every_mode (d : TerminalDisplay) (line column : Z)
  (l : ExtendLocals) :
  1 <= _usedColumns d ->
  extendBounds env d line column = Some l ->
  (draggedBackwards env d line column = true ->
   readingLe (endBound d l) (startCell (startBound d l)))
  /\ (draggedBackwards env d line column = false ->
      QPoint_eqb (here l) (ohere l) = false ->
      readingLe (startCell (startBound d l)) (endBound d l))
  /\ (_lineSelectionMode d = true ->
      (line < py (iPntSelCorr d) -> draggedBackwards env d line column = true)
      /\ (py (iPntSelCorr d) < line -> draggedBackwards env d line column = false)
      /\ (_wordSelectionMode d = false ->
          draggedBackwards env d line column = (line <? py (iPntSelCorr d)))
      /\ swapping l
         = negb (QPoint_eqb (_tripleSelBegin d)
                            (mkQPoint (px (ohere l) - 1) (py (ohere l)))))
  /\ (_lineSelectionMode d = false ->
      swapping l
      = negb (Bool.eqb (before (mkQPoint column line) (iPntSelCorr d))
                       (before (pntSelCorr d) (iPntSelCorr d)))).
Proof.
  intros Hcols Hb. unfold extendBounds in Hb.
  unfold draggedBackwards, pointerSide, startBound, endBound, columnModeOnly,
    startCell.
  destruct (_wordSelectionMode d) eqn:Hw; destruct (_lineSelectionMode d) eqn:Hl;
    cbn [negb andb] in *.
  - (* word and line selection *)
    rewrite !andb_false_r.
    destruct (extendWord env d (iPntSelCorr d) (pntSelCorr d) _) as [l1 |] eqn:E;
      [| discriminate].
    injection Hb as <-.
    pose proof (extendWord_spec env d _ _ _ _ E) as (Ho & _ & Hback & Hfwd).
    cbn [here offset] in Ho, Hback, Hfwd.
    destruct (extendLine_spec d (iPntSelCorr d) l1) as (Ho2 & Lback & Lfwd).
    rewrite Ho2, Ho.
    split; [| split; [| split]].
    + intros Hd. destruct (Lback Hd) as (H1 & H2 & H3 & H4). boolZ.
      unfold readingLe. simpl. lia.
    + intros Hd _. destruct (Lfwd Hd) as (H1 & H2 & H3 & H4). boolZ.
      unfold readingLe. simpl. lia.
    + intros _. split; [| split; [| split]].
      * intros Habove.
        assert (Hbf : before {| px := column; py := line |} (iPntSelCorr d) = true)
          by (apply before_true; left; exact Habove).
        destruct (Hback Hbf) as [H1 _].
        apply Z.ltb_lt. unfold readingLe, pt in H1. simpl in H1. lia.
      * intros Hbelow.
        assert (Hbf : before {| px := column; py := line |} (iPntSelCorr d) = false)
          by (apply before_false; left; exact Hbelow).
        destruct (Hfwd Hbf) as [_ H1].
        apply Z.ltb_ge. unfold readingLe, pt in H1. simpl in H1. lia.
      * discriminate.
      * pose proof (extendWord_tripleSelBegin d _ _ _ _ E) as Ht.
        cbn [tripleSelBegin] in Ht.
        unfold extendLine. destruct (py (here l1) <? py (iPntSelCorr d));
          cbn [swapping ohere px py tripleSelBegin]; rewrite Ht;
          unfold QPoint_eqb; cbn [px py]; rewrite Z.add_simpl_r;
          reflexivity.
    + discriminate.
  - (* word selection *)
    rewrite !andb_false_r.
    destruct (extendWord env d (iPntSelCorr d) (pntSelCorr d) _) as [l1 |] eqn:E;
      [| discriminate].
    injection Hb as <-.
    apply extendWord_spec in E. cbn [here offset] in E.
    destruct E as (Ho & Hs & Hback & Hfwd). rewrite Ho.
    split; [| split; [| split]].
    + intros Hd. destruct (Hback Hd) as [H1 H2].
      apply before_true in Hd.
      unfold readingLe, pt in *. simpl in *. lia.
    + intros Hd _. destruct (Hfwd Hd) as [H1 H2].
      apply before_false in Hd.
      unfold readingLe, pt in *. simpl in *. lia.
    + discriminate.
    + intros _. exact Hs.
  - (* line selection *)
    rewrite !andb_false_r. injection Hb as <-.
    destruct (extendLine_spec d (iPntSelCorr d)
                (mkExtendLocals (mkQPoint column line) (mkQPoint 0 0) false 0
                                (_tripleSelBegin d)))
      as (Ho & Hback & Hfwd).
    cbn [here offset py px] in Ho, Hback, Hfwd. rewrite Ho.
    cbv beta iota. cbn [py].
    split; [| split; [| split]].
    + intros Hd. destruct (Hback Hd) as (H1 & H2 & H3 & H4). boolZ.
      unfold readingLe. simpl. lia.
    + intros Hd _. destruct (Hfwd Hd) as (H1 & H2 & H3 & H4). boolZ.
      unfold readingLe. simpl. lia.
    + intros _.
      split; [| split; [| split]].
      * intros H. apply Z.ltb_lt. exact H.
      * intros H. apply Z.ltb_ge. lia.
      * reflexivity.
      * unfold extendLine. cbn [here py].
        destruct (line <? py (iPntSelCorr d));
          cbn [swapping ohere px py tripleSelBegin]; unfold QPoint_eqb;
          cbn [px py]; rewrite Z.add_simpl_r; reflexivity.
    + discriminate.
  - (* character-wise and column selection *)
    rewrite !andb_true_r.
    apply extendPlain_spec in Hb. cbn [here] in Hb.
    destruct Hb as (Hs & Hback & Hfwd).
    split; [| split; [| split]].
    + intros Hd. destruct (Hback Hd) as (H1 & H2 & H3 & H4).
      apply before_true in Hd. rewrite H1, H2.
      destruct (_columnSelectionMode d); unfold readingLe; simpl in *;
        [| lia].
      destruct H4 as [H4 | [H4 _]]; [lia | discriminate].
    + intros Hd Hne. destruct (Hfwd Hd) as (H1 & H2 & H3 & H4).
      apply before_false in Hd. apply QPoint_eqb_false in Hne.
      rewrite H1, H2 in *.
      destruct (_columnSelectionMode d); unfold readingLe; simpl in *;
        [| lia].
      destruct H4 as [H4 | [H4 _]]; [lia | discriminate].
    + discriminate.
    + intros _. exact Hs.
Qed.


(** With an image allocated, the three blocks hand on bounds. *)
Lemma extendBounds_returns (d : TerminalDisplay) (img : list Character)
  (line column : Z) :
  _image d = Some img -> exists l, extendBounds env d line column = Some l.
Proof.
  intros Himg. unfold extendBounds, extendWord, extendPlain. rewrite Himg.
  cbv beta iota zeta.
  repeat match goal with
  | |- context [let '(_, _) := ?p in _] => destruct p
  | |- context [if ?c then _ else _] => destruct c
  | |- context [match ?p with (_, _) => _ end] => destruct p
  end; cbv beta iota; eexists; reflexivity.
Qed.

(** C3, as the code has it.  With an image allocated, [extendSelection]
    returns once the view is scrolled, having worked out two bounds:
    [ohere] on the side of the anchor and [here] on the side of the
    pointer.  In every mode the bound on the pointer's side is at or
    before the bound on the anchor's side when the pointer was dragged
    backwards, and the other way round when it was not.  When the bound
    on the pointer's side is that of the last call, with the view where
    it was, or when the two bounds coincide, nothing is sent.  Otherwise
    the end is sent, always, and the start is sent only when no selection
    was under way or [swapping] is set; if not, the screen window keeps
    the start it had.  [swapping] is set, outside line selection, when
    the pointer has changed sides of the anchor since the last call, and
    in line selection when the bound on the anchor's side is not
    [_tripleSelBegin].  The hypotheses on the anchor and on the line
    properties keep what the loops read inside the image and the
    vector. *)
Theorem extendSelection_sends_bounds (scroll : Z) (pos : QPoint)
  (d : TerminalDisplay) (img : list Character) (line column : Z) :
  wellFormed d -> _image d = Some img ->
  1 <= _usedLines d -> 1 <= _usedColumns d ->
  _usedLines d <= len (_lineProperties d) ->
  anchorReadable d ->
  characterPosition d pos = Some (line, column) ->
  exists d' l,
    extendSelectionAt env scroll pos d = Some d'
    /\ extendBounds env d line column = Some l
    /\ (draggedBackwards env d line column = true ->
        readingLe (endBound d l) (startCell (startBound d l)))
    /\ (draggedBackwards env d line column = false ->
        QPoint_eqb (here l) (ohere l) = false ->
        readingLe (startCell (startBound d l)) (endBound d l))
    /\ (_lineSelectionMode d = true ->
        (line < py (iPntSelCorr d) -> draggedBackwards env d line column = true)
        /\ (py (iPntSelCorr d) < line ->
            draggedBackwards env d line column = false)
        /\ (_wordSelectionMode d = false ->
            draggedBackwards env d line column = (line <? py (iPntSelCorr d)))
        /\ swapping l
           = negb (QPoint_eqb (_tripleSelBegin d)
                              (mkQPoint (px (ohere l) - 1) (py (ohere l)))))
    /\ (_lineSelectionMode d = false ->
        swapping l
        = negb (Bool.eqb (before (mkQPoint column line) (iPntSelCorr d))
                         (before (pntSelCorr d) (iPntSelCorr d))))
    /\ (if (QPoint_eqb (here l) (pntSelCorr d)
            && (scroll =? sb_value (_scrollBar d)))
           || QPoint_eqb (here l) (ohere l)
        then _screenWindow d' = _screenWindow d /\ _actSel d' = _actSel d
             /\ _pntSel d' = _pntSel d
        else selectionEnd (_screenWindow d') = Some (endBound d l)
             /\ selectionStart (_screenWindow d')
                = (if (_actSel d <? 2) || swapping l
                   then Some (startBound d l)
                   else selectionStart (_screenWindow d))
             /\ _actSel d' = 2
             /\ _pntSel d'
                = mkQPoint (px (here l))
                           (py (here l) + sb_value (_scrollBar d))).
Proof.
  intros _ Himg _ Hcols _ _ Hpos.
  destruct (extendBounds_returns d img line column Himg) as [l Hb].
  destruct (extendBounds_every_mode d line column l Hcols Hb)
    as (H1 & H2 & H3 & H4).
  destruct (extendSelectionAt env scroll pos d) as [d' |] eqn:Hext.
  - exists d', l. split; [reflexivity |]. split; [exact Hb |].
    split; [exact H1 |]. split; [exact H2 |]. split; [exact H3 |].
    split; [exact H4 |].
    unfold extendSelectionAt in Hext. rewrite Hpos in Hext.
    cbv beta iota in Hext. rewrite Hb in Hext. cbv beta iota zeta in Hext.
    change (sb_value (_scrollBar (set_tripleSelBegin (tripleSelBegin l) d)))
      with (sb_value (_scrollBar d)) in Hext.
    destruct (QPoint_eqb (here l) (pntSelCorr d)
              && (scroll =? sb_value (_scrollBar d))) eqn:Hmoved.
    + injection Hext as <-. cbn [orb]. repeat split; reflexivity.
    + cbn [orb]. destruct (QPoint_eqb (here l) (ohere l)) eqn:Hne.
      * injection Hext as <-. repeat split; reflexivity.
      * change (_actSel (set_tripleSelBegin (tripleSelBegin l) d))
          with (_actSel d) in Hext.
        change (startBound (set_tripleSelBegin (tripleSelBegin l) d) l)
          with (startBound d l) in Hext.
        destruct (startBound d l) as [[sx sy] sm].
        destruct ((_actSel d <? 2) || swapping l) eqn:Hsend;
          match type of Hext with
          | context [endBound ?dd l] =>
              change (endBound dd l) with (endBound d l) in Hext
          end;
          destruct (endBound d l) as [ex ey]; injection Hext as <-;
          repeat split; reflexivity.
  - exfalso. unfold extendSelectionAt in Hext. rewrite Hpos in Hext.
    cbv beta iota in Hext. rewrite Hb in Hext. cbv beta iota zeta in Hext.
    destruct (_ && _); [discriminate |].
    destruct (QPoint_eqb (here l) (ohere l)); [discriminate |].
    destruct (startBound _ l) as [[sx sy] sm].
    destruct (_ || _);
      match type of Hext with
      | context [endBound ?dd l] => destruct (endBound dd l) as [ex ey]
      end; discriminate.
Qed.

End SelectionBounds.

Lemma extendSelection_sends_bounds_witness :
  (exists d' l,
      extendSelectionAt plain 0 (mkQPoint 3 2) helloPressed = Some d'
      /\ extendBounds plain helloPressed 1 2 = Some l
      /\ (draggedBackwards plain helloPressed 1 2 = true ->
          readingLe (endBound helloPressed l) (startCell (startBound helloPressed l)))
      /\ (draggedBackwards plain helloPressed 1 2 = false ->
          QPoint_eqb (here l) (ohere l) = false ->
          readingLe (startCell (startBound helloPressed l)) (endBound helloPressed l))
      /\ (_lineSelectionMode helloPressed = true ->
          (1 < py (iPntSelCorr helloPressed) -> draggedBackwards plain helloPressed 1 2 = true)
          /\ (py (iPntSelCorr helloPressed) < 1 ->
              draggedBackwards plain helloPressed 1 2 = false)
          /\ (_wordSelectionMode helloPressed = false ->
              draggedBackwards plain helloPressed 1 2 = (1 <? py (iPntSelCorr helloPressed)))
          /\ swapping l
             = negb (QPoint_eqb (_tripleSelBegin helloPressed)
                                (mkQPoint (px (ohere l) - 1) (py (ohere l)))))
      /\ (_lineSelectionMode helloPressed = false ->
          swapping l
          = negb (Bool.eqb (before (mkQPoint 2 1) (iPntSelCorr helloPressed))
                           (before (pntSelCorr helloPressed) (iPntSelCorr helloPressed))))
      /\ (if (QPoint_eqb (here l) (pntSelCorr helloPressed)
              && (0 =? sb_value (_scrollBar helloPressed)))
             || QPoint_eqb (here l) (ohere l)
          then _screenWindow d' = _screenWindow helloPressed /\ _actSel d' = _actSel helloPressed
               /\ _pntSel d' = _pntSel helloPressed
          else selectionEnd (_screenWindow d') = Some (endBound helloPressed l)
               /\ selectionStart (_screenWindow d')
                  = (if (_actSel helloPressed <? 2) || swapping l
                     then Some (startBound helloPressed l)
                     else selectionStart (_screenWindow helloPressed))
               /\ _actSel d' = 2
               /\ _pntSel d'
                  = mkQPoint (px (here l))
                             (py (here l) + sb_value (_scrollBar helloPressed))))
  /\ (exists d' l,
        _wordSelectionMode helloBothModes = true
        /\ _lineSelectionMode helloBothModes = true
        /\ extendSelectionAt plain 0 (mkQPoint 2 3) helloBothModes = Some d'
        /\ extendBounds plain helloBothModes 2 1 = Some l
        /\ draggedBackwards plain helloBothModes 2 1 = false
        /\ readingLe (startCell (startBound helloBothModes l))
                     (endBound helloBothModes l)
        /\ selectionEnd (_screenWindow d') = Some (endBound helloBothModes l)
        /\ selectionStart (_screenWindow d')
           = selectionStart (_screenWindow helloBothModes)).
Proof.
  split.
  - apply (extendSelection_sends_bounds plain 0 (mkQPoint 3 2) helloPressed
             (repeat blankCharacter 11 ++ map charCell helloWorld
              ++ repeat blankCharacter 11 ++ [blankCharacter]) 1 2).
    + wellFormed_concrete.
    + reflexivity.
    + vm_compute. discriminate.
    + vm_compute. discriminate.
    + vm_compute. discriminate.
    + split; [vm_compute; split; [discriminate | reflexivity] |].
      intros H. discriminate H.
    + reflexivity.
  - destruct (extendSelection_sends_bounds plain 0 (mkQPoint 2 3)
                helloBothModes
                (repeat blankCharacter 11 ++ map charCell helloWorld
                 ++ repeat blankCharacter 11 ++ [blankCharacter]) 2 1)
      as (d' & l & E & Hb & _ & Hfwd & Hline & _ & Hsent).
    + wellFormed_computed.
    + vm_compute. reflexivity.
    + vm_compute. discriminate.
    + vm_compute. discriminate.
    + vm_compute. discriminate.
    + split; [vm_compute; split; [discriminate | reflexivity] |].
      intros _ _. vm_compute. split; [reflexivity | discriminate].
    + vm_compute. reflexivity.
    + destruct (Hline eq_refl) as (_ & Hbelow & _).
      assert (Hdrag : draggedBackwards plain helloBothModes 2 1 = false)
        by (apply Hbelow; vm_compute; reflexivity).
      assert (Hl : l = mkExtendLocals (mkQPoint 10 2) (mkQPoint 1 1) false 0
                                      (mkQPoint 0 1))
        by (vm_compute in Hb; injection Hb as <-; reflexivity).
      exists d', l.
      split; [reflexivity |]. split; [reflexivity |]. split; [exact E |].
      split; [exact Hb |]. split; [exact Hdrag |].
      split; [apply (Hfwd Hdrag); rewrite Hl; reflexivity |].
      rewrite Hl in Hsent. vm_compute in Hsent.
      destruct Hsent as (S1 & S2 & _).
      split; [rewrite Hl; exact S1 | exact S2].
Defined.

(** C3 as stated fails: the left button goes down on column 6 of
    "hello world", the pointer is dragged left to column 2 and the button
    is released; the screen window has been given the start (5, 1) and
    the end (2, 1), a start after its end. *)
Lemma drag_left_sends_start_after_end :
  mousePressEvent plain (leftButtonAt 7 2) helloRows = Some helloPressed
  /\ extendSelection plain (mkQPoint 3 2) helloPressed = Some helloDragged
  /\ len (_lineProperties helloRows) = _lines helloRows
  /\ exists d',
       mouseReleaseEvent (leftButtonAt 3 2) helloDragged = Some d'
       /\ selectionStart (_screenWindow d') = Some (5, 1, false)
       /\ selectionEnd (_screenWindow d') = Some (2, 1)
       /\ before (mkQPoint 2 1) (mkQPoint 5 1) = true.
Proof.
  split; [vm_compute; reflexivity |].
  split; [vm_compute; reflexivity |].
  split; [reflexivity |].
  eexists. split; [vm_compute; reflexivity |].
  repeat split; reflexivity.
Qed.

(** After a double click on "world" the pointer is dragged left to column
    1: the pointer has not changed sides and a selection is under way, so
    the start is not sent again; the screen window keeps the start the
    double click gave it, column 6, although the bound on the side of the
    anchor is now column 10, and gets the end column 0. *)
Example doubleClick_then_drag_left_keeps_start :
  mouseDoubleClickEvent plain (leftButtonAt 9 2) helloRows
  = Some helloWordClicked
  /\ selectionStart (_screenWindow helloWordClicked) = Some (6, 1, false)
  /\ selectionEnd (_screenWindow helloWordClicked) = Some (10, 1)
  /\ extendSelection plain (mkQPoint 2 2) helloWordClicked
     = Some helloWordDragged
  /\ (exists l,
        extendBounds plain helloWordClicked 1 1 = Some l
        /\ startBound helloWordClicked l = (10, 1, false)
        /\ swapping l = false)
  /\ _actSel helloWordClicked = 2
  /\ selectionStart (_screenWindow helloWordDragged) = Some (6, 1, false)
  /\ selectionEnd (_screenWindow helloWordDragged) = Some (0, 1).
Proof.
  split; [vm_compute; reflexivity |].
  split; [reflexivity |]. split; [reflexivity |].
  split; [vm_compute; reflexivity |].
  split; [eexists; split; [vm_compute; reflexivity |]; split; reflexivity |].
  repeat split; reflexivity.
Qed.

(** ** The invariant of the image *)

Lemma wellFormed_new (w : ScreenWindow) (contents : QRect) :
  wellFormed (newTerminalDisplay w contents).
Proof.
  unfold wellFormed. simpl. repeat split; try lia; discriminate.
Qed.

Lemma len_clearedImage (size : Z) (img : list Character) :
  len (map (fun p : Z * Character =>
              if (0 <=? fst p) && (fst p <=? size) then blankCharacter else snd p)
           (combine (indices (length img)) img))
  = len img.
Proof.
  unfold len. rewrite length_map, length_combine, length_indices. lia.
Qed.

(** [makeImage] establishes the invariant. *)
Lemma makeImage_wellFormed (d d' : TerminalDisplay) :
  0 <= _usedLines d -> 0 <= _usedColumns d ->
  makeImage d = Some d' -> wellFormed d'.
Proof.
  intros Hul Huc. unfold makeImage.
  destruct (calcGeometry d) as [d1 |] eqn:Hg; [| discriminate].
  assert (Hused : 0 <= _usedLines d1 /\ 0 <= _usedColumns d1).
  { unfold calcGeometry in Hg.
    destruct (_scrollbarLocation _); cbn in Hg;
      (destruct (_isFixedSize d);
       [injection Hg as <-; simpl; lia |];
       destruct (intDiv _ (_fontWidth d)) as [qc |]; [| discriminate];
       destruct (intDiv _ (_fontHeight d)) as [ql |]; [| discriminate];
       injection Hg as <-; simpl; lia). }
  destruct ((_lines d1 >? 0) && (_columns d1 >? 0)) eqn:H1; [| discriminate].
  destruct ((_usedLines d1 <=? _lines d1) && (_usedColumns d1 <=? _columns d1))
    eqn:H2; [| discriminate].
  simpl. intros H. injection H as <-. boolZ.
  unfold wellFormed, clearImage. simpl. split; [lia |]. split; [lia |].
  split; [lia |]. split; [lia |].
  intros img Himg. injection Himg as <-. split; [reflexivity |].
  rewrite len_clearedImage, len_repeat. nia.
Qed.

(** [scrollImage] and [updateImage] keep the invariant. *)
Lemma scrollImage_wellFormed (n : Z) (d d' : TerminalDisplay)
  (b : option ScrollCall) :
  wellFormed d -> scrollImage n d = Some (d', b) -> wellFormed d'.
Proof.
  intros Hwf H. destruct (_image d) as [img |] eqn:Himg.
  - rewrite (scrollImage_allocated n d img Hwf Himg) in H. injection H as <- _.
    apply (wellFormed_set_image d img); auto. apply len_shiftedImage.
  - unfold scrollImage in H. rewrite Himg in H.
    destruct (n =? 0); injection H as <- _; exact Hwf.
Qed.

Lemma updateImage_wellFormed (env : Collaborators) (d d' : TerminalDisplay)
  (img : list Character) (out : UpdateOutput) :
  wellFormed d -> _image d = Some img ->
  updateImage env d = Some (d', out) -> wellFormed d'.
Proof.
  intros Hwf Himg H.
  destruct (updateImage_allocated env d img Hwf Himg)
    as (d1 & E & I1 & I2 & I3 & I4 & I5 & I6).
  rewrite E in H. injection H as <- _.
  destruct Hwf as (Hl & Hc & Hul & Huc & Hsize).
  destruct (Hsize img Himg) as [Hsz Hlen].
  unfold wellFormed. rewrite I1, I2, I3, I4, I5, I6.
  unfold linesToUpdate, columnsToUpdate.
  split; [lia |]. split; [lia |]. split; [lia |]. split; [lia |].
  intros i Hi. injection Hi as <-. split; [exact Hsz |]. unfold updatedRows.
  rewrite len_updateRows. cbn [rows_image]. unfold comparedImage.
  now rewrite len_shiftedImage.
Qed.

(** ** The iterations given to the remaining loops *)

(** The loop that extends a run ends at [lln] at the latest, whatever the
    iterations it is given beyond those that remain. *)
Lemma runLength_fuel (f1 f2 : nat) (len p lln x : Z) (newLine : Z -> Character)
  (m : list Z) (c : Z) (cf cb : CharacterColor) (cr : Z) (ld dw : bool) :
  (Z.to_nat (lln - len) <= f1)%nat -> (Z.to_nat (lln - len) <= f2)%nat ->
  runLength f1 len p lln x newLine m c cf cb cr ld dw
  = runLength f2 len p lln x newLine m c cf cb cr ld dw.
Proof.
  revert f2 len p. induction f1 as [| f1 IH]; intros f2 len p H1 H2.
  - destruct f2; cbn [runLength]; [reflexivity |].
    replace (len <? lln) with false by (symmetry; apply Z.ltb_ge; lia).
    reflexivity.
  - destruct f2 as [| f2]; cbn [runLength].
    + replace (len <? lln) with false by (symmetry; apply Z.ltb_ge; lia).
      reflexivity.
    + destruct (len <? lln) eqn:Hlt; [| reflexivity]. boolZ.
      destruct (character (newLine (x + len)) =? 0); [apply IH; lia |].
      destruct (_ || _); [reflexivity | apply IH; lia].
Qed.

(** The loop over trailing blanks stops by its own condition. *)
Lemma skipBlanks_stops (env : Collaborators) (todo : nat) (d : TerminalDisplay)
  (img : list Character) (selClass i x y : Z) :
  (Z.to_nat (_usedColumns d - 1 - x) <= todo)%nat ->
  let '(i', x') := skipBlanks env todo d img selClass i x y in
  (x' <? _usedColumns d - 1)
  && (charClass env d (character (cell img (i' + 1))) =? selClass)
  && (y <? _usedLines d - 1) && negb (lineWrapped d y) = false.
Proof.
  revert i x. induction todo as [| todo IH]; intros i x Hfuel; cbn [skipBlanks].
  - replace (x <? _usedColumns d - 1) with false
      by (symmetry; apply Z.ltb_ge; lia).
    reflexivity.
  - destruct (_ && _) eqn:Hgo; [| exact Hgo].
    apply IH. boolZ. lia.
Qed.

(** ** Releasing the button *)

(** The release of the left button leaves the bounds given to the screen
    window in place, unless a drag was pending. *)
Lemma mouseReleaseEvent_keeps_selection (ev : QMouseEvent)
  (d d' : TerminalDisplay) :
  drag_state (dragInfo d) <> diPending ->
  mouseReleaseEvent ev d = Some d' ->
  selectionStart (_screenWindow d') = selectionStart (_screenWindow d)
  /\ selectionEnd (_screenWindow d') = selectionEnd (_screenWindow d).
Proof.
  intros Hdrag. unfold mouseReleaseEvent.
  destruct (characterPosition d (ev_pos ev)); [| discriminate].
  destruct (ev_button ev); intros H; injection H as <-;
    try (split; reflexivity).
  destruct (drag_state (dragInfo d)); try contradiction; split; reflexivity.
Qed.

(** ** Cells of character code 0 without a leading cell *)

(** A row that changes into cells of character code 0 only, which a
    well-formed grid never does, is copied without being reported. *)
Example updateImage_zero_cells_not_reported :
  exists d' out,
    updateImage plain zeroCellsUpdate = Some (d', out)
    /\ _resizing zeroCellsUpdate = false
    /\ out_dirtyRegion out = []
    /\ _image d' = Some [charCell 0; charCell 0; blankCharacter].
Proof.
  do 2 eexists. split; [vm_compute; reflexivity |].
  repeat split; reflexivity.
Qed.

(** * Further properties *)

(** ** The geometry of the grid *)

(** What [calcGeometry] leaves alone. *)
Lemma calcGeometry_keeps (d g : TerminalDisplay) :
  calcGeometry d = Some g ->
  _image g = _image d /\ _imageSize g = _imageSize d
  /\ _fontWidth g = _fontWidth d /\ _fontHeight g = _fontHeight d
  /\ _isFixedSize g = _isFixedSize d
  /\ _screenWindow g = _screenWindow d
  /\ contentsRect g = contentsRect d
  /\ _contentWidth g
     = rw (contentsRect d) - 2 * _rimX d
       - match _scrollbarLocation d with
         | SCROLLBAR_NONE => 0
         | _ => scrollBarExtent d
         end
  /\ _contentHeight g = rh (contentsRect d) - 2 * _rimY d + 1.
Proof.
  unfold calcGeometry. cbn -[Z.mul].
  set (kx := 2 * _rimX d). set (ky := 2 * _rimY d).
  destruct (_scrollbarLocation d); cbn;
    (destruct (_isFixedSize d) eqn:Hf;
     [intros H; injection H as <-; cbn; repeat split; try lia; auto |];
     destruct (intDiv _ (_fontWidth d)) as [qc |]; [| discriminate];
     destruct (intDiv _ (_fontHeight d)) as [ql |]; [| discriminate];
     intros H; injection H as <-; cbn; repeat split; try lia; auto).
Qed.

(** The grid of a display of fixed size is not recomputed. *)
Lemma calcGeometry_fixed (d : TerminalDisplay) :
  _isFixedSize d = true ->
  exists g, calcGeometry d = Some g
    /\ _lines g = _lines d /\ _columns g = _columns d
    /\ _usedLines g = _usedLines d /\ _usedColumns g = _usedColumns d.
Proof.
  intros Hf. unfold calcGeometry. cbn -[Z.mul].
  set (kx := 2 * _rimX d). set (ky := 2 * _rimY d).
  destruct (_scrollbarLocation d); cbn; rewrite Hf;
    (eexists; split; [reflexivity |]; cbn; repeat split; reflexivity).
Qed.

(** The grid of a display whose size is not fixed. *)
Lemma calcGeometry_free (d : TerminalDisplay) :
  _isFixedSize d = false -> _fontWidth d <> 0 -> _fontHeight d <> 0 ->
  exists g, calcGeometry d = Some g
    /\ _columns g = Z.max 1 (Z.quot (_contentWidth g) (_fontWidth d))
    /\ _lines g = Z.max 1 (Z.quot (_contentHeight g) (_fontHeight d))
    /\ _usedColumns g = Z.min (_usedColumns d) (_columns g)
    /\ _usedLines g = Z.min (_usedLines d) (_lines g).
Proof.
  intros Hf Hw Hh. unfold calcGeometry, intDiv. cbn -[Z.mul].
  set (kx := 2 * _rimX d). set (ky := 2 * _rimY d).
  destruct (_scrollbarLocation d); cbn; rewrite Hf;
    (replace (_fontWidth d =? 0) with false by (symmetry; apply Z.eqb_neq; exact Hw));
    (replace (_fontHeight d =? 0) with false by (symmetry; apply Z.eqb_neq; exact Hh));
    (eexists; split; [reflexivity |]; cbn; repeat split; reflexivity).
Qed.

(** X1.  On a display whose size is not fixed and whose font metrics are
    positive, [calcGeometry] succeeds and leaves a grid of at least one
    line and one column with the used area inside it.  The text area is
    the content rectangle less the rims and the scroll bar, when one is
    shown, and once it holds a cell the grid is the largest that fits in
    it. *)
Theorem calcGeometry_largest_grid (d : TerminalDisplay) :
  _isFixedSize d = false -> 0 < _fontWidth d -> 0 < _fontHeight d ->
  exists g,
    calcGeometry d = Some g
    /\ 1 <= _columns g /\ 1 <= _lines g
    /\ _usedColumns g <= _columns g /\ _usedLines g <= _lines g
    /\ _usedColumns g <= _usedColumns d /\ _usedLines g <= _usedLines d
    /\ _contentWidth g
       = rw (contentsRect d) - 2 * _rimX d
         - match _scrollbarLocation d with
           | SCROLLBAR_NONE => 0
           | _ => scrollBarExtent d
           end
    /\ _contentHeight g = rh (contentsRect d) - 2 * _rimY d + 1
    /\ (_fontWidth d <= _contentWidth g ->
        _columns g * _fontWidth d <= _contentWidth g
                                   < (_columns g + 1) * _fontWidth d)
    /\ (_fontHeight d <= _contentHeight g ->
        _lines g * _fontHeight d <= _contentHeight g
                                  < (_lines g + 1) * _fontHeight d).
Proof.
  intros Hf Hw Hh.
  destruct (calcGeometry_free d Hf) as (g & E & Hc & Hl & Huc & Hul); try lia.
  destruct (calcGeometry_keeps d g E) as (_ & _ & _ & _ & _ & _ & _ & Kw & Kh).
  exists g. split; [exact E |].
  split; [lia |]. split; [lia |]. split; [lia |]. split; [lia |].
  split; [lia |]. split; [lia |]. split; [exact Kw |]. split; [exact Kh |].
  split.
  - intros Hfit. rewrite Hc.
    pose proof (Z.quot_pos (_contentWidth g) (_fontWidth d)) as Hq.
    assert (H1 : 1 <= Z.quot (_contentWidth g) (_fontWidth d)).
    { apply Z.quot_le_lower_bound; lia. }
    rewrite Z.max_r by lia.
    pose proof (Z.quot_rem' (_contentWidth g) (_fontWidth d)) as Hqr.
    pose proof (Z.rem_bound_pos (_contentWidth g) (_fontWidth d)) as Hr.
    nia.
  - intros Hfit. rewrite Hl.
    assert (H1 : 1 <= Z.quot (_contentHeight g) (_fontHeight d)).
    { apply Z.quot_le_lower_bound; lia. }
    rewrite Z.max_r by lia.
    pose proof (Z.quot_rem' (_contentHeight g) (_fontHeight d)) as Hqr.
    pose proof (Z.rem_bound_pos (_contentHeight g) (_fontHeight d)) as Hr.
    nia.
Qed.

Lemma calcGeometry_largest_grid_witness :
  exists g,
    calcGeometry threeRows = Some g
    /\ 1 <= _columns g /\ 1 <= _lines g
    /\ _usedColumns g <= _columns g /\ _usedLines g <= _lines g
    /\ _usedColumns g <= _usedColumns threeRows
    /\ _usedLines g <= _usedLines threeRows
    /\ _contentWidth g
       = rw (contentsRect threeRows) - 2 * _rimX threeRows
         - match _scrollbarLocation threeRows with
           | SCROLLBAR_NONE => 0
           | _ => scrollBarExtent threeRows
           end
    /\ _contentHeight g
       = rh (contentsRect threeRows) - 2 * _rimY threeRows + 1
    /\ (_fontWidth threeRows <= _contentWidth g ->
        _columns g * _fontWidth threeRows <= _contentWidth g
                                   < (_columns g + 1) * _fontWidth threeRows)
    /\ (_fontHeight threeRows <= _contentHeight g ->
        _lines g * _fontHeight threeRows <= _contentHeight g
                                  < (_lines g + 1) * _fontHeight threeRows).
Proof.
  apply (calcGeometry_largest_grid threeRows); [reflexivity | simpl; lia ..].
Defined.

(** ** Creating the image *)

Lemma cell_repeat_blank (n : nat) (i : Z) :
  cell (repeat blankCharacter n) i = blankCharacter.
Proof.
  unfold cell, zth. destruct (i <? 0); [reflexivity |].
  destruct (Nat.lt_ge_cases (Z.to_nat i) n) as [H | H].
  - apply nth_repeat_lt. exact H.
  - apply nth_overflow. rewrite repeat_length. exact H.
Qed.

(** Clearing an image that is blank already. *)
Lemma clearImage_blank (d : TerminalDisplay) (n : nat) :
  _image d = Some (repeat blankCharacter n) -> clearImage d = d.
Proof.
  intros H. unfold clearImage. rewrite H.
  assert (E : map (fun p : Z * Character =>
                     if (0 <=? fst p) && (fst p <=? _imageSize d)
                     then blankCharacter else snd p)
                  (combine (indices (length (repeat blankCharacter n)))
                           (repeat blankCharacter n))
              = repeat blankCharacter n).
  { apply (nth_ext _ _ blankCharacter blankCharacter).
    - rewrite length_map, length_combine, length_indices. lia.
    - intros k Hk. rewrite length_map, length_combine, length_indices in Hk.
      rewrite (nth_map_in _ _ _ blankCharacter (0, blankCharacter))
        by (rewrite length_combine, length_indices; lia).
      rewrite combine_nth by (now rewrite length_indices).
      cbn [fst snd]. destruct (_ && _); [| reflexivity].
      symmetry. apply nth_repeat_lt. rewrite repeat_length in Hk. lia. }
  rewrite E, <- H. apply set_image_same.
Qed.

(** What [makeImage] does once the geometry is known. *)
Lemma makeImage_from_geometry (d g : TerminalDisplay) :
  calcGeometry d = Some g ->
  0 < _lines g -> 0 < _columns g ->
  _usedLines g <= _lines g -> _usedColumns g <= _columns g ->
  makeImage d
  = Some (set_image (Some (blankImage (_lines g) (_columns g)))
            (set_imageSize (_lines g * _columns g) g)).
Proof.
  intros E Hl Hc Hul Huc. unfold makeImage. rewrite E.
  replace ((_lines g >? 0) && (_columns g >? 0)) with true
    by (symmetry; apply andb_true_iff; split; apply Z.gtb_lt; lia).
  replace ((_usedLines g <=? _lines g) && (_usedColumns g <=? _columns g))
    with true
    by (symmetry; apply andb_true_iff; split; apply Z.leb_le; lia).
  cbn [assert]. f_equal.
  apply (clearImage_blank _ (Z.to_nat (_lines g * _columns g + 1))).
  reflexivity.
Qed.



(** X3.  With font metrics other than -1, [makeImage] aborts in these
    cases only: on a display of fixed size, which keeps the grid it was
    given, when one of its assertions fails; otherwise when a font metric
    is zero, which the computation of the grid divides by. *)
Theorem makeImage_aborts_iff (d : TerminalDisplay) :
  _fontWidth d <> -1 -> _fontHeight d <> -1 ->
  makeImage d = None
  <-> if _isFixedSize d
      then ~ (0 < _lines d /\ 0 < _columns d
              /\ _usedLines d <= _lines d /\ _usedColumns d <= _columns d)
      else _fontWidth d = 0 \/ _fontHeight d = 0.
Proof.
  intros _ _.
  destruct (_isFixedSize d) eqn:Hf.
  - destruct (calcGeometry_fixed d Hf) as (g & E & Gl & Gc & Gul & Guc).
    split.
    + intros H Hok. rewrite (makeImage_from_geometry d g E) in H by lia.
      discriminate.
    + intros H. unfold makeImage. rewrite E, Gl, Gc, Gul, Guc.
      destruct ((_lines d >? 0) && (_columns d >? 0)) eqn:H1;
        [| reflexivity].
      destruct ((_usedLines d <=? _lines d) && (_usedColumns d <=? _columns d))
        eqn:H2; [| reflexivity].
      boolZ. exfalso. apply H. lia.
  - split.
    + intros H.
      destruct (Z.eq_dec (_fontWidth d) 0) as [Hw | Hw]; [now left |].
      destruct (Z.eq_dec (_fontHeight d) 0) as [Hh | Hh]; [now right |].
      destruct (calcGeometry_free d Hf Hw Hh) as (g & E & Gc & Gl & Guc & Gul).
      rewrite (makeImage_from_geometry d g E) in H by lia. discriminate.
    + intros H. unfold makeImage.
      assert (E : calcGeometry d = None).
      { unfold calcGeometry, intDiv. cbn -[Z.mul].
        destruct (_scrollbarLocation d); cbn -[Z.mul]; rewrite Hf;
          (destruct H as [H | H]; rewrite H; cbn -[Z.mul];
           [reflexivity |]; destruct (_fontWidth d =? 0); reflexivity). }
      rewrite E. reflexivity.
Qed.

Lemma makeImage_aborts_iff_witness :
  makeImage threeRows = None
  <-> if _isFixedSize threeRows
      then ~ (0 < _lines threeRows /\ 0 < _columns threeRows
              /\ _usedLines threeRows <= _lines threeRows
              /\ _usedColumns threeRows <= _columns threeRows)
      else _fontWidth threeRows = 0 \/ _fontHeight threeRows = 0.
Proof.
  apply (makeImage_aborts_iff threeRows); simpl; lia.
Defined.

(** ** Resizing the image *)

Lemma len_copyOldImage (todo : nat) (lin columns oldcol cols : Z)
  (img old : list Character) :
  len (copyOldImage todo lin columns oldcol cols img old) = len img.
Proof.
  revert lin img. induction todo as [| todo IH]; intros lin img;
    cbn [copyOldImage]; [reflexivity |].
  rewrite IH. apply len_copyCells.
Qed.

(** Cells outside the copied part of every row keep their content. *)
Lemma copyOldImage_other (todo : nat) (lin columns oldcol cols : Z)
  (img old : list Character) (i : Z) :
  (forall y, lin <= y < lin + Z.of_nat todo ->
             ~ (columns * y <= i < columns * y + cols)) ->
  cell (copyOldImage todo lin columns oldcol cols img old) i = cell img i.
Proof.
  revert lin img. induction todo as [| todo IH]; intros lin img H;
    cbn [copyOldImage]; [reflexivity |].
  rewrite IH by (intros y Hy; apply H; lia).
  unfold memcpy. rewrite cell_copyCells.
  destruct ((columns * lin <=? i) && (i <? columns * lin + cols)) eqn:E;
    [| reflexivity].
  boolZ. exfalso. apply (H lin); lia.
Qed.

(** The copied part of a row holds the cells of the old row. *)
Lemma copyOldImage_copied (todo : nat) (lin columns oldcol cols : Z)
  (img old : list Character) (x y : Z) :
  0 <= lin -> 0 <= cols <= columns ->
  lin <= y < lin + Z.of_nat todo -> 0 <= x < cols ->
  columns * y + x < len img ->
  cell (copyOldImage todo lin columns oldcol cols img old) (columns * y + x)
  = cell old (oldcol * y + x).
Proof.
  revert lin img. induction todo as [| todo IH];
    intros lin img Hlin Hcols Hy Hx Hin; cbn [copyOldImage]; [lia |].
  destruct (Z.eq_dec y lin) as [-> | Hne].
  - rewrite copyOldImage_other by (intros y Hy'; nia).
    unfold memcpy. rewrite cell_copyCells.
    replace ((columns * lin <=? columns * lin + x)
             && (columns * lin + x <? columns * lin + cols)
             && (0 <=? columns * lin + x)
             && (columns * lin + x <? len img)) with true.
    + f_equal. lia.
    + symmetry. repeat (apply andb_true_iff; split);
        try apply Z.leb_le; try apply Z.ltb_lt; nia.
  - apply IH; try lia. unfold memcpy. rewrite len_copyCells. exact Hin.
Qed.

(** What [makeImage] has done when it returns. *)
Lemma makeImage_inv (d g : TerminalDisplay) :
  makeImage d = Some g ->
  exists g0,
    calcGeometry d = Some g0
    /\ g = set_image (Some (blankImage (_lines g0) (_columns g0)))
             (set_imageSize (_lines g0 * _columns g0) g0)
    /\ 0 < _lines g0 /\ 0 < _columns g0
    /\ _usedLines g0 <= _lines g0 /\ _usedColumns g0 <= _columns g0.
Proof.
  intros H. pose proof H as H'. unfold makeImage in H'.
  destruct (calcGeometry d) as [g0 |] eqn:E; [| discriminate].
  destruct ((_lines g0 >? 0) && (_columns g0 >? 0)) eqn:H1; [| discriminate].
  destruct ((_usedLines g0 <=? _lines g0) && (_usedColumns g0 <=? _columns g0))
    eqn:H2; [| discriminate].
  clear H'. boolZ. exists g0. split; [reflexivity |].
  rewrite (makeImage_from_geometry d g0 E) in H by lia.
  injection H as <-. repeat split; lia.
Qed.

(** The result of [updateImageSize] on a display that has an image. *)
Lemma updateImageSize_allocated (env : Collaborators)
  (d g : TerminalDisplay) (old : list Character) :
  _image d = Some old -> makeImage d = Some g ->
  updateImageSize env d
  = Some (set_resizing false
            (if negb (_lines d =? _lines g) || negb (_columns d =? _columns g)
             then changedContentSizeSignal env (_contentHeight g)
                    (_contentWidth g)
                    (set_resizing true
                       (set_image
                          (Some (resizedImage old (_lines d) (_columns d)
                                              (_lines g) (_columns g))) g))
             else set_resizing false
                    (set_image
                       (Some (resizedImage old (_lines d) (_columns d)
                                           (_lines g) (_columns g))) g))).
Proof.
  intros Himg Hmk.
  destruct (makeImage_inv d g Hmk) as (g0 & _ & E & _).
  assert (Hgi : _image g = Some (blankImage (_lines g) (_columns g)))
    by (rewrite E; reflexivity).
  unfold updateImageSize. rewrite Himg, Hmk, Hgi.
  cbn [_lines _columns _resizing _contentHeight _contentWidth
       set_image set_resizing].
  unfold resizedImage, blankImage.
  destruct (negb (_lines d =? _lines g) || negb (_columns d =? _columns g));
    reflexivity.
Qed.

(** The cells of the image built by [updateImageSize]. *)
Lemma resizedImage_cells (old : list Character) (oldlin oldcol lines columns : Z) :
  0 < oldcol -> 0 < lines -> 0 < columns ->
  len (resizedImage old oldlin oldcol lines columns) = lines * columns + 1
  /\ (forall x y,
        0 <= y < Z.min oldlin lines -> 0 <= x < Z.min oldcol columns ->
        cell (resizedImage old oldlin oldcol lines columns) (y * columns + x)
        = cell old (y * oldcol + x))
  /\ (forall x y,
        0 <= y < lines -> 0 <= x < columns -> oldlin <= y \/ oldcol <= x ->
        cell (resizedImage old oldlin oldcol lines columns) (y * columns + x)
        = blankCharacter).
Proof.
  intros Hoc Hl Hc.
  assert (Hlen : len (resizedImage old oldlin oldcol lines columns)
                 = lines * columns + 1).
  { unfold resizedImage. rewrite len_copyOldImage, len_repeat. nia. }
  split; [exact Hlen |]. split.
  - intros x y Hy Hx. unfold resizedImage.
    replace (y * columns + x) with (columns * y + x) by lia.
    replace (y * oldcol + x) with (oldcol * y + x) by lia.
    apply copyOldImage_copied; try lia.
    rewrite len_repeat by nia. nia.
  - intros x y Hy Hx Hout. unfold resizedImage.
    rewrite copyOldImage_other; [apply cell_repeat_blank |].
    intros y' Hy' [H1 H2].
    destruct (Z.lt_trichotomy y' y) as [Hlt | [-> | Hgt]]; [nia | lia | nia].
Qed.

(** X4.  [updateImageSize] on a display that has an image builds a new
    image for the new grid in which the cells of the rows and columns
    that the old and the new grid share are those of the old image and
    every other cell is blank.  That image is in place when the signal
    for a changed size is emitted, which is emitted when the number of
    lines or of columns has changed and not otherwise. *)
Theorem updateImageSize_keeps_shared_cells (env : Collaborators)
  (d g : TerminalDisplay) (old : list Character) :
  wellFormed d -> _image d = Some old -> makeImage d = Some g ->
  let img' := resizedImage old (_lines d) (_columns d) (_lines g) (_columns g) in
  let g' := set_image (Some img') g in
  updateImageSize env d
  = Some (set_resizing false
            (if negb (_lines d =? _lines g) || negb (_columns d =? _columns g)
             then changedContentSizeSignal env (_contentHeight g)
                    (_contentWidth g) (set_resizing true g')
             else set_resizing false g'))
  /\ len img' = _lines g * _columns g + 1
  /\ (forall x y,
        0 <= y < Z.min (_lines d) (_lines g) ->
        0 <= x < Z.min (_columns d) (_columns g) ->
        cell img' (loc g x y) = cell old (loc d x y))
  /\ (forall x y,
        0 <= y < _lines g -> 0 <= x < _columns g ->
        _lines d <= y \/ _columns d <= x ->
        cell img' (loc g x y) = blankCharacter).
Proof.
  intros Hwf Himg Hmk img' g'.
  pose proof Hwf as (Hl & Hc & Hul & Huc & Hsize).
  assert (Hwg : wellFormed g) by (apply (makeImage_wellFormed d); auto; lia).
  destruct Hwg as (Gl & Gc & _).
  split; [apply updateImageSize_allocated; assumption |].
  apply resizedImage_cells; assumption.
Qed.

Lemma updateImageSize_keeps_shared_cells_witness :
  let d := lettersGrown in
  let g := lettersGrownMade in
  let old := map charCell [97; 98; 99; 100] ++ [blankCharacter] in
  let img' := resizedImage old (_lines d) (_columns d) (_lines g) (_columns g) in
  let g' := set_image (Some img') g in
  updateImageSize plain d
  = Some (set_resizing false
            (if negb (_lines d =? _lines g) || negb (_columns d =? _columns g)
             then changedContentSizeSignal plain (_contentHeight g)
                    (_contentWidth g) (set_resizing true g')
             else set_resizing false g'))
  /\ len img' = _lines g * _columns g + 1
  /\ (forall x y,
        0 <= y < Z.min (_lines d) (_lines g) ->
        0 <= x < Z.min (_columns d) (_columns g) ->
        cell img' (loc g x y) = cell old (loc d x y))
  /\ (forall x y,
        0 <= y < _lines g -> 0 <= x < _columns g ->
        _lines d <= y \/ _columns d <= x ->
        cell img' (loc g x y) = blankCharacter).
Proof.
  assert (Hwf : wellFormed lettersGrown) by wellFormed_concrete.
  assert (Hmk : makeImage lettersGrown = Some lettersGrownMade)
    by (vm_compute; reflexivity).
  exact (updateImageSize_keeps_shared_cells plain lettersGrown lettersGrownMade
           (map charCell [97; 98; 99; 100] ++ [blankCharacter])
           Hwf eq_refl Hmk).
Defined.

(** X5.  A resize event on a display of fixed size that has an image
    leaves the grid as it is, keeps every cell of it, and emits no signal:
    the result does not depend on the slots connected. *)
Theorem resizeEvent_fixed_size_keeps_image (env : Collaborators)
  (d : TerminalDisplay) (old : list Character) :
  wellFormed d -> _image d = Some old -> _isFixedSize d = true ->
  exists d' img',
    resizeEvent env d = Some d'
    /\ (forall env', resizeEvent env' d = Some d')
    /\ _image d' = Some img'
    /\ _lines d' = _lines d /\ _columns d' = _columns d
    /\ _usedLines d' = _usedLines d /\ _usedColumns d' = _usedColumns d
    /\ _resizing d' = false
    /\ forall x y,
         0 <= y < _lines d -> 0 <= x < _columns d ->
         cell img' (loc d' x y) = cell old (loc d x y).
Proof.
  intros Hwf Himg Hf.
  pose proof Hwf as (Hl & Hc & Hul & Huc & Hsize).
  destruct (calcGeometry_fixed d Hf) as (g0 & E & Gl & Gc & Gul & Guc).
  pose proof (makeImage_from_geometry d g0 E) as M.
  rewrite Gl, Gc, Gul, Guc in M. specialize (M Hl Hc (proj2 Hul) (proj2 Huc)).
  set (g := set_image _ _) in M.
  assert (R : forall e, resizeEvent e d
              = Some (set_resizing false
                        (set_resizing false
                           (set_image
                              (Some (resizedImage old (_lines d) (_columns d)
                                       (_lines d) (_columns d))) g)))).
  { intros e. unfold resizeEvent.
    rewrite (updateImageSize_allocated e d g old Himg M).
    replace (_lines g) with (_lines d) by (unfold g; cbn; lia).
    replace (_columns g) with (_columns d) by (unfold g; cbn; lia).
    rewrite !Z.eqb_refl. reflexivity. }
  do 2 eexists. split; [apply R |]. split; [exact R |].
  split; [reflexivity |].
  unfold g. cbn [_lines _columns _usedLines _usedColumns _resizing
                 set_resizing set_image set_imageSize].
  repeat (split; [congruence |]).
  intros x y Hy Hx. unfold loc. cbn [_columns set_resizing set_image set_imageSize].
  rewrite Gc.
  destruct (resizedImage_cells old (_lines d) (_columns d) (_lines d)
              (_columns d) Hc Hl Hc) as (_ & Hcp & _).
  apply Hcp; lia.
Qed.

Lemma resizeEvent_fixed_size_keeps_image_witness :
  exists d' img',
    resizeEvent plain lettersFixed = Some d'
    /\ (forall env', resizeEvent env' lettersFixed = Some d')
    /\ _image d' = Some img'
    /\ _lines d' = _lines lettersFixed /\ _columns d' = _columns lettersFixed
    /\ _usedLines d' = _usedLines lettersFixed
    /\ _usedColumns d' = _usedColumns lettersFixed
    /\ _resizing d' = false
    /\ forall x y,
         0 <= y < _lines lettersFixed -> 0 <= x < _columns lettersFixed ->
         cell img' (loc d' x y)
         = cell (map charCell [97; 98; 99; 100] ++ [blankCharacter])
                (loc lettersFixed x y).
Proof.
  apply (resizeEvent_fixed_size_keeps_image plain lettersFixed
           (map charCell [97; 98; 99; 100] ++ [blankCharacter]));
    [wellFormed_concrete | reflexivity | reflexivity].
Defined.

(** ** Fixing the size *)



(** ** Shifts of the image *)

(** The cells of the image after a shift that is not ignored. *)
Lemma cell_scrolledImage (n : Z) (d : TerminalDisplay) (img : list Character)
  (i : Z) :
  wellFormed d -> _image d = Some img ->
  n <> 0 -> Z.abs n < _usedLines d ->
  cell (scrolledImage n d img) i
  = if n >? 0
    then if (0 <=? i) && (i <? (_usedLines d - n) * _usedColumns d)
         then cell img (i + n * _usedColumns d) else cell img i
    else if (Z.abs n * _usedColumns d <=? i)
            && (i <? _usedLines d * _usedColumns d)
         then cell img (i - Z.abs n * _usedColumns d) else cell img i.
Proof.
  intros (Hl & Hc & Hul & Huc & Hsize) Himg Hn Habs.
  destruct (Hsize img Himg) as [Hsz Hlen].
  unfold scrolledImage, memmove.
  destruct (n >? 0) eqn:Hpos; rewrite cell_copyCells; boolZ.
  - destruct ((0 <=? i) && (i <? (_usedLines d - n) * _usedColumns d)) eqn:E.
    + boolZ.
      replace ((0 <=? i) && (i <? 0 + (_usedLines d - n) * _usedColumns d)
               && (0 <=? i) && (i <? len img)) with true.
      * f_equal. lia.
      * symmetry. repeat (apply andb_true_iff; split);
          try apply Z.leb_le; try apply Z.ltb_lt; nia.
    + rewrite Z.add_0_l, E. reflexivity.
  - destruct ((Z.abs n * _usedColumns d <=? i)
              && (i <? _usedLines d * _usedColumns d)) eqn:E.
    + boolZ.
      replace ((Z.abs n * _usedColumns d <=? i)
               && (i <? Z.abs n * _usedColumns d
                        + (_usedLines d - Z.abs n) * _usedColumns d)
               && (0 <=? i) && (i <? len img)) with true.
      * f_equal. lia.
      * symmetry. repeat (apply andb_true_iff; split);
          try apply Z.leb_le; try apply Z.ltb_lt; nia.
    + replace (Z.abs n * _usedColumns d
               + (_usedLines d - Z.abs n) * _usedColumns d)
        with (_usedLines d * _usedColumns d) by lia.
      rewrite E. reflexivity.
Qed.

(** X7.  Under the invariant, and for a count above [INT_MIN],
    [scrollImage] never aborts and changes nothing but the image, which
    keeps its length; the cells after the first [usedLines * usedColumns]
    cells of the array, the reserved cell among them, are never
    written. *)
Theorem scrollImage_writes_used_block_only (n : Z) (d : TerminalDisplay)
  (img : list Character) :
  INT_MIN < n -> wellFormed d -> _image d = Some img ->
  exists img' blit,
    scrollImage n d = Some (set_image (Some img') d, blit)
    /\ len img' = len img
    /\ forall i, _usedLines d * _usedColumns d <= i -> cell img' i = cell img i.
Proof.
  intros _ Hwf Himg.
  exists (shiftedImage n d img), (shiftBlit n d).
  split; [apply scrollImage_allocated; assumption |].
  split; [apply len_shiftedImage |].
  intros i Hi. unfold shiftedImage.
  destruct ((n =? 0) || (Z.abs n >=? _usedLines d)) eqn:E; [reflexivity |].
  boolZ. rewrite cell_scrolledImage by (auto; lia).
  destruct Hwf as (Hl & Hc & Hul & Huc & Hsize).
  destruct (n >? 0) eqn:Hpos; boolZ.
  - replace ((0 <=? i) && (i <? (_usedLines d - n) * _usedColumns d))
      with false; [reflexivity |].
    symmetry. apply andb_false_iff. right. apply Z.ltb_ge. nia.
  - replace ((Z.abs n * _usedColumns d <=? i)
             && (i <? _usedLines d * _usedColumns d)) with false;
      [reflexivity |].
    symmetry. apply andb_false_iff. right. apply Z.ltb_ge. lia.
Qed.

Lemma scrollImage_writes_used_block_only_witness :
  exists img' blit,
    scrollImage 1 narrowWindow = Some (set_image (Some img') narrowWindow, blit)
    /\ len img' = len (markedImage 24 2)
    /\ forall i,
         _usedLines narrowWindow * _usedColumns narrowWindow <= i ->
         cell img' i = cell (markedImage 24 2) i.
Proof.
  apply (scrollImage_writes_used_block_only 1 narrowWindow (markedImage 24 2));
    [unfold INT_MIN; lia | wellFormed_concrete | reflexivity].
Defined.

(** X8.  Two shifts in the same direction that together stay below the
    number of used lines leave, in the cells that both keep, what one
    shift by their sum leaves there: the cell that was [a + b] used widths
    further on, or further back. *)
Theorem scrollImage_twice_same_direction (a b : Z) (d : TerminalDisplay)
  (img : list Character) :
  wellFormed d -> _image d = Some img ->
  (0 < a /\ 0 < b) \/ (a < 0 /\ b < 0) ->
  Z.abs (a + b) < _usedLines d ->
  exists d1 b1 d2 b2 img2 d3 b3 img3,
    scrollImage a d = Some (d1, b1)
    /\ scrollImage b d1 = Some (d2, b2)
    /\ _image d2 = Some img2
    /\ scrollImage (a + b) d = Some (d3, b3)
    /\ _image d3 = Some img3
    /\ forall i,
         (if a >? 0
          then 0 <= i < (_usedLines d - (a + b)) * _usedColumns d
          else Z.abs (a + b) * _usedColumns d <= i
               < _usedLines d * _usedColumns d) ->
         cell img2 i = cell img3 i
         /\ cell img3 i = cell img (i + (a + b) * _usedColumns d).
Proof.
  intros Hwf Himg Hdir Hsum.
  pose proof Hwf as (Hl & Hc & Hul & Huc & Hsize).
  assert (Ha1 : a <> 0) by lia.
  assert (Ha2 : Z.abs a < _usedLines d) by lia.
  assert (Hb1 : b <> 0) by lia.
  assert (Hb2 : Z.abs b < _usedLines d) by lia.
  assert (Hab : a + b <> 0) by lia.
  set (img1 := scrolledImage a d img).
  set (d1 := set_image (Some img1) d).
  assert (Hwf1 : wellFormed d1).
  { apply (wellFormed_set_image d img); auto. apply len_scrolledImage. }
  assert (Himg1 : _image d1 = Some img1) by reflexivity.
  exists d1, (Some (scrollBlit a d)),
         (set_image (Some (scrolledImage b d1 img1)) d1),
         (Some (scrollBlit b d1)), (scrolledImage b d1 img1),
         (set_image (Some (scrolledImage (a + b) d img)) d),
         (Some (scrollBlit (a + b) d)), (scrolledImage (a + b) d img).
  split; [apply scrollImage_shift; assumption |].
  split; [apply scrollImage_shift; assumption |].
  split; [reflexivity |].
  split; [apply scrollImage_shift; assumption |].
  split; [reflexivity |].
  intros i Hi.
  rewrite (cell_scrolledImage b d1 img1) by assumption.
  rewrite (cell_scrolledImage (a + b) d img) by assumption.
  change (_usedLines d1) with (_usedLines d).
  change (_usedColumns d1) with (_usedColumns d).
  unfold img1.
  destruct Hdir as [[Hpa Hpb] | [Hna Hnb]].
  - replace (a >? 0) with true in Hi by (symmetry; apply Z.gtb_lt; lia).
    replace (b >? 0) with true by (symmetry; apply Z.gtb_lt; lia).
    replace (a + b >? 0) with true by (symmetry; apply Z.gtb_lt; lia).
    replace ((0 <=? i) && (i <? (_usedLines d - b) * _usedColumns d))
      with true
      by (symmetry; apply andb_true_iff; split;
          [apply Z.leb_le | apply Z.ltb_lt]; nia).
    replace ((0 <=? i) && (i <? (_usedLines d - (a + b)) * _usedColumns d))
      with true
      by (symmetry; apply andb_true_iff; split;
          [apply Z.leb_le | apply Z.ltb_lt]; nia).
    rewrite (cell_scrolledImage a d img) by assumption.
    replace (a >? 0) with true by (symmetry; apply Z.gtb_lt; lia).
    replace ((0 <=? i + b * _usedColumns d)
             && (i + b * _usedColumns d <? (_usedLines d - a) * _usedColumns d))
      with true
      by (symmetry; apply andb_true_iff; split;
          [apply Z.leb_le | apply Z.ltb_lt]; nia).
    split; [f_equal; lia | reflexivity].
  - replace (a >? 0) with false in Hi by (symmetry; rewrite Z.gtb_ltb; apply Z.ltb_ge; lia).
    replace (b >? 0) with false by (symmetry; rewrite Z.gtb_ltb; apply Z.ltb_ge; lia).
    replace (a + b >? 0) with false
      by (symmetry; rewrite Z.gtb_ltb; apply Z.ltb_ge; lia).
    replace ((Z.abs b * _usedColumns d <=? i)
             && (i <? _usedLines d * _usedColumns d)) with true
      by (symmetry; apply andb_true_iff; split;
          [apply Z.leb_le | apply Z.ltb_lt]; nia).
    replace ((Z.abs (a + b) * _usedColumns d <=? i)
             && (i <? _usedLines d * _usedColumns d)) with true
      by (symmetry; apply andb_true_iff; split;
          [apply Z.leb_le | apply Z.ltb_lt]; nia).
    rewrite (cell_scrolledImage a d img) by assumption.
    replace (a >? 0) with false by (symmetry; rewrite Z.gtb_ltb; apply Z.ltb_ge; lia).
    replace ((Z.abs a * _usedColumns d <=? i - Z.abs b * _usedColumns d)
             && (i - Z.abs b * _usedColumns d
                 <? _usedLines d * _usedColumns d)) with true
      by (symmetry; apply andb_true_iff; split;
          [apply Z.leb_le | apply Z.ltb_lt]; nia).
    split; f_equal; lia.
Qed.

Lemma scrollImage_twice_same_direction_witness :
  exists d1 b1 d2 b2 img2 d3 b3 img3,
    scrollImage 1 threeRows = Some (d1, b1)
    /\ scrollImage 1 d1 = Some (d2, b2)
    /\ _image d2 = Some img2
    /\ scrollImage (1 + 1) threeRows = Some (d3, b3)
    /\ _image d3 = Some img3
    /\ forall i,
         (if 1 >? 0
          then 0 <= i < (_usedLines threeRows - (1 + 1)) * _usedColumns threeRows
          else Z.abs (1 + 1) * _usedColumns threeRows <= i
               < _usedLines threeRows * _usedColumns threeRows) ->
         cell img2 i = cell img3 i
         /\ cell img3 i
            = cell (markedImage 3 2) (i + (1 + 1) * _usedColumns threeRows).
Proof.
  apply (scrollImage_twice_same_direction 1 1 threeRows (markedImage 3 2));
    [wellFormed_concrete | reflexivity | left; lia | simpl; lia].
Defined.

(** ** The update as a whole *)

(** The members the rows of the update read stay as they are. *)
Lemma diffImage_keeps (d : TerminalDisplay) (newimg : list Character)
  (lines columns : Z) (img : list Character) (blit : option ScrollCall) :
  sameGrid (fst (diffImage d newimg lines columns img blit)) d
  /\ _screenWindow (fst (diffImage d newimg lines columns img blit))
     = _screenWindow d
  /\ _hasBlinker (fst (diffImage d newimg lines columns img blit))
     = rows_hasBlinker
         (updateRows (Z.to_nat (Z.min (_lines d) (Z.max 0 lines))) 0 d newimg
            columns (Z.min (_columns d) (Z.max 0 columns))
            (mkRowsState img false (_isIMEdit d) (_isIMSel d) [])).
Proof.
  unfold diffImage, sameGrid. cbv zeta.
  cbn [fst _columns _resizing _lineProperties _imPreeditLength _imStart
       _imStartLine _imEnd _imSelStart _imSelEnd _bX _bY contentsRect
       _fontWidth _fontHeight _screenWindow _hasBlinker _lines _isIMEdit
       _isIMSel
       set_image set_hasBlinker set_isIMEdit set_isIMSel set_usedLines
       set_usedColumns].
  split; [repeat split; reflexivity |]. split; [reflexivity |].
  f_equal. apply updateRows_sameGrid.
  unfold sameGrid. cbn. repeat split; reflexivity.
Qed.

Lemma filter_none {A : Type} (f : A -> bool) (l : list A) :
  (forall x, In x l -> f x = false) -> filter f l = [].
Proof.
  induction l as [| a l IH]; intros H; cbn [filter]; [reflexivity |].
  rewrite (H a) by (left; reflexivity). apply IH. intros x Hx. apply H.
  right. exact Hx.
Qed.

Section UpdateAsAWhole.

Variable env : Collaborators.

(** The display after [updateImage], beyond its image and its sizes. *)
Lemma updateImage_allocated_state (d : TerminalDisplay) (img : list Character) :
  wellFormed d -> _image d = Some img ->
  exists d' out,
    updateImage env d = Some (d', out)
    /\ sameGrid d' d
    /\ getImage (_screenWindow d') = getImage (_screenWindow d)
    /\ windowLines (_screenWindow d') = windowLines (_screenWindow d)
    /\ windowColumns (_screenWindow d') = windowColumns (_screenWindow d)
    /\ scrollCount (_screenWindow d') = 0
    /\ _hasBlinker d' = rows_hasBlinker (updatedRows d img).
Proof.
  intros Hwf Himg.
  pose proof Hwf as (Hl & Hc & Hul & Huc & Hsize).
  unfold updateImage.
  rewrite (scrollImage_allocated _ d img Hwf Himg).
  set (A := shiftedImage (scrollCount (_screenWindow d)) d img).
  set (d2 := set_screenWindow _ _).
  set (d3 := setScroll _ _ d2).
  destruct (setScroll_fields (currentLine (_screenWindow d2))
              (lineCount (_screenWindow d2)) d2)
    as (F1 & F2 & F3 & F4 & F5 & F6 & F7 & F8 & F9).
  fold d3 in F1, F2, F3, F4, F5, F6, F7, F8, F9.
  assert (G : sameGrid d3 d).
  { apply (sameGrid_trans _ d2); [exact F9 |].
    unfold sameGrid, d2. simpl. repeat split; reflexivity. }
  pose proof G as (Gc & _).
  rewrite F1. simpl (_image d2). cbv beta iota.
  rewrite F4, F3, F5, Gc. simpl (_usedLines d2). simpl (_lines d2).
  simpl (_usedColumns d2).
  replace (_usedLines d <=? _lines d) with true by (symmetry; apply Z.leb_le; lia).
  replace (_usedColumns d <=? _columns d) with true
    by (symmetry; apply Z.leb_le; lia).
  simpl (assert true). cbv beta iota.
  rewrite F1. simpl (_image d2). cbv beta iota.
  destruct (diffImage_keeps d3 (getImage (_screenWindow d2))
              (windowLines (_screenWindow d2)) (windowColumns (_screenWindow d2))
              A (shiftBlit (scrollCount (_screenWindow d)) d))
    as (K1 & K2 & K3).
  destruct (diffImage d3 _ _ _ A _) as [d' out] eqn:E.
  cbn [fst] in K1, K2, K3.
  exists d', out. split; [reflexivity |].
  split; [apply (sameGrid_trans _ d3); assumption |].
  rewrite K2, F2. unfold d2.
  cbn [_screenWindow set_screenWindow set_image getImage windowLines
       windowColumns scrollCount resetScrollCount].
  repeat (split; [reflexivity |]).
  rewrite K3.
  rewrite (updateRows_sameGrid _ _ d3 d) by exact G.
  rewrite F3, Gc, F7, F8. reflexivity.
Qed.


(** X10.  [updateImage] writes the rows and columns it updates and
    nothing else: every other cell of the grid, and the reserved cell,
    hold what the image held after the scroll shift. *)
Theorem updateImage_writes_updated_area_only (d : TerminalDisplay)
  (img : list Character) :
  wellFormed d -> _image d = Some img ->
  exists d' out img',
    updateImage env d = Some (d', out)
    /\ _image d' = Some img'
    /\ len img' = len img
    /\ (forall x y,
          0 <= x < _columns d -> 0 <= y ->
          linesToUpdate d <= y \/ columnsToUpdate d <= x ->
          cell img' (loc d x y) = cell (comparedImage d img) (loc d x y))
    /\ cell img' (_imageSize d) = cell (comparedImage d img) (_imageSize d).
Proof.
  intros Hwf Himg.
  pose proof Hwf as (Hl & Hc & Hul & Huc & Hsize).
  destruct (Hsize img Himg) as [Hsz Hlen].
  destruct (updateImage_allocated env d img Hwf Himg)
    as (d' & E & I1 & _).
  do 3 eexists. split; [exact E |]. split; [exact I1 |].
  assert (Hctu : 0 <= columnsToUpdate d <= _columns d)
    by (unfold columnsToUpdate; lia).
  assert (Hltu : 0 <= linesToUpdate d <= _lines d)
    by (unfold linesToUpdate; lia).
  unfold updatedRows. split; [| split].
  - rewrite len_updateRows. cbn [rows_image]. unfold comparedImage.
    apply len_shiftedImage.
  - intros x y Hx Hy Hout.
    rewrite updateRows_image_other; [reflexivity | exact Hctu |].
    intros y' Hy' [H1 H2]. unfold loc in H1, H2.
    rewrite Z2Nat.id in Hy' by lia.
    destruct (Z.lt_trichotomy y' y) as [Hlt | [-> | Hgt]]; [nia | lia | nia].
  - rewrite updateRows_image_other; [reflexivity | exact Hctu |].
    intros y' Hy' [H1 H2]. rewrite Z2Nat.id in Hy' by lia. nia.
Qed.

(** X11.  The rows and the columns that were in use and that the screen
    window no longer covers are reported: the pixels of every cell of the
    area used before that lies outside the area used now are inside a
    rectangle of the dirty region. *)
Theorem updateImage_reports_vacated_cells (d : TerminalDisplay)
  (img : list Character) :
  wellFormed d -> _image d = Some img ->
  0 <= _fontWidth d -> 0 <= _fontHeight d ->
  exists d' out,
    updateImage env d = Some (d', out)
    /\ forall x y,
         0 <= x < _usedColumns d -> 0 <= y < _usedLines d ->
         _usedLines d' <= y \/ _usedColumns d' <= x ->
         exists r, In r (out_dirtyRegion out)
                   /\ QRect_inside (cellRect d x y) r.
Proof.
  intros Hwf Himg Hfw Hfh.
  pose proof Hwf as (Hl & Hc & Hul & Huc & Hsize).
  destruct (updateImage_allocated env d img Hwf Himg)
    as (d' & E & _ & _ & _ & I4 & I5 & _).
  do 2 eexists. split; [exact E |].
  intros x y Hx Hy Hout. rewrite I4, I5 in Hout. cbn [out_dirtyRegion].
  unfold staleRects, staleRectsAt.
  assert (Hctu : 0 <= columnsToUpdate d <= _columns d)
    by (unfold columnsToUpdate; lia).
  assert (Hltu : 0 <= linesToUpdate d <= _lines d)
    by (unfold linesToUpdate; lia).
  destruct (Z_lt_le_dec y (linesToUpdate d)) as [Hin | Hrow].
  - assert (Hcol : columnsToUpdate d <= x) by lia.
    replace (columnsToUpdate d <? _usedColumns d) with true
      by (symmetry; apply Z.ltb_lt; lia).
    eexists. split.
    + apply in_or_app. right. apply in_or_app. right. left. reflexivity.
    + unfold QRect_inside, cellRect. cbn [rx ry rw rh]. nia.
  - replace (linesToUpdate d <? _usedLines d) with true
      by (symmetry; apply Z.ltb_lt; lia).
    eexists. split.
    + apply in_or_app. right. apply in_or_app. left. left. reflexivity.
    + unfold QRect_inside, cellRect. cbn [rx ry rw rh]. nia.
Qed.

(** X12.  A row of the updated rows that is flagged double height is
    reported at every update, changed or not. *)
Theorem updateImage_reports_double_height_rows (d : TerminalDisplay)
  (img : list Character) (y : Z) :
  wellFormed d -> _image d = Some img ->
  0 <= y < linesToUpdate d -> y < len (_lineProperties d) ->
  Z.land (zth 0 (_lineProperties d) y) LINE_DOUBLEHEIGHT <> 0 ->
  exists d' out,
    updateImage env d = Some (d', out)
    /\ In (dirtyRect d (columnsToUpdate d) y) (out_dirtyRegion out).
Proof.
  intros Hwf Himg Hy Hlen Hdh.
  pose proof Hwf as (Hl & Hc & Hul & Huc & Hsize).
  destruct (updateImage_allocated env d img Hwf Himg) as (d' & E & _).
  do 2 eexists. split; [exact E |]. cbn [out_dirtyRegion].
  apply in_or_app. left. unfold updatedRows.
  rewrite updateRows_region by (unfold columnsToUpdate; lia).
  cbn [rows_dirtyRegion app]. apply in_map. apply filter_In. split.
  - apply in_rowsFrom. lia.
  - unfold rowDirty, rowUpdateLine.
    replace (len (_lineProperties d) >? y) with true
      by (symmetry; apply Z.gtb_lt; lia).
    apply orb_true_iff. right. apply negb_true_iff. apply Z.eqb_neq. exact Hdh.
Qed.

(** X13.  After an update, a second update from the same screen window
    reports nothing, provided no text is being composed and none of the
    updated rows is double height: no blit is requested and the dirty
    region is empty. *)
Theorem updateImage_twice_reports_nothing (d : TerminalDisplay)
  (img : list Character) :
  wellFormed d -> _image d = Some img ->
  _imPreeditLength d <= 0 ->
  (forall y, 0 <= y < linesToUpdate d ->
             Z.land (zth 0 (_lineProperties d) y) LINE_DOUBLEHEIGHT = 0) ->
  exists d1 out1 d2,
    updateImage env d = Some (d1, out1)
    /\ updateImage env d1 = Some (d2, mkUpdateOutput None []).
Proof.
  intros Hwf Himg Him Hdh.
  pose proof Hwf as (Hl & Hc & Hul & Huc & Hsize).
  destruct (Hsize img Himg) as [Hsz Hlen].
  destruct (updateImage_allocated env d img Hwf Himg)
    as (d1 & E & I1 & I2 & I3 & I4 & I5 & I6).
  destruct (updateImage_allocated_state d img Hwf Himg)
    as (d1' & out1 & E1 & G & W1 & W2 & W3 & W4 & _).
  rewrite E in E1. injection E1 as <- _.
  assert (Hwf1 : wellFormed d1)
    by (apply (updateImage_wellFormed env d d1 img _ Hwf Himg E)).
  destruct (updateImage_allocated env d1 _ Hwf1 I1) as (d2 & E2 & _).
  exists d1. eexists. exists d2. split; [exact E |].
  rewrite E2. f_equal. f_equal.
  assert (Hltu : linesToUpdate d1 = linesToUpdate d)
    by (unfold linesToUpdate; now rewrite I2, W2).
  assert (Hctu : columnsToUpdate d1 = columnsToUpdate d)
    by (unfold columnsToUpdate; now rewrite I3, W3).
  assert (Hc0 : 0 <= columnsToUpdate d <= _columns d)
    by (unfold columnsToUpdate; lia).
  assert (Hl0 : 0 <= linesToUpdate d <= _lines d)
    by (unfold linesToUpdate; lia).
  f_equal.
  - unfold shiftBlit. rewrite W4. reflexivity.
  - replace (staleRects d1) with (@nil QRect).
    2:{ unfold staleRects, staleRectsAt. rewrite Hltu, Hctu, I4, I5.
        rewrite !Z.ltb_irrefl. reflexivity. }
    rewrite app_nil_r. unfold updatedRows at 1.
    rewrite updateRows_region by (rewrite Hctu, I3; exact Hc0).
    cbn [rows_dirtyRegion rows_image app].
    rewrite Hltu, Hctu, W1, W3.
    replace (filter _ _) with (@nil Z); [reflexivity |].
    symmetry. apply filter_none.
    intros y Hy. apply in_rowsFrom in Hy. rewrite Z2Nat.id in Hy by lia.
    destruct G as (Gc & Gr & Gp & Gi & _).
    apply rowDirty_unchanged; [lia | | rewrite Gp; apply Hdh; lia].
    intros x Hx. unfold columnDirty.
    rewrite imDirty_off by (rewrite Gi; exact Him).
    cbn [orb]. unfold Character_neqb. apply negb_false_iff.
    unfold comparedImage, shiftedImage. rewrite W4. cbn [Z.eqb orb].
    rewrite Gc. unfold updatedRows.
    rewrite updateRows_image_copied; [apply Character_eqb_refl | | | |];
      try lia.
    cbn [rows_image]. unfold comparedImage. rewrite len_shiftedImage. nia.
Qed.

End UpdateAsAWhole.


Lemma updateImage_writes_updated_area_only_witness :
  exists d' out img',
    updateImage plain threeRowsShrunk = Some (d', out)
    /\ _image d' = Some img'
    /\ len img' = len (markedImage 3 2)
    /\ (forall x y,
          0 <= x < _columns threeRowsShrunk -> 0 <= y ->
          linesToUpdate threeRowsShrunk <= y
          \/ columnsToUpdate threeRowsShrunk <= x ->
          cell img' (loc threeRowsShrunk x y)
          = cell (comparedImage threeRowsShrunk (markedImage 3 2))
                 (loc threeRowsShrunk x y))
    /\ cell img' (_imageSize threeRowsShrunk)
       = cell (comparedImage threeRowsShrunk (markedImage 3 2))
              (_imageSize threeRowsShrunk).
Proof.
  apply (updateImage_writes_updated_area_only plain threeRowsShrunk
           (markedImage 3 2));
    [wellFormed_concrete | reflexivity].
Defined.

Lemma updateImage_reports_vacated_cells_witness :
  exists d' out,
    updateImage plain threeRowsShrunk = Some (d', out)
    /\ forall x y,
         0 <= x < _usedColumns threeRowsShrunk ->
         0 <= y < _usedLines threeRowsShrunk ->
         _usedLines d' <= y \/ _usedColumns d' <= x ->
         exists r, In r (out_dirtyRegion out)
                   /\ QRect_inside (cellRect threeRowsShrunk x y) r.
Proof.
  apply (updateImage_reports_vacated_cells plain threeRowsShrunk
           (markedImage 3 2));
    [wellFormed_concrete | reflexivity | simpl; lia | simpl; lia].
Defined.

Lemma updateImage_reports_double_height_rows_witness :
  exists d' out,
    updateImage plain threeRowsDoubleHeight = Some (d', out)
    /\ In (dirtyRect threeRowsDoubleHeight
             (columnsToUpdate threeRowsDoubleHeight) 1)
          (out_dirtyRegion out).
Proof.
  apply (updateImage_reports_double_height_rows plain threeRowsDoubleHeight
           (markedImage 3 2) 1);
    [wellFormed_concrete | reflexivity | vm_compute; split; congruence
     | reflexivity | vm_compute; discriminate].
Defined.

Lemma updateImage_twice_reports_nothing_witness :
  exists d1 out1 d2,
    updateImage plain threeRowsUpdate = Some (d1, out1)
    /\ updateImage plain d1 = Some (d2, mkUpdateOutput None []).
Proof.
  apply (updateImage_twice_reports_nothing plain threeRowsUpdate
           (markedImage 3 2));
    [wellFormed_concrete | reflexivity | simpl; lia |].
  intros y Hy. unfold threeRowsUpdate, threeRows, displayOf. simpl.
  unfold zth. destruct (y <? 0); [reflexivity |].
  destruct (Z.to_nat y); reflexivity.
Defined.

(** ** Points and cells *)

(** X14.  With positive font metrics, and a used area whose pixels are
    counted within [int] from the corner of the content rectangle,
    [characterPosition] and the pixels of the cells agree on the used
    area: a point inside the pixels of a used cell is taken to that cell,
    and a point anywhere in the pixels of the used area is taken to a
    cell whose pixels hold it. *)
Theorem characterPosition_inverts_cellRect (d : TerminalDisplay) (p : QPoint) :
  0 < _fontWidth d -> 0 < _fontHeight d ->
  0 <= _bX d -> 0 <= _bY d ->
  _bX d + _fontWidth d * _usedColumns d <= INT_MAX ->
  _bY d + _fontHeight d * _usedLines d <= INT_MAX ->
  (forall x y,
     0 <= x < _usedColumns d -> 0 <= y < _usedLines d ->
     QRect_contains (cellRect d x y) p = true ->
     characterPosition d p = Some (y, x))
  /\ (QRect_contains
        (mkQRect (_bX d + rx (contentsRect d)) (_bY d + ry (contentsRect d))
                 (_fontWidth d * _usedColumns d)
                 (_fontHeight d * _usedLines d)) p = true ->
      exists line column,
        characterPosition d p = Some (line, column)
        /\ 0 <= line < _usedLines d /\ 0 <= column < _usedColumns d
        /\ QRect_contains (cellRect d column line) p = true).
Proof.
  intros Hw Hh HbX HbY HmaxX HmaxY.
  assert (W : forall a b q, 0 < q -> 0 <= b -> 0 <= a - b -> a <= INT_MAX ->
                intDivAny (wrapInt (wrapInt a - b)) q = Some (Z.quot (a - b) q)).
  { intros a b q Hq Hb Hab Ha.
    rewrite (wrapInt_int a) by (unfold INT_MIN, INT_MAX in *; lia).
    rewrite (wrapInt_int (a - b)) by (unfold INT_MIN, INT_MAX in *; lia).
    unfold intDivAny.
    replace (q =? 0) with false by (symmetry; apply Z.eqb_neq; lia).
    replace (q =? -1) with false by (symmetry; apply Z.eqb_neq; lia).
    rewrite andb_false_r. reflexivity. }
  assert (Q : forall a b q, 0 < b -> 0 <= q -> b * q <= a < b * q + b ->
                            Z.quot a b = q).
  { intros a b q Hb Hq Ha.
    assert (0 <= b * q) by (apply Z.mul_nonneg_nonneg; lia).
    rewrite Z.quot_div_nonneg by lia.
    symmetry. apply (Z.div_unique_pos a b q (a - b * q)); lia. }
  split.
  - intros x y Hx Hy Hin. unfold QRect_contains, cellRect in Hin.
    cbn [rx ry rw rh] in Hin. boolZ.
    assert (_fontWidth d * x + _fontWidth d <= _fontWidth d * _usedColumns d)
      by nia.
    assert (_fontHeight d * y + _fontHeight d <= _fontHeight d * _usedLines d)
      by nia.
    assert (0 <= _fontWidth d * x) by (apply Z.mul_nonneg_nonneg; lia).
    assert (0 <= _fontHeight d * y) by (apply Z.mul_nonneg_nonneg; lia).
    unfold characterPosition.
    rewrite (W (px p - rx (contentsRect d)) (_bX d) (_fontWidth d)) by lia.
    rewrite (W (py p - ry (contentsRect d)) (_bY d) (_fontHeight d)) by lia.
    cbv beta iota.
    rewrite (Q (px p - rx (contentsRect d) - _bX d) (_fontWidth d) x) by lia.
    rewrite (Q (py p - ry (contentsRect d) - _bY d) (_fontHeight d) y) by lia.
    replace (y <? 0) with false by (symmetry; apply Z.ltb_ge; lia).
    replace (x <? 0) with false by (symmetry; apply Z.ltb_ge; lia).
    replace (y >=? _usedLines d) with false
      by (symmetry; rewrite Z.geb_leb; apply Z.leb_gt; lia).
    replace (x >=? _usedColumns d) with false
      by (symmetry; rewrite Z.geb_leb; apply Z.leb_gt; lia).
    reflexivity.
  - intros Hin. unfold QRect_contains in Hin. cbn [rx ry rw rh] in Hin. boolZ.
    set (a := px p - rx (contentsRect d) - _bX d).
    set (b := py p - ry (contentsRect d) - _bY d).
    assert (Ha : 0 <= a < _fontWidth d * _usedColumns d) by (unfold a; lia).
    assert (Hb : 0 <= b < _fontHeight d * _usedLines d) by (unfold b; lia).
    assert (Hqa : 0 <= Z.quot a (_fontWidth d) < _usedColumns d
                  /\ _fontWidth d * Z.quot a (_fontWidth d) <= a
                     < _fontWidth d * Z.quot a (_fontWidth d) + _fontWidth d).
    { rewrite Z.quot_div_nonneg by lia.
      pose proof (Z.div_mod a (_fontWidth d)) as E.
      pose proof (Z.mod_pos_bound a (_fontWidth d) Hw) as M.
      assert (0 <= a / _fontWidth d) by (apply Z.div_pos; lia).
      assert (a / _fontWidth d < _usedColumns d)
        by (apply Z.div_lt_upper_bound; lia).
      lia. }
    assert (Hqb : 0 <= Z.quot b (_fontHeight d) < _usedLines d
                  /\ _fontHeight d * Z.quot b (_fontHeight d) <= b
                     < _fontHeight d * Z.quot b (_fontHeight d) + _fontHeight d).
    { rewrite Z.quot_div_nonneg by lia.
      pose proof (Z.div_mod b (_fontHeight d)) as E.
      pose proof (Z.mod_pos_bound b (_fontHeight d) Hh) as M.
      assert (0 <= b / _fontHeight d) by (apply Z.div_pos; lia).
      assert (b / _fontHeight d < _usedLines d)
        by (apply Z.div_lt_upper_bound; lia).
      lia. }
    exists (Z.quot b (_fontHeight d)), (Z.quot a (_fontWidth d)).
    split.
    + unfold characterPosition.
      rewrite (W (px p - rx (contentsRect d)) (_bX d) (_fontWidth d))
        by (unfold a in Ha; lia).
      rewrite (W (py p - ry (contentsRect d)) (_bY d) (_fontHeight d))
        by (unfold b in Hb; lia).
      cbv beta iota. fold a b.
      replace (Z.quot b (_fontHeight d) <? 0) with false
        by (symmetry; apply Z.ltb_ge; lia).
      replace (Z.quot a (_fontWidth d) <? 0) with false
        by (symmetry; apply Z.ltb_ge; lia).
      replace (Z.quot b (_fontHeight d) >=? _usedLines d) with false
        by (symmetry; rewrite Z.geb_leb; apply Z.leb_gt; lia).
      replace (Z.quot a (_fontWidth d) >=? _usedColumns d) with false
        by (symmetry; rewrite Z.geb_leb; apply Z.leb_gt; lia).
      reflexivity.
    + split; [lia |]. split; [lia |].
      unfold QRect_contains, cellRect. cbn [rx ry rw rh].
      repeat (apply andb_true_iff; split);
        try apply Z.leb_le; try apply Z.ltb_lt; unfold a, b in *; lia.
Qed.

Lemma characterPosition_inverts_cellRect_witness :
  (forall x y,
     0 <= x < _usedColumns threeRows -> 0 <= y < _usedLines threeRows ->
     QRect_contains (cellRect threeRows x y) (mkQPoint 2 3) = true ->
     characterPosition threeRows (mkQPoint 2 3) = Some (y, x))
  /\ (QRect_contains
        (mkQRect (_bX threeRows + rx (contentsRect threeRows))
                 (_bY threeRows + ry (contentsRect threeRows))
                 (_fontWidth threeRows * _usedColumns threeRows)
                 (_fontHeight threeRows * _usedLines threeRows))
        (mkQPoint 2 3) = true ->
      exists line column,
        characterPosition threeRows (mkQPoint 2 3) = Some (line, column)
        /\ 0 <= line < _usedLines threeRows
        /\ 0 <= column < _usedColumns threeRows
        /\ QRect_contains (cellRect threeRows column line) (mkQPoint 2 3)
           = true).
Proof.
  apply (characterPosition_inverts_cellRect threeRows (mkQPoint 2 3));
    unfold INT_MAX; simpl; lia.
Defined.

(** ** Triple clicks *)

(** The loop for the first row of a logical line passes the rows that
    are wrapped into the row it starts from. *)
Lemma lineStart_through (d : TerminalDisplay) (k : nat) (a b : Z) :
  0 <= a -> b = a + Z.of_nat k ->
  (forall r, a <= r < b -> lineWrapped d r = true) ->
  lineStart (Z.to_nat b) d b = lineStart (Z.to_nat a) d a.
Proof.
  revert b. induction k as [| k IH]; intros b Ha Hb Hw.
  - replace b with a by lia. reflexivity.
  - replace (Z.to_nat b) with (S (Z.to_nat (b - 1))) by lia.
    cbn [lineStart].
    replace (b >? 0) with true by (symmetry; apply Z.gtb_lt; lia).
    rewrite Hw by lia. cbn [andb].
    apply IH; [exact Ha | lia |]. intros r Hr. apply Hw. lia.
Qed.

Section TripleClicks.

Variable env : Collaborators.

(** X15.  With the cut-to-beginning-of-line option off, triple clicks on
    two rows of which the upper is wrapped into the lower, through the
    rows between them, select the same: the bounds sent to the screen
    window, the start kept for later drags and the row of the anchor are
    those of one and the same logical line. *)
Theorem tripleClick_same_on_wrapped_rows (ev1 ev2 : QMouseEvent)
  (d : TerminalDisplay) (l1 c1 l2 c2 : Z) :
  wellFormed d -> 1 <= _usedLines d -> 1 <= _usedColumns d ->
  _lines d <= len (_lineProperties d) ->
  _cutToBeginningOfLine d = false ->
  characterPosition d (ev_pos ev1) = Some (l1, c1) ->
  characterPosition d (ev_pos ev2) = Some (l2, c2) ->
  0 <= l1 <= l2 ->
  (forall r, l1 <= r < l2 -> lineWrapped d r = true) ->
  exists d1 d2,
    mouseTripleClickEvent env ev1 d = Some d1
    /\ mouseTripleClickEvent env ev2 d = Some d2
    /\ selectionStart (_screenWindow d1) = selectionStart (_screenWindow d2)
    /\ selectionEnd (_screenWindow d1) = selectionEnd (_screenWindow d2)
    /\ _tripleSelBegin d1 = _tripleSelBegin d2
    /\ py (_iPntSel d1) = py (_iPntSel d2).
Proof.
  intros _ _ _ _ Hcut Hp1 Hp2 Hl Hw.
  unfold mouseTripleClickEvent. rewrite Hp1, Hp2. cbv beta iota.
  cbn [px py _cutToBeginningOfLine set_actSel set_wordSelectionMode
       set_lineSelectionMode set_screenWindow].
  rewrite Hcut. cbv beta iota.
  set (d0 := set_actSel 2 _).
  assert (E : lineStart (Z.to_nat l2) d0 l2 = lineStart (Z.to_nat l1) d0 l1).
  { apply (lineStart_through d0 (Z.to_nat (l2 - l1))); [lia | lia |].
    intros r Hr. change (lineWrapped d0 r) with (lineWrapped d r).
    apply Hw. exact Hr. }
  rewrite E. cbn [px py].
  do 2 eexists. split; [reflexivity |]. split; [reflexivity |].
  repeat split; reflexivity.
Qed.

End TripleClicks.

Lemma tripleClick_same_on_wrapped_rows_witness :
  exists d1 d2,
    mouseTripleClickEvent plain (leftButtonAt 2 5) wrappedDisplay = Some d1
    /\ mouseTripleClickEvent plain (leftButtonAt 3 6) wrappedDisplay = Some d2
    /\ selectionStart (_screenWindow d1) = selectionStart (_screenWindow d2)
    /\ selectionEnd (_screenWindow d1) = selectionEnd (_screenWindow d2)
    /\ _tripleSelBegin d1 = _tripleSelBegin d2
    /\ py (_iPntSel d1) = py (_iPntSel d2).
Proof.
  apply (tripleClick_same_on_wrapped_rows plain (leftButtonAt 2 5)
           (leftButtonAt 3 6) wrappedDisplay 4 1 5 2);
    [wellFormed_concrete | simpl; lia | simpl; lia | vm_compute; discriminate
     | reflexivity | reflexivity | reflexivity | lia |].
  intros r Hr. replace r with 4 by lia. reflexivity.
Defined.

(** ** A click *)

Section Clicks.

Variable env : Collaborators.


End Clicks.

